(** * sncops file server: storage paths, metadata index and backup aggregate

    A shallow embedding of the storage layer of [server.js]: the path
    derivation of the upload, lookup and delete handlers, the flat metadata
    index ([fileMetadata]), the structured backup ([fullBackupData]) and the
    reconciliation block that runs when the process starts.

    Conventions.
    - JavaScript strings are modelled as byte strings; the character classes
      used by [trim], [/\s+/g] and [toLowerCase] are given on ASCII.
    - [undefined] is [None]; a template literal prints it as "undefined".
    - The [Map] [fileMetadata] is an insertion-ordered association list.
    - [fs.existsSync] is membership in a finite set of paths.
    - The clock, the identifier source and the two library functions
      [formatFileSize] (floating point) and [path.extname] are inputs. *)

From Stdlib Require Import Ascii String.
From stdpp Require Import base option list gmap strings.

Open Scope string_scope.
Open Scope list_scope.

(* ================================================================== *)
(** ** JavaScript strings *)

Module Js.

(** Truthiness of a string value, and of a possibly undefined one. *)
Definition truthy (s : string) : bool := negb (String.eqb s "").

Definition truthy_opt (o : option string) : bool :=
  match o with Some s => truthy s | None => false end.

(** [o || ''] *)
Definition or_empty (o : option string) : string := default "" o.

(** [`${o}`] *)
Definition tpl (o : option string) : string := default "undefined" o.

(** White space of [\s] and of [String.prototype.trim], on ASCII:
    TAB, LF, VT, FF, CR and SPACE. *)
Definition is_ws (c : ascii) : bool :=
  let n := nat_of_ascii c in
  (Nat.leb 9 n && Nat.leb n 13) || Nat.eqb n 32.

Fixpoint trim_start (s : string) : string :=
  match s with
  | String c s' => if is_ws c then trim_start s' else s
  | EmptyString => EmptyString
  end.

(** Removes trailing white space: a character is kept when something
    that survives follows it or when it is not white space. *)
Fixpoint trim_end (s : string) : string :=
  match s with
  | String c s' =>
      match trim_end s' with
      | EmptyString => if is_ws c then EmptyString else String c EmptyString
      | r => String c r
      end
  | EmptyString => EmptyString
  end.

Definition trim (s : string) : string := trim_end (trim_start s).

(** [s.replace(/\s+/g, r)]: every maximal run of white space becomes [r]. *)
Fixpoint replace_ws_from (in_run : bool) (r : string) (s : string) : string :=
  match s with
  | String c s' =>
      if is_ws c
      then (if in_run then replace_ws_from true r s'
            else r +:+ replace_ws_from true r s')
      else String c (replace_ws_from false r s')
  | EmptyString => EmptyString
  end.

Definition replace_ws (r s : string) : string := replace_ws_from false r s.

Definition lower_char (c : ascii) : ascii :=
  let n := nat_of_ascii c in
  if Nat.leb 65 n && Nat.leb n 90 then ascii_of_nat (n + 32) else c.

Fixpoint toLowerCase (s : string) : string :=
  match s with
  | String c s' => String (lower_char c) (toLowerCase s')
  | EmptyString => EmptyString
  end.

(** [s.includes(sub)] *)
Fixpoint includes (sub s : string) : bool :=
  String.prefix sub s ||
  match s with
  | String _ s' => includes sub s'
  | EmptyString => false
  end.

End Js.

(* ================================================================== *)
(** ** [path.join] (POSIX) *)

Module Path.

Definition slash : ascii := "/"%char.

(** The segments of a path between its separators; a path with [n]
    separators has [n + 1] segments, some of them possibly empty. *)
Fixpoint split (s : string) : list string :=
  match s with
  | EmptyString => [EmptyString]
  | String c s' =>
      if Ascii.eqb c slash then EmptyString :: split s'
      else match split s' with
           | seg :: rest => String c seg :: rest
           | [] => [String c EmptyString]
           end
  end.

(** [normalizeString]: empty and "." segments are dropped, ".." removes
    the segment before it; above the root it is kept only in a relative
    path. [acc] is the result so far, last segment first. *)
Fixpoint normalize_segments (allowAboveRoot : bool) (acc : list string)
    (segs : list string) : list string :=
  match segs with
  | [] => rev acc
  | seg :: segs' =>
      if String.eqb seg "" || String.eqb seg "." then
        normalize_segments allowAboveRoot acc segs'
      else if String.eqb seg ".." then
        match acc with
        | top :: acc' =>
            if String.eqb top ".."
            then normalize_segments allowAboveRoot (seg :: acc) segs'
            else normalize_segments allowAboveRoot acc' segs'
        | [] =>
            if allowAboveRoot
            then normalize_segments allowAboveRoot [seg] segs'
            else normalize_segments allowAboveRoot [] segs'
        end
      else normalize_segments allowAboveRoot (seg :: acc) segs'
  end.

Definition normalize (p : string) : string :=
  if String.eqb p "" then "." else
  let segs := split p in
  let isAbsolute := String.eqb (hd "x" segs) "" in
  let trailingSeparator := String.eqb (List.last segs "x") "" in
  let body := String.concat "/" (normalize_segments (negb isAbsolute) [] segs) in
  if String.eqb body "" then
    (if isAbsolute then "/" else if trailingSeparator then "./" else ".")
  else
    let body := if trailingSeparator then body +:+ "/" else body in
    if isAbsolute then "/" +:+ body else body.

(** [path.join(...args)]: the non-empty arguments, separated by "/",
    then normalised. *)
Definition join (args : list string) : string :=
  match List.filter Js.truthy args with
  | [] => "."
  | parts => normalize (String.concat "/" parts)
  end.

(** A path segment that [join] leaves as it is. *)
Definition plain (s : string) : bool :=
  Js.truthy s && negb (Js.includes "/" s)
  && negb (String.eqb s ".") && negb (String.eqb s "..").

(** The absolute path with the given segments. *)
Definition absolute (segs : list string) : string :=
  "/" +:+ String.concat "/" segs.

End Path.

(* ================================================================== *)
(** ** [JSON.stringify(value, null, 2)] *)

Module Json.

#[local] Set Warnings "-register-all".

Inductive t :=
  | Null
  | Str (s : string)
  | Arr (items : list t)
  | Obj (members : list (string * t)).

Definition nl : string := String (ascii_of_nat 10) EmptyString.

Definition hex_digit (n : nat) : ascii :=
  if Nat.ltb n 10 then ascii_of_nat (48 + n) else ascii_of_nat (87 + n).

Definition escape_char (c : ascii) : string :=
  let n := nat_of_ascii c in
  if Nat.eqb n 34 then "\" +:+ String c EmptyString
  else if Nat.eqb n 92 then "\\"
  else if Nat.eqb n 8 then "\b"
  else if Nat.eqb n 9 then "\t"
  else if Nat.eqb n 10 then "\n"
  else if Nat.eqb n 12 then "\f"
  else if Nat.eqb n 13 then "\r"
  else if Nat.ltb n 32 then
    "\u00" +:+ String (hex_digit (n / 16)) (String (hex_digit (n mod 16)) EmptyString)
  else String c EmptyString.

Fixpoint escape (s : string) : string :=
  match s with
  | String c s' => escape_char c +:+ escape s'
  | EmptyString => EmptyString
  end.

Definition dq : string := String (ascii_of_nat 34) EmptyString.

Definition quote (s : string) : string := dq +:+ escape s +:+ dq.

Fixpoint stringify_at (indent : string) (j : t) : string :=
  let inner := indent +:+ "  " in
  match j with
  | Null => "null"
  | Str s => quote s
  | Arr [] => "[]"
  | Arr items =>
      "[" +:+ nl
      +:+ String.concat ("," +:+ nl)
            (List.map (fun x => inner +:+ stringify_at inner x) items)
      +:+ nl +:+ indent +:+ "]"
  | Obj [] => "{}"
  | Obj members =>
      "{" +:+ nl
      +:+ String.concat ("," +:+ nl)
            (List.map (fun kv => match kv with
                                 | (k, v) => inner +:+ quote k +:+ ": " +:+ stringify_at inner v
                                 end) members)
      +:+ nl +:+ indent +:+ "}"
  end.

Definition stringify (j : t) : string := stringify_at "" j.

(** An object literal whose [undefined] members are left out. *)
Definition obj (members : list (string * option t)) : t :=
  Obj (omap (fun kv => match kv with (k, v) => pair k <$> v end) members).

End Json.

(* ================================================================== *)
(** ** Data model *)

(** Value of the flat index [fileMetadata]. *)
Module Meta.
Record t := mk {
  title : string;
  description : string;
  originalFileName : string
}.

Definition to_json (e : t) : Json.t :=
  Json.Obj [("title", Json.Str (title e));
            ("description", Json.Str (description e));
            ("originalFileName", Json.Str (originalFileName e))].
End Meta.

(** A record of one of the four lists of [fullBackupData]
    ([backupFileData] of the upload handler). [unit] is set on notes only. *)
Module Rec.
Record t := mk {
  id : string;
  title : string;
  description : string;
  fileName : string;
  storedFileName : string;
  fileSize : string;
  uploadDate : string;
  subject : string;
  type : string;
  filePath : string;
  unit : option string
}.

Definition to_json (r : t) : Json.t :=
  Json.obj [("id", Some (Json.Str (id r)));
            ("title", Some (Json.Str (title r)));
            ("description", Some (Json.Str (description r)));
            ("fileName", Some (Json.Str (fileName r)));
            ("storedFileName", Some (Json.Str (storedFileName r)));
            ("fileSize", Some (Json.Str (fileSize r)));
            ("uploadDate", Some (Json.Str (uploadDate r)));
            ("subject", Some (Json.Str (subject r)));
            ("type", Some (Json.Str (type r)));
            ("filePath", Some (Json.Str (filePath r)));
            ("unit", Json.Str <$> unit r)].
End Rec.

Module Subject.
Record t := mk {
  id : string;
  name : string;
  units : list string
}.

Definition to_json (s : t) : Json.t :=
  Json.Obj [("id", Json.Str (id s));
            ("name", Json.Str (name s));
            ("units", Json.Arr (List.map Json.Str (units s)))].
End Subject.

(** [fullBackupData], in memory. *)
Record Backup := {
  subjects : list Subject.t;
  notes : list Rec.t;
  practiceTests : list Rec.t;
  practicals : list Rec.t;
  assignments : list Rec.t;
  lastBackup : option string
}.

Definition empty_backup : Backup :=
  {| subjects := []; notes := []; practiceTests := []; practicals := [];
     assignments := []; lastBackup := None |}.

(** The parsed content of [sncop-backup.json]. A document without one of
    [subjects], [notes], [practiceTests], [practicals] makes the load throw
    and counts as unreadable; [assignments] may be missing. *)
Record BackupDoc := {
  doc_subjects : list Subject.t;
  doc_notes : list Rec.t;
  doc_practiceTests : list Rec.t;
  doc_practicals : list Rec.t;
  doc_assignments : option (list Rec.t);
  doc_lastBackup : option string
}.

Definition records_json (l : list Rec.t) : Json.t := Json.Arr (List.map Rec.to_json l).

(** Members in the order of the initial value of [fullBackupData]. *)
Definition backup_to_json (d : BackupDoc) : Json.t :=
  Json.obj [("subjects", Some (Json.Arr (List.map Subject.to_json (doc_subjects d))));
            ("notes", Some (records_json (doc_notes d)));
            ("practiceTests", Some (records_json (doc_practiceTests d)));
            ("practicals", Some (records_json (doc_practicals d)));
            ("assignments", records_json <$> doc_assignments d);
            ("lastBackup", Some (from_option Json.Str Json.Null (doc_lastBackup d)))].

(** The parsed content of [file-metadata.json], as [Object.entries] lists it. *)
Definition MetaDoc := list (string * Meta.t).

Definition metadata_to_json (d : MetaDoc) : Json.t :=
  Json.Obj (List.map (fun kv => (kv.1, Meta.to_json kv.2)) d).

(** What [fs.existsSync] and [fs.readFileSync] find for a JSON document. *)
Inductive Stored (A : Type) :=
  | Missing
  | Unreadable
  | Parsed (doc : A).
Arguments Missing {A}.
Arguments Unreadable {A}.
Arguments Parsed {A} doc.

(** What outlives the process: the storage tree and the two documents.
    [files] holds the paths of the tree without the documents, which are
    kept as what they parse to. The code has one file system for both;
    the two agree for the states that [documents_apart] describes and
    the requests that [plain_request] describes, which is where the
    properties that compare memory with the documents are stated. *)
Record Disk := {
  files : gset string;
  metadata_file : Stored MetaDoc;
  backup_file : Stored BackupDoc
}.

(** The server between two requests. *)
Record Server := {
  disk : Disk;
  fileMetadata : list (string * Meta.t);
  fullBackupData : Backup
}.

(** Readings of the clock and of the random source taken by a handler. *)
Record Env := {
  now : string;                (* Date.now().toString() *)
  iso_now : string;            (* new Date().toISOString() *)
  locale_date : string;        (* new Date().toLocaleDateString() *)
  fresh_id : nat -> string     (* Date.now().toString() + Math.random()..., n-th call *)
}.

(* ================================================================== *)
(** ** The [Map] [fileMetadata] *)

Module JsMap.
Section JsMap.
Context {V : Type}.
Implicit Types (m : list (string * V)) (k : string) (v : V).

Definition has k m : bool := bool_decide (k ∈ m.*1).

Fixpoint get k m : option V :=
  match m with
  | [] => None
  | (k', v') :: m' => if decide (k' = k) then Some v' else get k m'
  end.

(** [m.set(k, v)]: a known key keeps its position, a new one goes last. *)
Fixpoint set k v m : list (string * V) :=
  match m with
  | [] => [(k, v)]
  | (k', v') :: m' =>
      if decide (k' = k) then (k, v) :: m' else (k', v') :: set k v m'
  end.

Definition delete k m : list (string * V) := filter (fun kv => kv.1 ≠ k) m.

(** [new Map(entries)] *)
Definition of_entries (entries : list (string * V)) : list (string * V) :=
  fold_left (fun m kv => set kv.1 kv.2 m) entries [].

Definition size m : nat := length m.

End JsMap.
End JsMap.


(* ================================================================== *)
(** ** The file system, as far as the handlers look at it *)

Module Fs.

Definition existsSync (p : string) (fs : gset string) : bool := bool_decide (p ∈ fs).

(** [p] itself or something below it. *)
Definition within (p q : string) : Prop :=
  q = p ∨ String.prefix (p +:+ "/") q = true.

#[global] Instance within_dec p q : Decision (within p q).
Proof. unfold within. apply _. Defined.

(** [fs.removeSync(p)]: a file, or a directory with all it holds. *)
Definition removeSync (p : string) (fs : gset string) : gset string :=
  filter (fun q => ¬ within p q) fs.

Fixpoint chain (prefix_ : list string) (segs : list string) : list string :=
  match segs with
  | [] => []
  | seg :: segs' =>
      let here := prefix_ ++ [seg] in
      Path.absolute here :: chain here segs'
  end.

(** [fs.ensureDirSync(p)] for an absolute, normalised [p]: the directory
    and every directory above it exist afterwards. *)
Definition ensureDirSync (p : string) (fs : gset string) : gset string :=
  fs ∪ list_to_set (chain [] (tail (Path.split p))).

(** [fs.moveSync(src, dest)] refuses an existing destination (which
    includes [dest = src]) and a missing source. *)
Definition moveSync (src dest : string) (fs : gset string) : option (gset string) :=
  if existsSync dest fs then None
  else if existsSync src fs then Some (removeSync src fs ∪ {[dest]})
  else None.

End Fs.

(* ================================================================== *)
(** ** Requests and responses *)

(** [req.file], as multer leaves it. *)
Record ReqFile := {
  originalname : string;
  filename : string;
  size : N;
  path : string
}.

(** Fields of the multipart body of an upload; each may be absent. *)
Record UploadBody := {
  b_title : option string;
  b_subject : option string;
  b_type : option string;
  b_unit : option string;
  b_description : option string
}.

Inductive Response :=
  | Success (message : string)          (* res.json({ success: true, message }) *)
  | SendFile (filePath : string)        (* res.sendFile(filePath) *)
  | Failure (status : nat) (message : string).

(** What multer's [destination] hands to its callback. *)
Inductive Destination :=
  | Directory (uploadPath : string)
  | DestinationError (message : string).

(** The second and third component of a record's identity in its list:
    [storedFileName], [subject]; notes add [unit]. *)
Definition same_file (storedFileName subject : string) (r : Rec.t) : Prop :=
  Rec.storedFileName r = storedFileName ∧ Rec.subject r = subject.

Definition same_note (storedFileName subject unit : string) (r : Rec.t) : Prop :=
  Rec.storedFileName r = storedFileName ∧ Rec.subject r = subject
  ∧ Rec.unit r = Some unit.

#[global] Instance same_file_dec f s r : Decision (same_file f s r).
Proof. unfold same_file. apply _. Defined.

#[global] Instance same_note_dec f s u r : Decision (same_note f s u r).
Proof. unfold same_note. apply _. Defined.

(** [findIndex(s => s.name === name)] *)
Definition findIndex (name : string) (l : list Subject.t) : option nat :=
  fst <$> list_find (fun s => Subject.name s = name) l.

(** [subjects[i].units.push(unit)] unless the unit is included already. *)
Definition push_unit (unit : string) (s : Subject.t) : Subject.t :=
  if bool_decide (unit ∈ Subject.units s) then s
  else {| Subject.id := Subject.id s; Subject.name := Subject.name s;
          Subject.units := Subject.units s ++ [unit] |}.

Definition with_subjects (l : list Subject.t) (b : Backup) : Backup :=
  {| subjects := l; notes := notes b; practiceTests := practiceTests b;
     practicals := practicals b; assignments := assignments b;
     lastBackup := lastBackup b |}.

Definition with_notes (l : list Rec.t) (b : Backup) : Backup :=
  {| subjects := subjects b; notes := l; practiceTests := practiceTests b;
     practicals := practicals b; assignments := assignments b;
     lastBackup := lastBackup b |}.

Definition with_practiceTests (l : list Rec.t) (b : Backup) : Backup :=
  {| subjects := subjects b; notes := notes b; practiceTests := l;
     practicals := practicals b; assignments := assignments b;
     lastBackup := lastBackup b |}.

Definition with_practicals (l : list Rec.t) (b : Backup) : Backup :=
  {| subjects := subjects b; notes := notes b; practiceTests := practiceTests b;
     practicals := l; assignments := assignments b;
     lastBackup := lastBackup b |}.

Definition with_assignments (l : list Rec.t) (b : Backup) : Backup :=
  {| subjects := subjects b; notes := notes b; practiceTests := practiceTests b;
     practicals := practicals b; assignments := l;
     lastBackup := lastBackup b |}.

Definition with_files (fs : gset string) (s : Server) : Server :=
  {| disk := {| files := fs; metadata_file := metadata_file (disk s);
                backup_file := backup_file (disk s) |};
     fileMetadata := fileMetadata s; fullBackupData := fullBackupData s |}.

Definition with_fullBackupData (b : Backup) (s : Server) : Server :=
  {| disk := disk s; fileMetadata := fileMetadata s; fullBackupData := b |}.

(* ================================================================== *)
(** ** Persisting and loading the two documents *)

Definition backup_doc (b : Backup) (stamp : string) : BackupDoc :=
  {| doc_subjects := subjects b; doc_notes := notes b;
     doc_practiceTests := practiceTests b; doc_practicals := practicals b;
     doc_assignments := Some (assignments b); doc_lastBackup := Some stamp |}.

(** [saveMetadata]: both documents are rewritten from memory; the backup
    gets the time of the write as [lastBackup]. The two writes are taken
    to succeed, as they do while the storage directory exists and no
    directory stands at the path of a document ([documents_apart]); the
    [catch] block of the source, which only logs, is not modelled. *)
Definition saveMetadata (e : Env) (s : Server) : Server :=
  {| disk := {| files := files (disk s);
                metadata_file := Parsed (fileMetadata s);
                backup_file := Parsed (backup_doc (fullBackupData s) (iso_now e)) |};
     fileMetadata := fileMetadata s;
     fullBackupData := fullBackupData s |}.

Definition backup_of_doc (d : BackupDoc) : Backup :=
  {| subjects := doc_subjects d; notes := doc_notes d;
     practiceTests := doc_practiceTests d; practicals := doc_practicals d;
     assignments := default [] (doc_assignments d);
     lastBackup := doc_lastBackup d |}.

(** The [try] block that loads both documents: whatever fails, both
    structures start empty. *)
Definition load (d : Disk) : list (string * Meta.t) * Backup :=
  match metadata_file d with
  | Unreadable => ([], empty_backup)
  | stored =>
      let fileMetadata :=
        match stored with Parsed metadataObj => JsMap.of_entries metadataObj | _ => [] end in
      match backup_file d with
      | Unreadable => ([], empty_backup)
      | Missing => (fileMetadata, empty_backup)
      | Parsed doc => (fileMetadata, backup_of_doc doc)
      end
  end.

(* ================================================================== *)
(** ** Reconciliation at process start *)

Definition notes_key (note : Rec.t) : string :=
  Rec.subject note +:+ "-notes-" +:+ Js.tpl (Rec.unit note) +:+ "-"
  +:+ Rec.storedFileName note.

Definition practiceTests_key (test : Rec.t) : string :=
  Rec.subject test +:+ "-practice-tests--" +:+ Rec.storedFileName test.

Definition practicals_key (practical : Rec.t) : string :=
  Rec.subject practical +:+ "-practicals--" +:+ Rec.storedFileName practical.

Definition assignments_key (assignment : Rec.t) : string :=
  Rec.subject assignment +:+ "-assignments--" +:+ Rec.storedFileName assignment.

(** Body of each of the four [forEach] loops over a record list. *)
Definition add_missing (key : Rec.t -> string) (m : list (string * Meta.t))
    (r : Rec.t) : list (string * Meta.t) :=
  let metadataKey := key r in
  if JsMap.has metadataKey m then m
  else JsMap.set metadataKey
         {| Meta.title := Rec.title r; Meta.description := Rec.description r;
            Meta.originalFileName := Rec.fileName r |} m.

Definition backfill (key : Rec.t -> string) (records : list Rec.t)
    (m : list (string * Meta.t)) : list (string * Meta.t) :=
  fold_left (add_missing key) records m.

Definition populate (b : Backup) (m : list (string * Meta.t)) : list (string * Meta.t) :=
  backfill assignments_key (assignments b)
    (backfill practicals_key (practicals b)
       (backfill practiceTests_key (practiceTests b)
          (backfill notes_key (notes b) m))).

(** [Set.prototype.add], the set kept in insertion order. *)
Definition set_add (x : string) (s : list string) : list string :=
  if bool_decide (x ∈ s) then s else s ++ [x].

Definition add_subjects (records : list Rec.t) (allSubjects : list string) : list string :=
  fold_left (fun acc r => if Js.truthy (Rec.subject r) then set_add (Rec.subject r) acc else acc)
    records allSubjects.

Definition allSubjects (b : Backup) : list string :=
  add_subjects (assignments b)
    (add_subjects (practicals b)
       (add_subjects (practiceTests b)
          (add_subjects (notes b) []))).

Definition unit_set (notes : list Rec.t) (subject : string) : list string :=
  fold_left (fun units note => set_add (Js.or_empty (Rec.unit note)) units)
    (filter (fun note => Rec.subject note = subject ∧ Js.truthy_opt (Rec.unit note) = true) notes)
    [].

Definition reconstructed (e : Env) (b : Backup) : list Subject.t :=
  imap (fun i subject =>
          {| Subject.id := fresh_id e i; Subject.name := subject;
             Subject.units := unit_set (notes b) subject |})
       (allSubjects b).

Definition reconstruct (e : Env) (b : Backup) : Backup :=
  if Nat.eqb (length (subjects b)) 0
  then with_subjects (subjects b ++ reconstructed e b) b
  else b.

(** The block between the load and the multer configuration: the index
    is populated, the subjects are rebuilt, and both documents are saved
    when the index has grown or there are subjects. *)
Definition reconcile (e : Env) (s : Server) : Server :=
  let initialSize := JsMap.size (fileMetadata s) in
  let s' := {| disk := disk s;
               fileMetadata := populate (fullBackupData s) (fileMetadata s);
               fullBackupData := reconstruct e (fullBackupData s) |} in
  if Nat.ltb initialSize (JsMap.size (fileMetadata s'))
     || Nat.ltb 0 (length (subjects (fullBackupData s')))
  then saveMetadata e s' else s'.

(** The server right after the documents are loaded. *)
Definition loaded (d : Disk) : Server :=
  {| disk := d; fileMetadata := (load d).1; fullBackupData := (load d).2 |}.

(** What the process does with the disk it finds when it starts. *)
Definition startup (e : Env) (d : Disk) : Server := reconcile e (loaded d).

(* ================================================================== *)
(** ** Request handlers *)

Section Handlers.

(** Segments of [__dirname], the directory of [server.js]. *)
Variable dirname_segs : list string.
(** [formatFileSize], computed in floating point. *)
Variable formatFileSize : N -> string.
(** [path.extname] *)
Variable extname : string -> string.

Definition dirname : string := Path.absolute dirname_segs.

Definition STORAGE_DIR : string := Path.join [dirname; "storage"].

(** *** multer [destination] *)

Definition destination (x_subject x_type x_unit : option string) : Destination :=
  let subject := Js.trim (Js.or_empty x_subject) in
  let type := Js.trim (Js.or_empty x_type) in
  let unit := Js.trim (Js.or_empty x_unit) in
  if negb (Js.truthy subject) || negb (Js.truthy type) then
    Directory (Path.join [STORAGE_DIR; "temp"])
  else if negb (Js.truthy type) then
    DestinationError "Type is required"
  else if String.eqb type "notes" && Js.truthy unit then
    Directory (Path.join [STORAGE_DIR; subject; "notes"; unit])
  else if String.eqb type "practice-tests" then
    Directory (Path.join [STORAGE_DIR; subject; "practice-tests"])
  else if String.eqb type "practicals" then
    Directory (Path.join [STORAGE_DIR; subject; "practicals"])
  else if String.eqb type "assignments" then
    Directory (Path.join [STORAGE_DIR; subject; "assignments"])
  else
    DestinationError
      ("Invalid type: " +:+ type
       +:+ (if String.eqb type "notes" && negb (Js.truthy unit)
            then " (unit required for notes)" else "")).

(** *** POST /api/upload *)

(** [correctPath] of a file that multer parked in [temp]. *)
Definition correctPath (subject type : string) (unit : option string) : option string :=
  if String.eqb type "notes" && Js.truthy_opt unit then
    Some (Path.join [STORAGE_DIR; Js.trim subject; "notes"; Js.trim (Js.or_empty unit)])
  else if String.eqb type "practice-tests" then
    Some (Path.join [STORAGE_DIR; Js.trim subject; "practice-tests"])
  else if String.eqb type "practicals" then
    Some (Path.join [STORAGE_DIR; Js.trim subject; "practicals"])
  else if String.eqb type "assignments" then
    Some (Path.join [STORAGE_DIR; Js.trim subject; "assignments"])
  else None.

(** The relocation out of [temp]: the file system afterwards and the new
    [req.file.path], or no path when [fs.moveSync] throws. *)
Definition relocate (file : ReqFile) (subject type : string) (unit : option string)
    (fs : gset string) : gset string * option string :=
  if Js.includes "temp" (path file) then
    match correctPath subject type unit with
    | Some dir =>
        let fs1 := Fs.ensureDirSync dir fs in
        let newPath := Path.join [dir; filename file] in
        match Fs.moveSync (path file) newPath fs1 with
        | Some fs2 => (fs2, Some newPath)
        | None => (fs1, None)
        end
    | None => (fs, Some (path file))
    end
  else (fs, Some (path file)).

(** [backupFileData.unit = unit] *)
Definition with_unit (unit : string) (r : Rec.t) : Rec.t :=
  {| Rec.id := Rec.id r; Rec.title := Rec.title r;
     Rec.description := Rec.description r; Rec.fileName := Rec.fileName r;
     Rec.storedFileName := Rec.storedFileName r; Rec.fileSize := Rec.fileSize r;
     Rec.uploadDate := Rec.uploadDate r; Rec.subject := Rec.subject r;
     Rec.type := Rec.type r; Rec.filePath := Rec.filePath r;
     Rec.unit := Some unit |}.

(** The four branches that replace a record of the same physical file
    and append the new one. [type] and [unit] are the trimmed body fields;
    [req.file.filename] and [subject.trim()], which the filters compare
    with, are the [storedFileName] and [subject] of [backupFileData]. *)
Definition upsert (type unit : string) (backupFileData : Rec.t) (b : Backup) : Backup :=
  let filename := Rec.storedFileName backupFileData in
  let subject := Rec.subject backupFileData in
  if String.eqb type "notes" then
    with_notes
      (filter (fun note => ¬ same_note filename subject unit note) (notes b)
       ++ [with_unit unit backupFileData]) b
  else if String.eqb type "practice-tests" then
    with_practiceTests
      (filter (fun test => ¬ same_file filename subject test) (practiceTests b)
       ++ [backupFileData]) b
  else if String.eqb type "practicals" then
    with_practicals
      (filter (fun practical => ¬ same_file filename subject practical) (practicals b)
       ++ [backupFileData]) b
  else if String.eqb type "assignments" then
    with_assignments
      (filter (fun assignment => ¬ same_file filename subject assignment) (assignments b)
       ++ [backupFileData]) b
  else b.

(** Registration of the subject, and of the unit of a note, at the end
    of an upload. [type] and [unit] are the body fields as sent, [subject]
    is trimmed. *)
Definition register_subject (e : Env) (subject type : string) (unit : option string)
    (l : list Subject.t) : list Subject.t :=
  let is_note := String.eqb type "notes" && Js.truthy_opt unit in
  match findIndex subject l with
  | None =>
      l ++ [{| Subject.id := now e; Subject.name := subject;
               Subject.units := if is_note then [Js.trim (Js.or_empty unit)] else [] |}]
  | Some subjectIndex =>
      if is_note
      then alter (push_unit (Js.trim (Js.or_empty unit))) subjectIndex l
      else l
  end.

Definition blank (o : option string) : bool :=
  negb (Js.truthy_opt o) || negb (Js.truthy (Js.trim (Js.or_empty o))).

Definition upload (e : Env) (file : option ReqFile) (body : UploadBody)
    (s : Server) : Server * Response :=
  match file with
  | None => (s, Failure 400 "No file uploaded")
  | Some file =>
      if blank (b_title body) then (s, Failure 400 "Title is required")
      else if blank (b_subject body) then (s, Failure 400 "Subject is required")
      else if blank (b_type body) then (s, Failure 400 "Type is required")
      else
        let title := Js.or_empty (b_title body) in
        let subject := Js.or_empty (b_subject body) in
        let type := Js.or_empty (b_type body) in
        let unit := b_unit body in
        let description := Js.trim (Js.or_empty (b_description body)) in
        if String.eqb type "notes" && blank unit
        then (s, Failure 400 "Unit is required for notes")
        else
          match relocate file subject type unit (files (disk s)) with
          | (fs, None) =>
              (* the exception of [fs.moveSync] ends in the [catch] block *)
              (with_files fs s, Failure 500 "Failed to upload file")
          | (fs, Some filePath) =>
              let fileType :=
                if Js.includes "pdf" (Js.toLowerCase (extname (originalname file)))
                then "pdf" else "image" in
              let metadataKey :=
                Js.trim subject +:+ "-" +:+ Js.trim type +:+ "-"
                +:+ Js.trim (Js.or_empty unit) +:+ "-" +:+ filename file in
              let backupFileData :=
                {| Rec.id := now e; Rec.title := Js.trim title;
                   Rec.description := description;
                   Rec.fileName := originalname file;
                   Rec.storedFileName := filename file;
                   Rec.fileSize := formatFileSize (size file);
                   Rec.uploadDate := locale_date e;
                   Rec.subject := Js.trim subject;
                   Rec.type := fileType;
                   Rec.filePath := filePath;
                   Rec.unit := None |} in
              let m := JsMap.set metadataKey
                         {| Meta.title := Js.trim title; Meta.description := description;
                            Meta.originalFileName := originalname file |}
                         (fileMetadata s) in
              let b1 := upsert (Js.trim type) (Js.trim (Js.or_empty unit))
                          backupFileData (fullBackupData s) in
              let b2 := with_subjects
                          (register_subject e (Js.trim subject) type unit (subjects b1)) b1 in
              (saveMetadata e
                 {| disk := {| files := fs; metadata_file := metadata_file (disk s);
                               backup_file := backup_file (disk s) |};
                    fileMetadata := m; fullBackupData := b2 |},
               Success "File uploaded successfully")
          end
  end.

(** *** POST /api/subjects *)

Definition createSubjectStructure (subjectName : string) (units : list string)
    (fs : gset string) : gset string :=
  let subjectPath := Path.join [STORAGE_DIR; subjectName] in
  let notesPath := Path.join [subjectPath; "notes"] in
  let fs := Fs.ensureDirSync notesPath (Fs.ensureDirSync subjectPath fs) in
  let fs := fold_left (fun fs unit => Fs.ensureDirSync (Path.join [notesPath; unit]) fs)
              units fs in
  Fs.ensureDirSync (Path.join [subjectPath; "assignments"])
    (Fs.ensureDirSync (Path.join [subjectPath; "practicals"])
       (Fs.ensureDirSync (Path.join [subjectPath; "practice-tests"]) fs)).

Definition create_subject (e : Env) (name : string) (units : option (list string))
    (s : Server) : Server * Response :=
  let fs := createSubjectStructure name (default [] units) (files (disk s)) in
  let subjectData := {| Subject.id := now e; Subject.name := name;
                        Subject.units := default [] units |} in
  let l := subjects (fullBackupData s) in
  let l' := match findIndex name l with
            | Some existingSubjectIndex => <[existingSubjectIndex := subjectData]> l
            | None => l ++ [subjectData]
            end in
  (saveMetadata e (with_fullBackupData (with_subjects l' (fullBackupData s)) (with_files fs s)),
   Success "Subject directory structure created successfully").

(** *** POST /api/subjects/:subjectName/units *)

Definition create_unit (e : Env) (subjectName unitName : string)
    (s : Server) : Server * Response :=
  let unitPath := Path.join [STORAGE_DIR; subjectName; "notes"; unitName] in
  let s1 := with_files (Fs.ensureDirSync unitPath (files (disk s))) s in
  let l := subjects (fullBackupData s) in
  let s2 :=
    match list_find (fun x => Subject.name x = subjectName) l with
    | Some (subjectIndex, found) =>
        if bool_decide (unitName ∈ Subject.units found) then s1
        else saveMetadata e
               (with_fullBackupData
                  (with_subjects (alter (push_unit unitName) subjectIndex l) (fullBackupData s))
                  s1)
    | None => s1
    end in
  (s2, Success "Unit directory created successfully").

(** *** GET /api/files/:subject/:type/:unit?/:filename *)

(** The answer [SendFile p] of the lookup is the call [res.sendFile(p)]
    for a path that [fs.existsSync] has found. What the call does with
    the path, sending the file or answering 500 from its callback when
    the path is a directory or cannot be read, is not modelled. *)

Definition get_filePath (subject type : string) (unit : option string)
    (filename : string) : string :=
  if String.eqb type "notes" && Js.truthy_opt unit then
    Path.join [STORAGE_DIR; subject; "notes"; Js.or_empty unit; filename]
  else if String.eqb type "practice-tests" then
    Path.join [STORAGE_DIR; subject; "practice-tests"; filename]
  else if String.eqb type "practicals" then
    Path.join [STORAGE_DIR; subject; "practicals"; filename]
  else if String.eqb type "assignments" then
    Path.join [STORAGE_DIR; subject; "assignments"; filename]
  else
    Path.join [STORAGE_DIR; subject; type; filename].

Definition get_alternativePaths (subject type : string) (unit : option string)
    (filename : string) : list string :=
  (if String.eqb type "notes" && Js.truthy_opt unit then
     [Path.join [STORAGE_DIR; subject; "notes"; Js.replace_ws "_" (Js.or_empty unit); filename];
      Path.join [STORAGE_DIR; subject; "notes"; Js.replace_ws "-" (Js.or_empty unit); filename];
      Path.join [STORAGE_DIR; subject; "notes"; Js.toLowerCase (Js.or_empty unit); filename]]
   else if String.eqb type "practice-tests" then
     [Path.join [STORAGE_DIR; Js.replace_ws "_" subject; "practice-tests"; filename];
      Path.join [STORAGE_DIR; Js.replace_ws "-" subject; "practice-tests"; filename];
      Path.join [STORAGE_DIR; Js.toLowerCase subject; "practice-tests"; filename]]
   else if String.eqb type "practicals" then
     [Path.join [STORAGE_DIR; Js.replace_ws "_" subject; "practicals"; filename];
      Path.join [STORAGE_DIR; Js.replace_ws "-" subject; "practicals"; filename];
      Path.join [STORAGE_DIR; Js.toLowerCase subject; "practicals"; filename]]
   else if String.eqb type "assignments" then
     [Path.join [STORAGE_DIR; Js.replace_ws "_" subject; "assignments"; filename];
      Path.join [STORAGE_DIR; Js.replace_ws "-" subject; "assignments"; filename];
      Path.join [STORAGE_DIR; Js.toLowerCase subject; "assignments"; filename]]
   else [])
  ++
  (if negb (String.eqb type "practice-tests") && negb (String.eqb type "practicals")
      && negb (String.eqb type "assignments") then
     [Path.join [STORAGE_DIR; Js.replace_ws "_" subject; type; filename];
      Path.join [STORAGE_DIR; Js.replace_ws "-" subject; type; filename]]
   else []).

(** The [for] loop over [alternativePaths] that stops at the first
    path that exists. *)
Definition first_existing (fs : gset string) (paths : list string) : option string :=
  List.find (fun altPath => Fs.existsSync altPath fs) paths.

Definition get_file (subject type : string) (unit : option string) (filename : string)
    (s : Server) : Response :=
  let filePath := get_filePath subject type unit filename in
  if Fs.existsSync filePath (files (disk s)) then SendFile filePath
  else
    match first_existing (files (disk s))
            (get_alternativePaths subject type unit filename) with
    | Some foundPath => SendFile foundPath
    | None => Failure 404 "File not found"
    end.

(** *** DELETE /api/files/:subject/:type/:unit?/:filename *)

Definition delete_filePath (subject type : string) (unit : option string)
    (filename : string) : string :=
  if String.eqb type "notes" && Js.truthy_opt unit then
    Path.join [STORAGE_DIR; subject; "notes"; Js.or_empty unit; filename]
  else if String.eqb type "practice-tests" then
    Path.join [STORAGE_DIR; subject; "practice-tests"; filename]
  else if String.eqb type "practicals" then
    Path.join [STORAGE_DIR; subject; "practicals"; filename]
  else if String.eqb type "assignments" then
    Path.join [STORAGE_DIR; subject; "assignments"; filename]
  else
    Path.join [STORAGE_DIR; subject; type; filename].

Definition delete_alternativePaths (subject type : string) (unit : option string)
    (filename : string) : list string :=
  (if String.eqb type "notes" && Js.truthy_opt unit then
     [Path.join [STORAGE_DIR; subject; "notes"; Js.replace_ws "_" (Js.or_empty unit); filename];
      Path.join [STORAGE_DIR; subject; "notes"; Js.replace_ws "-" (Js.or_empty unit); filename];
      Path.join [STORAGE_DIR; subject; "notes"; Js.toLowerCase (Js.or_empty unit); filename]]
   else [])
  ++
  [Path.join [STORAGE_DIR; Js.replace_ws "_" subject; type; filename];
   Path.join [STORAGE_DIR; Js.replace_ws "-" subject; type; filename]].

(** What both branches of the delete handler do once a path to remove
    is known. *)
Definition forget (e : Env) (removed subject type : string) (unit : option string)
    (filename : string) (s : Server) : Server :=
  let fs := Fs.removeSync removed (files (disk s)) in
  let metadataKey :=
    subject +:+ "-" +:+ type +:+ "-" +:+ Js.or_empty unit +:+ "-" +:+ filename in
  let m := JsMap.delete metadataKey (fileMetadata s) in
  let b := fullBackupData s in
  let b' :=
    if String.eqb type "notes" then
      with_notes
        (filter (fun note => ¬ same_note filename subject (Js.or_empty unit) note) (notes b)) b
    else if String.eqb type "practice-tests" then
      with_practiceTests
        (filter (fun test => ¬ same_file filename subject test) (practiceTests b)) b
    else if String.eqb type "practicals" then
      with_practicals
        (filter (fun practical => ¬ same_file filename subject practical) (practicals b)) b
    else if String.eqb type "assignments" then
      with_assignments
        (filter (fun assignment => ¬ same_file filename subject assignment) (assignments b)) b
    else b in
  saveMetadata e
    {| disk := {| files := fs; metadata_file := metadata_file (disk s);
                  backup_file := backup_file (disk s) |};
       fileMetadata := m; fullBackupData := b' |}.

Definition delete_file (e : Env) (subject type : string) (unit : option string)
    (filename : string) (s : Server) : Server * Response :=
  let filePath := delete_filePath subject type unit filename in
  if Fs.existsSync filePath (files (disk s)) then
    (forget e filePath subject type unit filename s, Success "File deleted successfully")
  else
    match first_existing (files (disk s))
            (delete_alternativePaths subject type unit filename) with
    | Some deletedPath =>
        (forget e deletedPath subject type unit filename s,
         Success "File deleted successfully")
    | None => (s, Failure 404 "File not found")
    end.

(** *** DELETE /api/subjects/:subjectName *)

(** [fs.removeSync] takes what [files] holds at and below the directory
    of the subject. For a name that is a plain path segment this is all
    that the code removes; a name such as "." resolves to the storage
    directory, where the code removes the backup document as well. *)

Definition delete_subject (e : Env) (subjectName : string) (s : Server)
    : Server * Response :=
  if negb (Js.truthy subjectName) || String.eqb (Js.toLowerCase subjectName) "temp" then
    (s, Failure 400 "Invalid subject name")
  else
    let subjectPath := Path.join [STORAGE_DIR; subjectName] in
    let fs := if Fs.existsSync subjectPath (files (disk s))
              then Fs.removeSync subjectPath (files (disk s))
              else files (disk s) in
    let b := fullBackupData s in
    let b' :=
      {| subjects := filter (fun x => Subject.name x ≠ subjectName) (subjects b);
         notes := filter (fun n => Rec.subject n ≠ subjectName) (notes b);
         practiceTests := filter (fun t => Rec.subject t ≠ subjectName) (practiceTests b);
         practicals := filter (fun p => Rec.subject p ≠ subjectName) (practicals b);
         assignments := filter (fun a => Rec.subject a ≠ subjectName) (assignments b);
         lastBackup := lastBackup b |} in
    (saveMetadata e
       {| disk := {| files := fs; metadata_file := metadata_file (disk s);
                     backup_file := backup_file (disk s) |};
          fileMetadata := fileMetadata s; fullBackupData := b' |},
     Success ("Subject '" +:+ subjectName +:+ "' deleted successfully")).

(** [req.file.path]: multer joins the directory it was given and the
    file name. *)
Definition stored_at (d : Destination) (filename : string) : option string :=
  match d with
  | Directory uploadPath => Some (Path.join [uploadPath; filename])
  | DestinationError _ => None
  end.

(** [newPath] of a file moved out of [temp], if it is moved. *)
Definition relocated_to (subject type : string) (unit : option string)
    (filename : string) : option string :=
  (fun dir => Path.join [dir; filename]) <$> correctPath subject type unit.

(** *** The requests that change the stores *)

Inductive Request :=
  | Upload (file : option ReqFile) (body : UploadBody)
  | CreateSubject (name : string) (units : option (list string))
  | CreateUnit (subjectName unitName : string)
  | DeleteFile (subject type : string) (unit : option string) (filename : string)
  | DeleteSubject (subjectName : string).

Definition handle (e : Env) (r : Request) (s : Server) : Server * Response :=
  match r with
  | Upload file body => upload e file body s
  | CreateSubject name units => create_subject e name units s
  | CreateUnit subjectName unitName => create_unit e subjectName unitName s
  | DeleteFile subject type unit filename => delete_file e subject type unit filename s
  | DeleteSubject subjectName => delete_subject e subjectName s
  end.

End Handlers.

(* ================================================================== *)
(** ** File names: [path.extname], multer's [filename] and [fileFilter] *)

(** The text before and after the last "." of a string, if it has one. *)
Fixpoint cut_last_dot (s : string) : option (string * string) :=
  match s with
  | EmptyString => None
  | String c s' =>
      match cut_last_dot s' with
      | Some (before, after) => Some (String c before, after)
      | None => if Ascii.eqb c "." then Some (EmptyString, s') else None
      end
  end.

(** The last component of a path: what stands between the last
    separator and the end, trailing separators left aside. *)
Definition last_component (p : string) : string :=
  List.last (List.filter Js.truthy (Path.split p)) "".

(** [path.extname] (POSIX): from the last "." of the last component to
    its end; nothing when there is no ".", when the component starts with
    its only "." and when the component is "..". *)
Definition path_extname (p : string) : string :=
  let base := last_component p in
  match cut_last_dot base with
  | None => ""
  | Some (before, after) =>
      if String.eqb before "" || String.eqb base ".." then "" else "." +:+ after
  end.

Definition is_digit (c : ascii) : bool :=
  let n := nat_of_ascii c in Nat.leb 48 n && Nat.leb n 57.

Definition is_letter (c : ascii) : bool :=
  let n := nat_of_ascii c in
  (Nat.leb 65 n && Nat.leb n 90) || (Nat.leb 97 n && Nat.leb n 122).

(** [\w] *)
Definition is_word (c : ascii) : bool :=
  is_letter c || is_digit c || Ascii.eqb c "_".

Fixpoint map_chars (f : ascii -> ascii) (s : string) : string :=
  match s with
  | String c s' => String (f c) (map_chars f s')
  | EmptyString => EmptyString
  end.

(** [name.replace(/[^a-zA-Z0-9\-_]/g, '_')] *)
Definition sanitize_char (c : ascii) : ascii :=
  if is_letter c || is_digit c || Ascii.eqb c "-" || Ascii.eqb c "_" then c else "_"%char.

Definition sanitize (name : string) : string := map_chars sanitize_char name.

Section Multer.

(** [path.basename] *)
Variable basename : string -> string -> string.

(** multer's [filename]; [timestamp] is [Date.now()] as the template
    literal prints it. *)
Definition multer_filename (timestamp originalname : string) : string :=
  let ext := path_extname originalname in
  let name := basename originalname ext in
  let sanitizedName := sanitize name in
  sanitizedName +:+ "_" +:+ timestamp +:+ ext.

End Multer.

(** [/pdf|jpeg|jpg|png|gif/.test(s)] *)
Definition allowedTypes (s : string) : bool :=
  Js.includes "pdf" s || Js.includes "jpeg" s || Js.includes "jpg" s
  || Js.includes "png" s || Js.includes "gif" s.

(** multer's [fileFilter]: [true] accepts the file, [false] is the error
    "Only PDF and image files are allowed!". *)
Definition fileFilter (originalname mimetype : string) : bool :=
  let extname := allowedTypes (Js.toLowerCase (path_extname originalname)) in
  let mimetype := allowedTypes mimetype in
  mimetype && extname.

(** ['pdf'] or ['image'], as the upload and the listings decide it. *)
Definition fileType_of (name : string) : string :=
  if Js.includes "pdf" (Js.toLowerCase (path_extname name)) then "pdf" else "image".

(* ================================================================== *)
(** ** Titles of the files found on disk ([getSubjectFiles]) *)

(** [s.replace(/\.[^/.]+$/, "")] *)
Definition strip_extension (s : string) : string :=
  match cut_last_dot s with
  | Some (before, after) =>
      if Js.truthy after && negb (Js.includes "/" after) then before else s
  | None => s
  end.

Fixpoint all_digits (n : nat) (s : string) : bool :=
  match n, s with
  | O, EmptyString => true
  | S n', String c s' => is_digit c && all_digits n' s'
  | _, _ => false
  end.

(** [s.replace(/_\d{13}$/, "")] *)
Fixpoint strip_timestamp (s : string) : string :=
  match s with
  | String c s' =>
      if Ascii.eqb c "_" && all_digits 13 s' then EmptyString
      else String c (strip_timestamp s')
  | EmptyString => EmptyString
  end.

(** [s.replace(/_/g, " ")] *)
Definition underscores_to_spaces (s : string) : string :=
  map_chars (fun c => if Ascii.eqb c "_" then " "%char else c) s.

Definition upper_char (c : ascii) : ascii :=
  let n := nat_of_ascii c in
  if Nat.leb 97 n && Nat.leb n 122 then ascii_of_nat (n - 32) else c.

(** [s.replace(/\b\w/g, l => l.toUpperCase())]: a word character is put
    in upper case when no word character stands before it. *)
Fixpoint capitalize_from (after_word : bool) (s : string) : string :=
  match s with
  | String c s' =>
      String (if is_word c && negb after_word then upper_char c else c)
             (capitalize_from (is_word c) s')
  | EmptyString => EmptyString
  end.

Definition capitalize_words (s : string) : string := capitalize_from false s.

Definition baseTitle (filename : string) : string :=
  capitalize_words (underscores_to_spaces (strip_timestamp (strip_extension filename))).

(** An element of the lists that [getSubjectFiles] returns. *)
Record Item := {
  i_filename : string;
  i_title : string;
  i_description : string;
  i_size : string;
  i_modified : string;
  i_type : string;
  i_subject : string;
  i_unit : option string
}.

(** [metadata?.title || baseTitle] *)
Definition title_or (metadata : option Meta.t) (baseTitle : string) : string :=
  match metadata with
  | Some m => if Js.truthy (Meta.title m) then Meta.title m else baseTitle
  | None => baseTitle
  end.

(** [metadata?.title && metadata.title.trim() !== '' ? metadata.title : baseTitle] *)
Definition nonblank_title_or (metadata : option Meta.t) (baseTitle : string) : string :=
  match metadata with
  | Some m =>
      if Js.truthy (Meta.title m) && negb (String.eqb (Js.trim (Meta.title m)) "")
      then Meta.title m else baseTitle
  | None => baseTitle
  end.

(** [metadata?.description || ''] *)
Definition description_or_empty (metadata : option Meta.t) : string :=
  match metadata with
  | Some m => Meta.description m
  | None => ""
  end.

Section Listing.

Variable dirname_segs : list string.
Variable formatFileSize : N -> string.

(** The callbacks of the four [files.map] of [getSubjectFiles]; [size]
    and [modified] are [stats.size] and [stats.mtime.toLocaleDateString()]. *)
Definition notes_item (m : list (string * Meta.t)) (subjectName unit filename : string)
    (size : N) (modified : string) : Item :=
  let metadataKey := subjectName +:+ "-notes-" +:+ unit +:+ "-" +:+ filename in
  let metadata := JsMap.get metadataKey m in
  {| i_filename := filename;
     i_title := title_or metadata (baseTitle filename);
     i_description := description_or_empty metadata;
     i_size := formatFileSize size; i_modified := modified;
     i_type := fileType_of filename;
     i_subject := subjectName; i_unit := Some unit |}.

Definition assignments_item (m : list (string * Meta.t)) (subjectName filename : string)
    (size : N) (modified : string) : Item :=
  let metadataKey := subjectName +:+ "-assignments--" +:+ filename in
  let metadata := JsMap.get metadataKey m in
  {| i_filename := filename;
     i_title := title_or metadata (baseTitle filename);
     i_description := description_or_empty metadata;
     i_size := formatFileSize size; i_modified := modified;
     i_type := fileType_of filename;
     i_subject := subjectName; i_unit := None |}.

Definition practiceTests_item (m : list (string * Meta.t)) (subjectName filename : string)
    (size : N) (modified : string) : Item :=
  let metadataKey := subjectName +:+ "-practice-tests--" +:+ filename in
  let metadata := JsMap.get metadataKey m in
  {| i_filename := filename;
     i_title := nonblank_title_or metadata (baseTitle filename);
     i_description := description_or_empty metadata;
     i_size := formatFileSize size; i_modified := modified;
     i_type := fileType_of filename;
     i_subject := subjectName; i_unit := None |}.

Definition practicals_item (m : list (string * Meta.t)) (subjectName filename : string)
    (size : N) (modified : string) : Item :=
  let metadataKey := subjectName +:+ "-practicals--" +:+ filename in
  let metadata := JsMap.get metadataKey m in
  {| i_filename := filename;
     i_title := nonblank_title_or metadata (baseTitle filename);
     i_description := description_or_empty metadata;
     i_size := formatFileSize size; i_modified := modified;
     i_type := fileType_of filename;
     i_subject := subjectName; i_unit := None |}.

(** *** POST /api/verify-files *)

(** An element of [files] in the body; any field may be missing. *)
Record VerifyFile := {
  v_id : option string;
  v_type : option string;
  v_unit : option string;
  v_subject : option string;
  v_storedFileName : option string
}.

(** An element of [verifiedFiles]: the file exists at [filePath], it
    does not, or [path.join] threw on a field that is not a string. *)
Inductive Verified :=
  | Exists (id : option string) (filePath : string)
  | Absent (id : option string) (filePath : string)
  | Threw (id : option string).

(** [path.join] of the storage directory and fields of the request. *)
Definition join_fields (fields : list (option string)) : option string :=
  (fun segs => Path.join (STORAGE_DIR dirname_segs :: segs)) <$> mapM id fields.

Definition verify_file (fs : gset string) (file : VerifyFile) : Verified :=
  let resolved : option (option string) :=
    if bool_decide (v_type file = Some "notes") && Js.truthy_opt (v_unit file) then
      Some (join_fields [v_subject file; Some "notes"; v_unit file; v_storedFileName file])
    else if bool_decide (v_type file = Some "practice-tests") then
      Some (join_fields [v_subject file; Some "practice-tests"; v_storedFileName file])
    else if bool_decide (v_type file = Some "practicals") then
      Some (join_fields [v_subject file; Some "practicals"; v_storedFileName file])
    else if bool_decide (v_type file = Some "assignments") then
      Some (join_fields [v_subject file; Some "assignments"; v_storedFileName file])
    else None in
  match resolved with
  | Some None => Threw (v_id file)
  | Some (Some filePath) =>
      if Fs.existsSync filePath fs then Exists (v_id file) filePath
      else Absent (v_id file) filePath
  | None => Absent (v_id file) "unknown"
  end.

Definition verify_files (requested : list VerifyFile) (s : Server) : list Verified :=
  verify_file (files (disk s)) <$> requested.

End Listing.

(* ================================================================== *)
(** ** The paths of the two documents *)

Section Documents.

Variable dirname_segs : list string.

(** [METADATA_FILE] *)
Definition METADATA_FILE : string :=
  Path.join [dirname dirname_segs; "file-metadata.json"].

(** [FULL_BACKUP_FILE] *)
Definition FULL_BACKUP_FILE : string :=
  Path.join [STORAGE_DIR dirname_segs; "sncop-backup.json"].

End Documents.

(* ================================================================== *)
(** ** Notions used to state the properties *)

(** The distinct values of a list, each at its first occurrence. *)
Fixpoint distinct (l : list string) : list string :=
  match l with
  | [] => []
  | x :: l' => x :: filter (fun y => y ≠ x) (distinct l')
  end.

(** The list of [fullBackupData] that holds the records of a category. *)
Definition category_list (type : string) (b : Backup) : list Rec.t :=
  if String.eqb type "notes" then notes b
  else if String.eqb type "practice-tests" then practiceTests b
  else if String.eqb type "practicals" then practicals b
  else if String.eqb type "assignments" then assignments b
  else [].

Definition categories : list string :=
  ["notes"; "practice-tests"; "practicals"; "assignments"].

(** Physical identity of a record within its category list. *)
Definition same_identity (type storedFileName subject unit : string) (r : Rec.t) : Prop :=
  if String.eqb type "notes" then same_note storedFileName subject unit r
  else same_file storedFileName subject r.

#[global] Instance same_identity_dec t f s u r : Decision (same_identity t f s u r).
Proof. unfold same_identity. destruct (String.eqb t "notes"); apply _. Defined.

(** Every subject entry is still at its place, under its name and
    identifier, and has kept all its units. *)
Definition units_kept (before after : list Subject.t) : Prop :=
  ∀ i s, before !! i = Some s →
    ∃ s', after !! i = Some s' ∧ Subject.name s' = Subject.name s
          ∧ Subject.id s' = Subject.id s
          ∧ Subject.units s `prefix_of` Subject.units s'.

(** The backup document without its time stamp. *)
Definition unstamped (d : Stored BackupDoc) : Stored BackupDoc :=
  match d with
  | Parsed doc =>
      Parsed {| doc_subjects := doc_subjects doc; doc_notes := doc_notes doc;
                doc_practiceTests := doc_practiceTests doc;
                doc_practicals := doc_practicals doc;
                doc_assignments := doc_assignments doc;
                doc_lastBackup := None |}
  | other => other
  end.

(** The bytes of the two documents, when present. *)
Definition metadata_bytes (d : Disk) : option string :=
  match metadata_file d with
  | Parsed doc => Some (Json.stringify (metadata_to_json doc))
  | _ => None
  end.

Definition backup_bytes (d : Disk) : option string :=
  match backup_file d with
  | Parsed doc => Some (Json.stringify (backup_to_json doc))
  | _ => None
  end.

(** [p] is the first path of [paths] that exists. *)
Definition first_hit (fs : gset string) (paths : list string) (p : string) : Prop :=
  ∃ i, paths !! i = Some p ∧ p ∈ fs
       ∧ ∀ j q, j < i → paths !! j = Some q → q ∉ fs.

Section FallbackOrder.

Variable dirname_segs : list string.

Local Abbreviation STORAGE := (STORAGE_DIR dirname_segs).

(** The unit with runs of white space replaced by an underscore, by a
    hyphen, and the unit in lower case. *)
Definition unit_variants (subject unit filename : string) : list string :=
  [Path.join [STORAGE; subject; "notes"; Js.replace_ws "_" unit; filename];
   Path.join [STORAGE; subject; "notes"; Js.replace_ws "-" unit; filename];
   Path.join [STORAGE; subject; "notes"; Js.toLowerCase unit; filename]].

(** The subject with runs of white space replaced by an underscore and
    by a hyphen; the unit is not part of these paths. *)
Definition subject_variants (subject type filename : string) : list string :=
  [Path.join [STORAGE; Js.replace_ws "_" subject; type; filename];
   Path.join [STORAGE; Js.replace_ws "-" subject; type; filename]].

Definition subject_lowered (subject type filename : string) : string :=
  Path.join [STORAGE; Js.toLowerCase subject; type; filename].

(** The order in which the lookup tries its fallback paths. *)
Definition lookup_order (subject type : string) (unit : option string)
    (filename : string) : list string :=
  if String.eqb type "notes" && Js.truthy_opt unit then
    unit_variants subject (Js.or_empty unit) filename
    ++ subject_variants subject type filename
  else if bool_decide (type ∈ ["practice-tests"; "practicals"; "assignments"]) then
    subject_variants subject type filename ++ [subject_lowered subject type filename]
  else subject_variants subject type filename.

End FallbackOrder.

(** The record as its list holds it: a note carries the unit. *)
Definition as_stored (type unit : string) (r : Rec.t) : Rec.t :=
  if String.eqb type "notes" then with_unit unit r else r.

Definition entry_of (r : Rec.t) : Meta.t :=
  {| Meta.title := Rec.title r; Meta.description := Rec.description r;
     Meta.originalFileName := Rec.fileName r |}.

(** The index keys of all records of a backup. *)
Definition record_keys (b : Backup) : list string :=
  (notes_key <$> notes b) ++ (practiceTests_key <$> practiceTests b)
  ++ (practicals_key <$> practicals b) ++ (assignments_key <$> assignments b).

(** Records as an upload writes them: with a subject, and notes with a unit. *)
Definition well_formed (b : Backup) : Prop :=
  Forall (fun r => Rec.subject r ≠ "")
    (notes b ++ practiceTests b ++ practicals b ++ assignments b)
  ∧ Forall (fun r => ∃ u, Rec.unit r = Some u ∧ u ≠ "") (notes b).

(** A backup with another time stamp. *)
Definition stamped (stamp : option string) (b : Backup) : Backup :=
  {| subjects := subjects b; notes := notes b; practiceTests := practiceTests b;
     practicals := practicals b; assignments := assignments b; lastBackup := stamp |}.

(** The backup without its time stamp. *)
Definition unstamp (b : Backup) : Backup := stamped None b.

(** The requests under which the units of every subject only grow: all
    but the deletion of a subject and the creation of a subject whose
    name is taken. *)
Definition keeps_units (r : Request) (s : Server) : Prop :=
  match r with
  | DeleteSubject _ => False
  | CreateSubject name _ => findIndex name (subjects (fullBackupData s)) = None
  | _ => True
  end.

(** Case analysis on membership in a list given by its elements. *)
Ltac cases_mem H :=
  repeat (apply elem_of_cons in H as [-> | H]); [.. | by apply elem_of_nil in H].

(* ================================================================== *)
(** ** Sample data *)

Definition sample_dirname : list string := ["srv"; "app"].

Definition server_with (paths : list string) : Server :=
  {| disk := {| files := list_to_set paths; metadata_file := Missing;
                backup_file := Missing |};
     fileMetadata := []; fullBackupData := empty_backup |}.

Definition sample_env : Env :=
  {| now := "1700000000123"; iso_now := "2023-11-14T22:13:20.123Z";
     locale_date := "11/14/2023"; fresh_id := fun n => "1700000000123r" |}.

Definition sample_record (title : string) : Rec.t :=
  {| Rec.id := "1700000000123"; Rec.title := title; Rec.description := "";
     Rec.fileName := "a.pdf"; Rec.storedFileName := "a_1700000000123.pdf";
     Rec.fileSize := "1 KB"; Rec.uploadDate := "11/14/2023"; Rec.subject := "Math";
     Rec.type := "pdf"; Rec.filePath := "/srv/app/storage/Math/notes/Unit 1/a_1700000000123.pdf";
     Rec.unit := None |}.

Definition later_env : Env :=
  {| now := "1700000001000"; iso_now := "2023-11-14T22:13:21.000Z";
     locale_date := "11/14/2023"; fresh_id := fun n => "1700000001000r" |}.

Definition math : Subject.t :=
  {| Subject.id := "1700000000000"; Subject.name := "Math"; Subject.units := ["U1"] |}.

Definition note (title unit : string) : Rec.t :=
  {| Rec.id := "1700000000123"; Rec.title := title; Rec.description := "";
     Rec.fileName := "a.pdf"; Rec.storedFileName := "a_1700000000123.pdf";
     Rec.fileSize := "1 KB"; Rec.uploadDate := "11/14/2023"; Rec.subject := "Math";
     Rec.type := "pdf";
     Rec.filePath := "/srv/app/storage/Math/notes/" +:+ unit +:+ "/a_1700000000123.pdf";
     Rec.unit := Some unit |}.

(** A backup with one subject and no record, never saved before. *)
Definition one_subject_disk : Disk :=
  {| files := ∅; metadata_file := Missing;
     backup_file := Parsed {| doc_subjects := [math]; doc_notes := [];
                              doc_practiceTests := []; doc_practicals := [];
                              doc_assignments := Some []; doc_lastBackup := None |} |}.

Definition one_subject_server : Server :=
  {| disk := one_subject_disk; fileMetadata := [];
     fullBackupData := with_subjects [math] empty_backup |}.

(** The backup of the example of the specification: no subject, two
    notes of "Math" in the units "U1" and "U2". *)
Definition two_notes_backup : Backup :=
  with_notes [note "first" "U1"; note "second" "U2"] empty_backup.

(** The same file name stored under the unit "Unit 1" and under "unit 1". *)
Definition two_units_server : Server :=
  saveMetadata sample_env
    {| disk := {| files := list_to_set
                    ["/srv/app/storage/Math/notes/Unit 1/a_1700000000123.pdf";
                     "/srv/app/storage/Math/notes/unit 1/a_1700000000123.pdf"];
                  metadata_file := Missing; backup_file := Missing |};
       fileMetadata :=
         [("Math-notes-Unit 1-a_1700000000123.pdf", entry_of (note "upper" "Unit 1"));
          ("Math-notes-unit 1-a_1700000000123.pdf", entry_of (note "lower" "unit 1"))];
       fullBackupData :=
         with_subjects [{| Subject.id := "1700000000000"; Subject.name := "Math";
                           Subject.units := ["Unit 1"; "unit 1"] |}]
           (with_notes [note "upper" "Unit 1"; note "lower" "unit 1"] empty_backup) |}.

(** One stored note. *)
Definition one_note_server : Server :=
  saveMetadata sample_env
    {| disk := {| files := list_to_set
                    ["/srv/app/storage/Math/notes/Unit 1/a_1700000000123.pdf"];
                  metadata_file := Missing; backup_file := Missing |};
       fileMetadata :=
         [("Math-notes-Unit 1-a_1700000000123.pdf", entry_of (note "upper" "Unit 1"))];
       fullBackupData :=
         with_subjects [{| Subject.id := "1700000000000"; Subject.name := "Math";
                           Subject.units := ["Unit 1"] |}]
           (with_notes [note "upper" "Unit 1"] empty_backup) |}.

(** An index entry whose title differs from the title of its record. *)
Definition retitled_disk : Disk :=
  {| files := ∅;
     metadata_file :=
       Parsed [("Math-notes-U1-a_1700000000123.pdf",
                {| Meta.title := "kept"; Meta.description := "";
                   Meta.originalFileName := "a.pdf" |})];
     backup_file :=
       Parsed {| doc_subjects := [math]; doc_notes := [note "first" "U1"; note "second" "U2"];
                 doc_practiceTests := []; doc_practicals := [];
                 doc_assignments := None; doc_lastBackup := None |} |}.

(* ================================================================== *)
(** ** Further notions *)

(** The item that [getSubjectFiles] builds for a file found in the
    directory of a subject and category (and unit, for notes). *)
Definition listing_item (formatFileSize : N -> string) (m : list (string * Meta.t))
    (subjectName type unit filename : string) (size : N) (modified : string) : Item :=
  if String.eqb type "notes" then
    notes_item formatFileSize m subjectName unit filename size modified
  else if String.eqb type "practice-tests" then
    practiceTests_item formatFileSize m subjectName filename size modified
  else if String.eqb type "practicals" then
    practicals_item formatFileSize m subjectName filename size modified
  else
    assignments_item formatFileSize m subjectName filename size modified.

(** The units of every subject entry are pairwise different. *)
Definition distinct_units (l : list Subject.t) : Prop :=
  Forall (fun s => NoDup (Subject.units s)) l.

(** A restart would load what is in memory now: the index as it is, and
    the backup up to its time stamp. *)
Definition durable (s : Server) : Prop :=
  NoDup (fileMetadata s).*1
  ∧ (load (disk s)).1 = fileMetadata s
  ∧ unstamp (load (disk s)).2 = unstamp (fullBackupData s).

Section Run.

Variable dirname_segs : list string.
Variable formatFileSize : N -> string.
Variable extname : string -> string.

(** The server after a sequence of requests, each with the readings of
    the clock it takes. *)
Fixpoint run (trace : list (Env * Request)) (s : Server) : Server :=
  match trace with
  | [] => s
  | (e, r) :: trace' =>
      run trace' (handle dirname_segs formatFileSize extname e r s).1
  end.

End Run.

(** The fields of a request to [verify-files] that names a file. *)
Definition verify_request (id : option string) (subject type : string)
    (unit : option string) (filename : string) : VerifyFile :=
  {| v_id := id; v_type := Some type; v_unit := unit; v_subject := Some subject;
     v_storedFileName := Some filename |}.

(** The trimmed fields of the body of an upload, the key of its index
    entry, the entry, and the record that goes to the backup. *)
Definition upload_subject (body : UploadBody) : string :=
  Js.trim (Js.or_empty (b_subject body)).

Definition upload_type (body : UploadBody) : string :=
  Js.trim (Js.or_empty (b_type body)).

Definition upload_unit (body : UploadBody) : string :=
  Js.trim (Js.or_empty (b_unit body)).

Definition upload_title (body : UploadBody) : string :=
  Js.trim (Js.or_empty (b_title body)).

Definition upload_description (body : UploadBody) : string :=
  Js.trim (Js.or_empty (b_description body)).

Definition upload_key (body : UploadBody) (file : ReqFile) : string :=
  upload_subject body +:+ "-" +:+ upload_type body +:+ "-"
  +:+ upload_unit body +:+ "-" +:+ filename file.

Definition upload_entry (body : UploadBody) (file : ReqFile) : Meta.t :=
  {| Meta.title := upload_title body; Meta.description := upload_description body;
     Meta.originalFileName := originalname file |}.

Definition upload_record (formatFileSize : N -> string) (extname : string -> string)
    (e : Env) (body : UploadBody) (file : ReqFile) (filePath : string) : Rec.t :=
  {| Rec.id := now e; Rec.title := upload_title body;
     Rec.description := upload_description body;
     Rec.fileName := originalname file;
     Rec.storedFileName := filename file;
     Rec.fileSize := formatFileSize (size file);
     Rec.uploadDate := locale_date e;
     Rec.subject := upload_subject body;
     Rec.type := if Js.includes "pdf" (Js.toLowerCase (extname (originalname file)))
                 then "pdf" else "image";
     Rec.filePath := filePath;
     Rec.unit := None |}.

(** [files] holds the storage tree without the two documents, which the
    model keeps as values of their own, and [saveMetadata] writes them
    without looking at the tree. The code does the same as long as the
    storage directory exists and nothing of the tree stands at the path
    of a document: then the writes of [saveMetadata] succeed, and what a
    handler removes or creates is no document. *)
Definition documents_apart (dirname_segs : list string) (fs : gset string) : Prop :=
  STORAGE_DIR dirname_segs ∈ fs
  ∧ (METADATA_FILE dirname_segs ∉ fs)
  ∧ (FULL_BACKUP_FILE dirname_segs ∉ fs).

(** A name for the directory of a subject: a plain segment other than
    the name of the backup document. *)
Definition subject_name (name : string) : Prop :=
  Path.plain name = true ∧ name ≠ "sncop-backup.json".

(** [req.file] as multer leaves it: under a plain name, in a directory
    below the storage directory that multer's [destination] has made,
    not at the path of the backup document. *)
Definition placed_by_multer (dirname_segs : list string) (file : ReqFile) : Prop :=
  Path.plain (filename file) = true
  ∧ ∃ segs, segs ≠ [] ∧ Forall (fun s => Path.plain s = true) segs
            ∧ (∀ rest, segs ≠ "sncop-backup.json" :: rest)
            ∧ path file
              = Path.join [Path.join (STORAGE_DIR dirname_segs :: segs); filename file].

(** The requests whose names are plain path segments: what they resolve
    lies below the directory of a subject, or is that directory, and no
    directory of theirs stands at the path of the backup document. *)
Definition plain_request (dirname_segs : list string) (r : Request) : Prop :=
  match r with
  | Upload file body =>
      (∀ f, file = Some f → placed_by_multer dirname_segs f)
      ∧ (blank (b_subject body) = false → subject_name (upload_subject body))
      ∧ (blank (b_unit body) = false → Path.plain (upload_unit body) = true)
  | CreateSubject name units =>
      subject_name name ∧ Forall (fun u => Path.plain u = true) (default [] units)
  | CreateUnit subjectName unitName =>
      subject_name subjectName ∧ Path.plain unitName = true
  | DeleteFile subject type unit filename =>
      Path.plain subject = true ∧ Path.plain type = true
      ∧ (∀ u, unit = Some u → Path.plain u = true)
      ∧ Path.plain filename = true
  | DeleteSubject subjectName => Path.plain subjectName = true
  end.

(* ================================================================== *)
(** ** Further sample data *)

(** [path.basename(p, ext)] for the names of the examples: the last
    component, without [ext] when it ends with it. *)
Definition sample_basename (p ext : string) : string :=
  let base := last_component p in
  let n := String.length base - String.length ext in
  if String.eqb (String.substring n (String.length ext) base) ext
  then String.substring 0 n base else base.

Definition sample_size (bytes : N) : string := "1 KB".

(** A file that multer has parked in [temp]. *)
Definition parked_file : ReqFile :=
  {| originalname := "Intro To.Sets.pdf";
     filename := "Intro_To_Sets_1700000000123.pdf";
     size := 1024;
     path := "/srv/app/storage/temp/Intro_To_Sets_1700000000123.pdf" |}.

Definition parked_server : Server :=
  server_with ["/srv/app/storage/temp/Intro_To_Sets_1700000000123.pdf"].

Definition body_of (type : string) (unit : option string) : UploadBody :=
  {| b_title := Some " Sets "; b_subject := Some "Math"; b_type := Some type;
     b_unit := unit; b_description := Some "first chapter" |}.

(** A file that multer has put in the directory of the subject
    "Contemporary Art". *)
Definition placed_file : ReqFile :=
  {| originalname := "scale.pdf";
     filename := "scale_1700000000123.pdf";
     size := 1024;
     path := "/srv/app/storage/Contemporary Art/practicals/scale_1700000000123.pdf" |}.

Definition placed_server : Server :=
  server_with ["/srv/app/storage/Contemporary Art/practicals/scale_1700000000123.pdf"].

Definition placed_body : UploadBody :=
  {| b_title := Some "Scales"; b_subject := Some "Contemporary Art";
     b_type := Some "practicals"; b_unit := None; b_description := None |}.


Definition sample_trace : list (Env * Request) :=
  [(sample_env, CreateSubject "Physics" (Some ["U1"; "U2"]));
   (later_env, CreateUnit "Math" "U1")].

(** Requests that name the subject "Math" again and again. *)
Definition renaming_trace : list (Env * Request) :=
  [(sample_env, CreateSubject "Math" (Some ["U7"]));
   (later_env, Upload (Some parked_file) (body_of "notes" (Some "U1")));
   (later_env, CreateSubject "Physics" None);
   (later_env, DeleteSubject "Physics")].


(** The server of [one_note_server] with the storage directory among its
    paths. *)
Definition kept_note_server : Server :=
  with_files (list_to_set ["/srv/app/storage";
                           "/srv/app/storage/Math/notes/Unit 1/a_1700000000123.pdf"])
    one_note_server.

(** A disk with the storage directory, a parked file and the backup of
    one subject. *)
Definition kept_disk : Disk :=
  {| files := list_to_set ["/srv/app/storage";
                           "/srv/app/storage/temp/Intro_To_Sets_1700000000123.pdf"];
     metadata_file := Missing;
     backup_file := backup_file one_subject_disk |}.

Definition plain_trace : list (Env * Request) :=
  [(sample_env, CreateSubject "Physics" (Some ["U1"; "U2"]));
   (later_env, Upload (Some parked_file) (body_of "notes" (Some "U1")));
   (later_env, DeleteSubject "Physics")].


(* ================================================================== *)
(** ** Paths built from plain segments *)

Section PathFacts.

Lemma append_cons c (a b : string) : String c a +:+ b = String c (a +:+ b).
Proof. reflexivity. Qed.

Lemma includes_slash_cons c s :
  Js.includes "/" (String c s) = Ascii.eqb c Path.slash || Js.includes "/" s.
Proof.
  cbn [Js.includes String.prefix].
  destruct (ascii_dec "/" c) as [<-|Hne].
  - by destruct s.
  - destruct (Ascii.eqb_spec c Path.slash) as [->|_]; [by destruct Hne|].
    reflexivity.
Qed.

Lemma split_nonempty s : Path.split s ≠ [].
Proof.
  destruct s as [|c s]; cbn; [done|].
  destruct (Ascii.eqb c Path.slash); [done|].
  by destruct (Path.split s).
Qed.

Lemma split_no_slash s : Js.includes "/" s = false → Path.split s = [s].
Proof.
  induction s as [|c s IH]; [done|].
  rewrite includes_slash_cons. intros [Hc Hs]%orb_false_iff.
  cbn. rewrite Hc, (IH Hs). done.
Qed.

Lemma split_app_slash a b :
  Path.split (a +:+ String Path.slash b) = Path.split a ++ Path.split b.
Proof.
  induction a as [|c a IH]; [reflexivity|].
  change (String c a +:+ String Path.slash b) with (String c (a +:+ String Path.slash b)).
  cbn [Path.split]. rewrite IH. destruct (Ascii.eqb c Path.slash); [done|].
  pose proof (split_nonempty a). by destruct (Path.split a).
Qed.

Lemma plain_truthy s : Path.plain s = true → Js.truthy s = true.
Proof. unfold Path.plain. rewrite !andb_true_iff. tauto. Qed.

Lemma plain_no_slash s : Path.plain s = true → Js.includes "/" s = false.
Proof. unfold Path.plain. rewrite !andb_true_iff, !negb_true_iff. tauto. Qed.

Lemma plain_neq_empty s : Path.plain s = true → s ≠ "".
Proof. intros H%plain_truthy ->. done. Qed.

Lemma concat_cons sep x y l :
  String.concat sep (x :: y :: l) = x +:+ sep +:+ String.concat sep (y :: l).
Proof. reflexivity. Qed.

Lemma append_assoc (a b c : string) : (a +:+ b) +:+ c = a +:+ (b +:+ c).
Proof. induction a as [|x a IH]; [done|]. by rewrite !append_cons, IH. Qed.

Lemma concat_app sep xs ys :
  xs ≠ [] → ys ≠ [] →
  String.concat sep (xs ++ ys) = String.concat sep xs +:+ sep +:+ String.concat sep ys.
Proof.
  intros Hx Hy. induction xs as [|x xs IH]; [done|].
  destruct xs as [|x' xs].
  - destruct ys; [done|]. reflexivity.
  - change ((x :: x' :: xs) ++ ys) with (x :: x' :: (xs ++ ys)).
    rewrite !concat_cons. change (x' :: xs ++ ys) with ((x' :: xs) ++ ys).
    rewrite IH by done. by rewrite !append_assoc.
Qed.

Lemma split_concat xs :
  xs ≠ [] → Forall (fun s => Js.includes "/" s = false) xs →
  Path.split (String.concat "/" xs) = xs.
Proof.
  intros Hne H. induction H as [|x xs Hx _ IH]; [done|].
  destruct xs as [|y xs].
  - by apply split_no_slash.
  - rewrite concat_cons.
    change ("/" +:+ String.concat "/" (y :: xs))
      with (String Path.slash (String.concat "/" (y :: xs))).
    rewrite split_app_slash, IH by done.
    by rewrite split_no_slash.
Qed.

Lemma normalize_segments_plain allow acc xs :
  Forall (fun s => Path.plain s = true) xs →
  Path.normalize_segments allow acc xs = rev acc ++ xs.
Proof.
  intros H. revert acc. induction H as [|x xs Hx _ IH]; intros acc.
  - cbn. by rewrite app_nil_r.
  - cbn [Path.normalize_segments].
    unfold Path.plain, Js.truthy in Hx.
    rewrite !andb_true_iff, !negb_true_iff in Hx.
    destruct Hx as [[[-> _] ->] ->]. cbn [orb].
    rewrite IH. cbn. by rewrite <- app_assoc.
Qed.

Lemma concat_plain_neq_empty xs :
  xs ≠ [] → Forall (fun s => Path.plain s = true) xs → String.concat "/" xs ≠ "".
Proof.
  intros Hne H. destruct H as [|x xs Hx _]; [done|].
  apply plain_neq_empty in Hx. destruct x as [|c x]; [done|].
  destruct xs; cbn; done.
Qed.

Lemma last_plain xs d :
  xs ≠ [] → Forall (fun s => Path.plain s = true) xs → List.last xs d ≠ "".
Proof.
  intros Hne H. induction H as [|x xs Hx H IH]; [done|].
  destruct xs as [|y xs]; [by apply plain_neq_empty|].
  change (List.last (x :: y :: xs) d) with (List.last (y :: xs) d). by apply IH.
Qed.

Lemma eqb_false s t : s ≠ t → String.eqb s t = false.
Proof. intros H. by apply String.eqb_neq. Qed.

(** An absolute path over plain segments is its own normal form. *)
Lemma normalize_absolute xs :
  xs ≠ [] → Forall (fun s => Path.plain s = true) xs →
  Path.normalize (Path.absolute xs) = Path.absolute xs.
Proof.
  intros Hne H. unfold Path.normalize, Path.absolute.
  change ("/" +:+ String.concat "/" xs) with (String Path.slash (String.concat "/" xs)).
  cbn [String.eqb Path.split]. rewrite Ascii.eqb_refl.
  rewrite split_concat by (done || by eapply Forall_impl; [done|]; apply plain_no_slash).
  cbn [hd String.eqb negb].
  change (Path.normalize_segments false [] ("" :: xs)) with (Path.normalize_segments false [] xs).
  rewrite normalize_segments_plain by done. cbn [rev app].
  rewrite (eqb_false (String.concat "/" xs) "") by by apply concat_plain_neq_empty.
  destruct xs as [|x xs]; [done|].
  change (List.last ("" :: x :: xs) "x") with (List.last (x :: xs) "x").
  rewrite (eqb_false (List.last (x :: xs) "x") "") by by apply last_plain.
  reflexivity.
Qed.

(** The root followed by plain segments. *)
Lemma normalize_root_then xs :
  xs ≠ [] → Forall (fun s => Path.plain s = true) xs →
  Path.normalize ("/" +:+ "/" +:+ String.concat "/" xs) = Path.absolute xs.
Proof.
  intros Hne H. unfold Path.normalize, Path.absolute.
  change ("/" +:+ "/" +:+ String.concat "/" xs)
    with (String Path.slash (String Path.slash (String.concat "/" xs))).
  cbn [String.eqb Path.split]. rewrite Ascii.eqb_refl.
  rewrite split_concat by (done || by eapply Forall_impl; [done|]; apply plain_no_slash).
  cbn [hd String.eqb negb].
  change (Path.normalize_segments false [] ("" :: "" :: xs))
    with (Path.normalize_segments false [] xs).
  rewrite normalize_segments_plain by done. cbn [rev app].
  rewrite (eqb_false (String.concat "/" xs) "") by by apply concat_plain_neq_empty.
  destruct xs as [|x xs]; [done|].
  change (List.last ("" :: "" :: x :: xs) "x") with (List.last (x :: xs) "x").
  rewrite (eqb_false (List.last (x :: xs) "x") "") by by apply last_plain.
  reflexivity.
Qed.

Lemma filter_truthy_plain xs :
  Forall (fun s => Path.plain s = true) xs → List.filter Js.truthy xs = xs.
Proof.
  induction 1 as [|x xs Hx _ IH]; [done|].
  cbn. by rewrite (plain_truthy _ Hx), IH.
Qed.

(** [path.join] of an absolute directory and plain segments appends them. *)
Lemma join_absolute ds segs :
  Forall (fun s => Path.plain s = true) ds →
  Forall (fun s => Path.plain s = true) segs →
  ds ++ segs ≠ [] →
  Path.join (Path.absolute ds :: segs) = Path.absolute (ds ++ segs).
Proof.
  intros Hd Hs Hne. unfold Path.join.
  cbn [List.filter]. replace (Js.truthy (Path.absolute ds)) with true by done.
  rewrite filter_truthy_plain by done.
  destruct segs as [|s segs].
  - rewrite app_nil_r in *. by apply normalize_absolute.
  - rewrite concat_cons. destruct ds as [|d ds].
    + exact (normalize_root_then (s :: segs) ltac:(done) Hs).
    + unfold Path.absolute at 1. rewrite append_assoc.
      rewrite <- concat_app by done.
      apply (normalize_absolute ((d :: ds) ++ s :: segs)); [done|].
      by apply Forall_app.
Qed.

Lemma absolute_app xs segs :
  xs ≠ [] → segs ≠ [] →
  Path.absolute (xs ++ segs) = Path.absolute xs +:+ "/" +:+ String.concat "/" segs.
Proof.
  intros Hx Hs. unfold Path.absolute. by rewrite concat_app, append_assoc.
Qed.

End PathFacts.

(* ================================================================== *)
(** ** Path resolution *)

Section Resolution.

Variable dirname_segs : list string.
Hypothesis dirname_plain : Forall (fun s => Path.plain s = true) dirname_segs.

Local Abbreviation STORAGE := (STORAGE_DIR dirname_segs).

Lemma STORAGE_DIR_absolute : STORAGE = Path.absolute (dirname_segs ++ ["storage"]).
Proof.
  unfold STORAGE_DIR, dirname. apply join_absolute; [done| |].
  - by repeat constructor.
  - by destruct dirname_segs.
Qed.

(** Joining plain segments to the storage directory writes them one
    after the other, each behind a separator. *)
Lemma join_storage segs :
  segs ≠ [] → Forall (fun s => Path.plain s = true) segs →
  Path.join (STORAGE :: segs) = STORAGE +:+ "/" +:+ String.concat "/" segs.
Proof using dirname_plain.
  intros Hne Hs. rewrite STORAGE_DIR_absolute.
  rewrite join_absolute.
  - apply absolute_app; [by destruct dirname_segs | done].
  - apply Forall_app. split; [done | by repeat constructor].
  - done.
  - by destruct dirname_segs.
Qed.

Lemma append_empty_r (s : string) : s +:+ "" = s.
Proof. induction s as [|c s IH]; [done|]. by rewrite append_cons, IH. Qed.

Lemma not_category_eqb type :
  type ∉ categories →
  String.eqb type "notes" = false ∧ String.eqb type "practice-tests" = false
  ∧ String.eqb type "practicals" = false ∧ String.eqb type "assignments" = false.
Proof.
  intros H. unfold categories in H. rewrite !not_elem_of_cons in H.
  repeat split; apply String.eqb_neq; tauto.
Qed.

Lemma get_delete_filePath subject type unit filename :
  delete_filePath dirname_segs subject type unit filename
  = get_filePath dirname_segs subject type unit filename.
Proof. reflexivity. Qed.

Lemma get_filePath_notes subject unit filename :
  Path.plain subject = true → Path.plain unit = true → Path.plain filename = true →
  get_filePath dirname_segs subject "notes" (Some unit) filename
  = STORAGE +:+ "/" +:+ subject +:+ "/notes/" +:+ unit +:+ "/" +:+ filename.
Proof using dirname_plain.
  intros Hs Hu Hf. unfold get_filePath. cbn [String.eqb Ascii.eqb Bool.eqb andb Js.truthy_opt].
  rewrite (plain_truthy _ Hu). unfold Js.or_empty. cbn [from_option id].
  rewrite join_storage; [reflexivity | done | by repeat constructor].
Qed.

Lemma get_filePath_other subject type unit filename :
  type ∈ ["practice-tests"; "practicals"; "assignments"] →
  Path.plain subject = true → Path.plain filename = true →
  get_filePath dirname_segs subject type unit filename
  = STORAGE +:+ "/" +:+ subject +:+ "/" +:+ type +:+ "/" +:+ filename.
Proof using dirname_plain.
  intros Ht Hs Hf. unfold get_filePath.
  cases_mem Ht;
    cbn [String.eqb Ascii.eqb Bool.eqb andb];
    (rewrite join_storage; [reflexivity | done | by repeat constructor]).
Qed.

(** Without a unit, and for a type that is none of the four, the lookup
    and the delete fall into the last branch. *)
Lemma get_filePath_generic subject type unit filename :
  (type = "notes" ∧ Js.truthy_opt unit = false) ∨ type ∉ categories →
  get_filePath dirname_segs subject type unit filename
  = Path.join [STORAGE; subject; type; filename].
Proof.
  unfold get_filePath. intros [[-> ->] | H]; [reflexivity|].
  destruct (not_category_eqb _ H) as (-> & -> & -> & ->). reflexivity.
Qed.

End Resolution.

Section ResolutionClaims.

Variable dirname_segs : list string.
Hypothesis dirname_plain : Forall (fun s => Path.plain s = true) dirname_segs.

Local Abbreviation STORAGE := (STORAGE_DIR dirname_segs).

Lemma join_storage_absolute segs :
  Forall (fun s => Path.plain s = true) segs →
  Path.join (STORAGE :: segs) = Path.absolute (dirname_segs ++ "storage" :: segs).
Proof using dirname_plain.
  intros Hs. rewrite STORAGE_DIR_absolute by done.
  rewrite join_absolute.
  - by rewrite <- app_assoc.
  - apply Forall_app. split; [done | by repeat constructor].
  - done.
  - by destruct dirname_segs.
Qed.

(** The file that multer writes below a directory made of plain segments. *)
Lemma join_join_storage segs filename :
  Forall (fun s => Path.plain s = true) segs → Path.plain filename = true →
  Path.join [Path.join (STORAGE :: segs); filename]
  = STORAGE +:+ "/" +:+ String.concat "/" (segs ++ [filename]).
Proof using dirname_plain.
  intros Hs Hf. rewrite join_storage_absolute by done.
  rewrite join_absolute.
  - rewrite <- (join_storage dirname_segs dirname_plain (segs ++ [filename])).
    + rewrite join_storage_absolute; [by rewrite <- app_assoc|].
      apply Forall_app. split; [done | by repeat constructor].
    + by destruct segs.
    + apply Forall_app. split; [done | by repeat constructor].
  - apply Forall_app. split; [done|]. by repeat constructor.
  - by repeat constructor.
  - by destruct dirname_segs.
Qed.

(** C9. For valid input, that is plain path segments (and, for the upload
    headers, segments without surrounding white space), the lookup, the
    delete and both upload paths resolve a note with a unit to
    storage/{subject}/notes/{unit}/{filename}, and a practice test,
    practical or assignment to storage/{subject}/{category}/{filename},
    whatever unit comes with it. *)
Theorem canonical_path_of_valid_input (subject unit filename : string) :
  Path.plain subject = true → Path.plain filename = true →
  (Path.plain unit = true →
     let resolved :=
       STORAGE +:+ "/" +:+ subject +:+ "/notes/" +:+ unit +:+ "/" +:+ filename in
     get_filePath dirname_segs subject "notes" (Some unit) filename = resolved
     ∧ delete_filePath dirname_segs subject "notes" (Some unit) filename = resolved
     ∧ (Js.trim subject = subject → Js.trim unit = unit →
          stored_at (destination dirname_segs (Some subject) (Some "notes") (Some unit))
            filename = Some resolved
          ∧ relocated_to dirname_segs subject "notes" (Some unit) filename = Some resolved))
  ∧ (∀ (type : string) (any_unit : option string),
       type ∈ ["practice-tests"; "practicals"; "assignments"] →
       let resolved :=
         STORAGE +:+ "/" +:+ subject +:+ "/" +:+ type +:+ "/" +:+ filename in
       get_filePath dirname_segs subject type any_unit filename = resolved
       ∧ delete_filePath dirname_segs subject type any_unit filename = resolved
       ∧ (Js.trim subject = subject →
            stored_at (destination dirname_segs (Some subject) (Some type) any_unit)
              filename = Some resolved
            ∧ relocated_to dirname_segs subject type any_unit filename = Some resolved)).
Proof using dirname_plain.
  intros Hs Hf. split.
  - intros Hu resolved. subst resolved.
    change (delete_filePath dirname_segs) with (get_filePath dirname_segs).
    rewrite get_filePath_notes by done.
    split; [done|]. split; [done|]. intros Hts Htu.
    assert (Hjj := join_join_storage [subject; "notes"; unit] filename).
    split.
    + unfold destination, Js.or_empty. cbn [from_option id].
      rewrite Hts, Htu. change (Js.trim "notes") with "notes".
      rewrite (plain_truthy _ Hs), (plain_truthy _ Hu).
      cbn [negb orb Js.truthy String.eqb Ascii.eqb Bool.eqb andb stored_at].
      rewrite Hjj; [done | by repeat constructor | done].
    + unfold relocated_to, correctPath, Js.or_empty.
      cbn [from_option id String.eqb Ascii.eqb Bool.eqb andb Js.truthy_opt].
      rewrite Hts, Htu, (plain_truthy _ Hu). cbn [fmap option_fmap option_map].
      rewrite Hjj; [done | by repeat constructor | done].
  - intros type any_unit Ht resolved. subst resolved.
    change (delete_filePath dirname_segs) with (get_filePath dirname_segs).
    rewrite get_filePath_other by done.
    split; [done|]. split; [done|]. intros Hts.
    assert (Hjj := join_join_storage [subject; type] filename).
    split.
    + unfold destination, Js.or_empty. cbn [from_option id].
      rewrite Hts, (plain_truthy _ Hs).
      cases_mem Ht;
        match goal with
        | |- context [Js.trim ?t] => let v := eval vm_compute in (Js.trim t) in
                                     change (Js.trim t) with v
        end;
        cbn [negb orb Js.truthy String.eqb Ascii.eqb Bool.eqb andb stored_at];
        (rewrite Hjj; [done | by repeat constructor | done]).
    + unfold relocated_to, correctPath. rewrite Hts.
      cases_mem Ht;
        cbn [String.eqb Ascii.eqb Bool.eqb andb fmap option_fmap option_map];
        (rewrite Hjj; [done | by repeat constructor | done]).
Qed.

End ResolutionClaims.

Section UnknownCategory.

Variable dirname_segs : list string.
Hypothesis dirname_plain : Forall (fun s => Path.plain s = true) dirname_segs.

Local Abbreviation STORAGE := (STORAGE_DIR dirname_segs).

(** C3, as the code has it. For a category outside the four, the lookup
    and the delete always resolve to the generic path
    storage/{subject}/{category}/{filename}, with or without a unit, and
    the upload destination always fails with "Invalid type", with or
    without a unit; a file parked in [temp] is not moved. *)
Theorem unknown_category_by_operation (subject type filename : string)
    (unit : option string) :
  type ∉ categories →
  (get_filePath dirname_segs subject type unit filename
     = Path.join [STORAGE; subject; type; filename]
   ∧ delete_filePath dirname_segs subject type unit filename
     = Path.join [STORAGE; subject; type; filename]
   ∧ (Path.plain subject = true → Path.plain type = true → Path.plain filename = true →
        Path.join [STORAGE; subject; type; filename]
        = STORAGE +:+ "/" +:+ subject +:+ "/" +:+ type +:+ "/" +:+ filename))
  ∧ (Js.truthy (Js.trim subject) = true → Js.truthy type = true → Js.trim type = type →
       destination dirname_segs (Some subject) (Some type) unit
       = DestinationError ("Invalid type: " +:+ type))
  ∧ relocated_to dirname_segs subject type unit filename = None.
Proof using dirname_plain.
  intros Hty. destruct (not_category_eqb _ Hty) as (Hn & Hp & Hr & Ha).
  split; [|split].
  - change (delete_filePath dirname_segs) with (get_filePath dirname_segs).
    rewrite get_filePath_generic by (by right).
    split; [done|]. split; [done|]. intros Hs Ht Hf.
    rewrite join_storage; [done.. | by repeat constructor].
  - intros Hs Ht Htt. unfold destination, Js.or_empty. cbn [from_option id].
    rewrite Htt, Hs, Ht, Hn, Hp, Hr, Ha. cbn [negb orb andb].
    by rewrite append_empty_r.
  - unfold relocated_to, correctPath. by rewrite Hn, Hp, Hr, Ha.
Qed.

(** C4, as the code has it. A note without a unit is refused by both
    upload paths, with a message that asks for the unit; the lookup and
    the delete do not fail but resolve to storage/{subject}/notes/{filename}. *)
Theorem notes_without_unit_by_operation (subject filename : string)
    (unit : option string) :
  Js.truthy_opt unit = false →
  (Js.truthy (Js.trim subject) = true →
     destination dirname_segs (Some subject) (Some "notes") unit
     = DestinationError "Invalid type: notes (unit required for notes)")
  ∧ (∀ formatFileSize extname e file body s,
       blank (b_title body) = false → blank (b_subject body) = false →
       b_type body = Some "notes" → b_unit body = unit →
       upload dirname_segs formatFileSize extname e (Some file) body s
       = (s, Failure 400 "Unit is required for notes"))
  ∧ get_filePath dirname_segs subject "notes" unit filename
    = Path.join [STORAGE; subject; "notes"; filename]
  ∧ delete_filePath dirname_segs subject "notes" unit filename
    = Path.join [STORAGE; subject; "notes"; filename]
  ∧ (Path.plain subject = true → Path.plain filename = true →
       Path.join [STORAGE; subject; "notes"; filename]
       = STORAGE +:+ "/" +:+ subject +:+ "/notes/" +:+ filename).
Proof using dirname_plain.
  intros Hu.
  assert (Htrim : Js.trim (Js.or_empty unit) = "").
  { destruct unit as [u|]; [|done]. cbn in Hu. apply negb_false_iff, String.eqb_eq in Hu.
    by subst u. }
  repeat split.
  - intros Hs. unfold destination. cbn [Js.or_empty from_option id]. fold (Js.or_empty unit).
    rewrite Htrim, Hs. reflexivity.
  - intros formatFileSize extname e file body s Ht Hsub Hty Hun.
    unfold upload. rewrite Ht, Hsub, Hty, Hun.
    unfold blank at 1. cbn [Js.truthy_opt Js.or_empty from_option id].
    change (Js.truthy "notes") with true. change (Js.trim "notes") with "notes".
    change (Js.truthy "notes") with true. cbn [negb orb].
    change (String.eqb "notes" "notes") with true.
    unfold blank. rewrite Hu. reflexivity.
  - by rewrite get_filePath_generic by (by left).
  - change (delete_filePath dirname_segs) with (get_filePath dirname_segs).
    by rewrite get_filePath_generic by (by left).
  - intros Hs Hf. rewrite join_storage; [done.. | by repeat constructor].
Qed.

End UnknownCategory.

Lemma sample_dirname_plain : Forall (fun s => Path.plain s = true) sample_dirname.
Proof. by repeat constructor. Qed.

Lemma canonical_path_of_valid_input_witness :
  get_filePath sample_dirname "Math" "notes" (Some "Unit 1") "a_1.pdf"
    = "/srv/app/storage/Math/notes/Unit 1/a_1.pdf"
  ∧ get_filePath sample_dirname "Math" "practicals" (Some "Unit 1") "a_1.pdf"
    = "/srv/app/storage/Math/practicals/a_1.pdf".
Proof.
  destruct (canonical_path_of_valid_input sample_dirname sample_dirname_plain
              "Math" "Unit 1" "a_1.pdf" eq_refl eq_refl) as [Hn Ho].
  split.
  - exact (proj1 (Hn eq_refl)).
  - refine (proj1 (Ho "practicals" (Some "Unit 1") _)).
    apply elem_of_cons. right. apply elem_of_cons. by left.
Defined.

Lemma videos_not_category : "videos" ∉ categories.
Proof. unfold categories. rewrite !not_elem_of_cons. repeat split; (done || apply not_elem_of_nil). Qed.

Lemma unknown_category_by_operation_witness :
  get_filePath sample_dirname "Math" "videos" None "a.pdf"
    = Path.join [STORAGE_DIR sample_dirname; "Math"; "videos"; "a.pdf"]
  ∧ destination sample_dirname (Some "Math") (Some "videos") (Some "U1")
    = DestinationError "Invalid type: videos".
Proof.
  split.
  - exact (proj1 (proj1 (unknown_category_by_operation sample_dirname sample_dirname_plain
                           "Math" "videos" "a.pdf" None videos_not_category))).
  - exact (proj1 (proj2 (unknown_category_by_operation sample_dirname sample_dirname_plain
                           "Math" "videos" "a.pdf" (Some "U1") videos_not_category))
             eq_refl eq_refl eq_refl).
Defined.

(** C3 fails as stated: without a unit the lookup of an unknown category
    serves the file under the generic path, and with a unit the upload
    destination is an error. *)
Lemma unknown_category_not_uniform :
  get_file sample_dirname "Math" "videos" None "a.pdf"
      (server_with ["/srv/app/storage/Math/videos/a.pdf"])
    = SendFile "/srv/app/storage/Math/videos/a.pdf"
  ∧ destination sample_dirname (Some "Math") (Some "videos") (Some "U1")
    = DestinationError "Invalid type: videos".
Proof. split; vm_compute; reflexivity. Qed.

Lemma notes_without_unit_by_operation_witness :
  destination sample_dirname (Some "Math") (Some "notes") None
    = DestinationError "Invalid type: notes (unit required for notes)"
  ∧ get_filePath sample_dirname "Math" "notes" None "a.pdf"
    = Path.join [STORAGE_DIR sample_dirname; "Math"; "notes"; "a.pdf"].
Proof.
  pose proof (notes_without_unit_by_operation sample_dirname sample_dirname_plain
                "Math" "a.pdf" None eq_refl) as (Hd & _ & Hg & _).
  split; [exact (Hd eq_refl) | exact Hg].
Defined.

(** C4 fails as stated: the lookup and the delete of a note without a
    unit do not fail with a missing-unit error, they go to
    storage/{subject}/notes/{filename}. *)
Lemma lookup_of_note_without_unit_resolves :
  get_file sample_dirname "Math" "notes" None "a.pdf"
      (server_with ["/srv/app/storage/Math/notes/a.pdf"])
    = SendFile "/srv/app/storage/Math/notes/a.pdf"
  ∧ (delete_file sample_dirname sample_env "Math" "notes" None "a.pdf"
       (server_with ["/srv/app/storage/Math/notes/a.pdf"])).2
    = Success "File deleted successfully".
Proof. split; vm_compute; reflexivity. Qed.

(* ================================================================== *)
(** ** Fallback search of the lookup and of the delete *)

Lemma first_existing_hit fs paths p :
  first_hit fs paths p → first_existing fs paths = Some p.
Proof.
  intros (i & Hi & Hp & Hbefore). revert i Hi Hbefore.
  induction paths as [|q paths IH]; intros i Hi Hbefore; [done|].
  unfold first_existing, Fs.existsSync. cbn [List.find].
  destruct i as [|i].
  - injection Hi as ->. by rewrite bool_decide_eq_true_2.
  - rewrite bool_decide_eq_false_2 by (apply (Hbefore 0); [lia | done]).
    apply (IH i); [done|]. intros j r Hj Hr. apply (Hbefore (S j)); [lia | done].
Qed.

Lemma first_existing_none fs paths :
  (∀ p, p ∈ paths → p ∉ fs) → first_existing fs paths = None.
Proof.
  induction paths as [|q paths IH]; intros H; [done|].
  unfold first_existing, Fs.existsSync. cbn [List.find].
  rewrite bool_decide_eq_false_2 by (apply H; by left).
  apply IH. intros p Hp. apply H. by right.
Qed.

Section Fallback.

Variable dirname_segs : list string.

Lemma get_alternativePaths_order subject type unit filename :
  get_alternativePaths dirname_segs subject type unit filename
  = lookup_order dirname_segs subject type unit filename.
Proof.
  unfold get_alternativePaths, lookup_order.
  destruct (String.eqb_spec type "notes") as [->|Hn].
  - destruct (Js.truthy_opt unit); reflexivity.
  - cbn [andb].
    destruct (String.eqb_spec type "practice-tests") as [->|Hp]; [reflexivity|].
    destruct (String.eqb_spec type "practicals") as [->|Hr]; [reflexivity|].
    destruct (String.eqb_spec type "assignments") as [->|Ha]; [reflexivity|].
    rewrite bool_decide_eq_false_2; [reflexivity|].
    rewrite !elem_of_cons, elem_of_nil. tauto.
Qed.

Lemma delete_alternativePaths_order subject type unit filename :
  delete_alternativePaths dirname_segs subject type unit filename
  = if String.eqb type "notes" && Js.truthy_opt unit
    then unit_variants dirname_segs subject (Js.or_empty unit) filename
         ++ subject_variants dirname_segs subject type filename
    else subject_variants dirname_segs subject type filename.
Proof.
  unfold delete_alternativePaths.
  by destruct (String.eqb type "notes" && Js.truthy_opt unit).
Qed.

(** C5, as the code has it. When the canonical path does not exist, the
    lookup tries [lookup_order] and the first path that exists wins: for
    a note with a unit the three unit variants and then the two subject
    variants, for the three other categories the two subject variants
    and the subject in lower case, for anything else the two subject
    variants. The delete tries the unit variants of a note and the two
    subject variants, first hit first. If no path of [lookup_order]
    exists, both answer 404 "File not found". *)
Theorem fallback_search (e : Env) (subject type filename : string)
    (unit : option string) (s : Server) :
  get_filePath dirname_segs subject type unit filename ∉ files (disk s) →
  (∀ p, first_hit (files (disk s)) (lookup_order dirname_segs subject type unit filename) p →
        get_file dirname_segs subject type unit filename s = SendFile p)
  ∧ (∀ p, first_hit (files (disk s))
            (if String.eqb type "notes" && Js.truthy_opt unit
             then unit_variants dirname_segs subject (Js.or_empty unit) filename
                  ++ subject_variants dirname_segs subject type filename
             else subject_variants dirname_segs subject type filename) p →
          delete_file dirname_segs e subject type unit filename s
          = (forget e p subject type unit filename s, Success "File deleted successfully"))
  ∧ ((∀ p, p ∈ lookup_order dirname_segs subject type unit filename → p ∉ files (disk s)) →
       get_file dirname_segs subject type unit filename s = Failure 404 "File not found"
       ∧ delete_file dirname_segs e subject type unit filename s
         = (s, Failure 404 "File not found")).
Proof.
  intros Hcanon. split; [|split].
  - intros p Hp. unfold get_file, Fs.existsSync.
    rewrite bool_decide_eq_false_2 by done.
    rewrite get_alternativePaths_order. by rewrite (first_existing_hit _ _ _ Hp).
  - intros p Hp. unfold delete_file, Fs.existsSync.
    change (delete_filePath dirname_segs) with (get_filePath dirname_segs).
    rewrite bool_decide_eq_false_2 by done.
    rewrite delete_alternativePaths_order. by rewrite (first_existing_hit _ _ _ Hp).
  - intros Hnone. split.
    + unfold get_file, Fs.existsSync. rewrite bool_decide_eq_false_2 by done.
      rewrite get_alternativePaths_order. by rewrite first_existing_none.
    + unfold delete_file, Fs.existsSync.
      change (delete_filePath dirname_segs) with (get_filePath dirname_segs).
      rewrite bool_decide_eq_false_2 by done.
      rewrite delete_alternativePaths_order, first_existing_none; [done|].
      intros p Hp. apply Hnone. unfold lookup_order.
      destruct (String.eqb type "notes" && Js.truthy_opt unit); [done|].
      case_bool_decide; [|done]. apply elem_of_app. by left.
Qed.

End Fallback.

Lemma fallback_search_witness :
  get_file sample_dirname "My Subj" "practicals" None "a.pdf"
      (server_with ["/srv/app/storage/my subj/practicals/a.pdf"])
    = SendFile "/srv/app/storage/my subj/practicals/a.pdf".
Proof.
  refine (proj1 (fallback_search sample_dirname sample_env "My Subj" "practicals" "a.pdf"
                   None (server_with ["/srv/app/storage/my subj/practicals/a.pdf"]) _)
            "/srv/app/storage/my subj/practicals/a.pdf" _).
  - apply (bool_decide_unpack _). by vm_compute.
  - exists 2. split; [by vm_compute|]. split.
    + apply (bool_decide_unpack _). by vm_compute.
    + intros j q Hj Hq. destruct j as [|[|j]]; [| |lia];
        vm_compute in Hq; injection Hq as <-;
        apply (bool_decide_unpack _); by vm_compute.
Defined.

(** C5 fails as stated: for a note whose canonical path and whose three
    unit variants are all missing, the search goes on with the subject
    variants and serves a file from there instead of answering 404. *)
Lemma lookup_of_note_tries_subject_variants :
  let s := server_with ["/srv/app/storage/My_Subj/notes/a.pdf"] in
  Forall (fun p => p ∉ files (disk s))
    ["/srv/app/storage/My Subj/notes/U 1/a.pdf";
     "/srv/app/storage/My Subj/notes/U_1/a.pdf";
     "/srv/app/storage/My Subj/notes/U-1/a.pdf";
     "/srv/app/storage/My Subj/notes/u 1/a.pdf"]
  ∧ get_file sample_dirname "My Subj" "notes" (Some "U 1") "a.pdf" s
    = SendFile "/srv/app/storage/My_Subj/notes/a.pdf".
Proof.
  split; [|vm_compute; reflexivity].
  repeat constructor; apply (bool_decide_unpack _); by vm_compute.
Qed.

(* ================================================================== *)
(** ** Deleting a file *)

Lemma first_existing_some fs paths p :
  first_existing fs paths = Some p → p ∈ paths ∧ p ∈ fs.
Proof.
  unfold first_existing, Fs.existsSync. intros [Hin Hex]%List.find_some.
  split; [by apply list_elem_of_In | by apply bool_decide_eq_true in Hex].
Qed.

Lemma removeSync_gone p fs : p ∉ Fs.removeSync p fs.
Proof.
  unfold Fs.removeSync. rewrite elem_of_filter. intros [H _]. apply H. by left.
Qed.

Lemma removeSync_subset p q fs : q ∈ Fs.removeSync p fs → q ∈ fs.
Proof. unfold Fs.removeSync. rewrite elem_of_filter. tauto. Qed.

Section JsMapFacts.
Context {V : Type}.
Implicit Types (m : list (string * V)) (k : string) (v : V).

Lemma get_None k m : JsMap.get k m = None ↔ k ∉ m.*1.
Proof.
  induction m as [|[k' v'] m IH]; cbn.
  - split; [intros _; apply not_elem_of_nil | done].
  - rewrite not_elem_of_cons. destruct (decide (k' = k)) as [->|Hne].
    + split; [done | tauto].
    + rewrite IH. split; [by split | tauto].
Qed.

Lemma get_delete k m : JsMap.get k (JsMap.delete k m) = None.
Proof.
  apply get_None. unfold JsMap.delete. rewrite list_elem_of_fmap.
  intros ([k' v'] & -> & Hin). apply list_elem_of_filter in Hin as [Hne _]. done.
Qed.

Lemma set_new k v m : JsMap.has k m = false → JsMap.set k v m = m ++ [(k, v)].
Proof.
  unfold JsMap.has. rewrite bool_decide_eq_false.
  induction m as [|[k' v'] m IH]; [done|].
  cbn. rewrite not_elem_of_cons. intros [Hne Hnot].
  destruct (decide (k' = k)); [congruence|]. by rewrite IH.
Qed.

Lemma get_app_l k v m m' :
  JsMap.get k m = Some v → JsMap.get k (m ++ m') = Some v.
Proof.
  induction m as [|[k' v'] m IH]; [done|]. cbn.
  by destruct (decide (k' = k)).
Qed.

End JsMapFacts.

Lemma Forall_not_filter {A} (P : A → Prop) `{∀ x, Decision (P x)} (l : list A) :
  Forall (fun x => ¬ P x) (filter (fun x => ¬ P x) l).
Proof. apply Forall_forall. intros x Hx. by apply list_elem_of_filter in Hx as [? _]. Qed.

Section Delete.

Variable dirname_segs : list string.

(** What [forget] leaves behind, whichever path was removed. *)
Lemma forget_spec e removed subject type unit filename s :
  let s' := forget e removed subject type unit filename s in
  let metadataKey :=
    subject +:+ "-" +:+ type +:+ "-" +:+ Js.or_empty unit +:+ "-" +:+ filename in
  files (disk s') = Fs.removeSync removed (files (disk s))
  ∧ JsMap.get metadataKey (fileMetadata s') = None
  ∧ metadata_file (disk s') = Parsed (fileMetadata s')
  ∧ backup_file (disk s') = Parsed (backup_doc (fullBackupData s') (iso_now e))
  ∧ Forall (fun r => ¬ same_identity type filename subject (Js.or_empty unit) r)
      (category_list type (fullBackupData s')).
Proof.
  cbn zeta. unfold forget, saveMetadata.
  cbn [files disk fileMetadata fullBackupData metadata_file backup_file].
  split; [done|]. split; [apply get_delete|]. split; [done|]. split; [done|].
  unfold category_list, same_identity.
  destruct (String.eqb type "notes"); [apply Forall_not_filter|].
  destruct (String.eqb type "practice-tests"); [apply Forall_not_filter|].
  destruct (String.eqb type "practicals"); [apply Forall_not_filter|].
  destruct (String.eqb type "assignments"); [apply Forall_not_filter|].
  constructor.
Qed.

End Delete.

(* ================================================================== *)
(** ** Inserting a record into the backup *)

Lemma filter_not_app_single {A} (P : A → Prop) `{∀ x, Decision (P x)} (l : list A) (x : A) :
  P x → filter (fun y => ¬ P y) (l ++ [x]) = filter (fun y => ¬ P y) l.
Proof.
  intros Hx. rewrite filter_app. cbn. rewrite decide_False by tauto. apply app_nil_r.
Qed.

Lemma filter_not_idemp {A} (P : A → Prop) `{∀ x, Decision (P x)} (l : list A) :
  filter (fun y => ¬ P y) (filter (fun y => ¬ P y) l) = filter (fun y => ¬ P y) l.
Proof. rewrite list_filter_filter. apply list_filter_iff. tauto. Qed.

Lemma filter_app_single {A} (P : A → Prop) `{∀ x, Decision (P x)} (l : list A) (x : A) :
  P x → filter P (filter (fun y => ¬ P y) l ++ [x]) = [x].
Proof.
  intros Hx. rewrite filter_app, list_filter_filter.
  replace (filter (fun a => P a ∧ ¬ P a) l) with (@nil A).
  - cbn. by rewrite decide_True.
  - symmetry. induction l as [|y l IH]; [done|].
    cbn. rewrite decide_False by tauto. done.
Qed.

(** After one insertion the list holds exactly one record of that
    identity, the inserted one. *)
Lemma upsert_one type unit r b :
  type ∈ categories →
  filter (same_identity type (Rec.storedFileName r) (Rec.subject r) unit)
    (category_list type (upsert type unit r b))
  = [as_stored type unit r].
Proof.
  intros Ht. unfold categories in Ht. unfold upsert, category_list, as_stored.
  cases_mem Ht; cbn [String.eqb Ascii.eqb Bool.eqb];
    cbn [notes practiceTests practicals assignments
         with_notes with_practiceTests with_practicals with_assignments];
    unfold same_identity; cbn [String.eqb Ascii.eqb Bool.eqb];
    by apply filter_app_single.
Qed.

(** A second insertion of the same physical file replaces the first. *)
Lemma upsert_replaces type unit first second b :
  Rec.storedFileName first = Rec.storedFileName second →
  Rec.subject first = Rec.subject second →
  upsert type unit second (upsert type unit first b) = upsert type unit second b.
Proof.
  intros Hf Hs. unfold upsert. rewrite Hf, Hs.
  destruct (String.eqb type "notes") eqn:Hn.
  { unfold with_notes. cbn [subjects notes practiceTests practicals assignments lastBackup]. f_equal.
    rewrite filter_not_app_single, filter_not_idemp; [done|].
    unfold same_note, with_unit. cbn. by rewrite Hf, Hs. }
  destruct (String.eqb type "practice-tests") eqn:Hp.
  { unfold with_practiceTests. cbn [subjects notes practiceTests practicals assignments lastBackup]. f_equal.
    rewrite filter_not_app_single, filter_not_idemp; done. }
  destruct (String.eqb type "practicals") eqn:Hr.
  { unfold with_practicals. cbn [subjects notes practiceTests practicals assignments lastBackup]. f_equal.
    rewrite filter_not_app_single, filter_not_idemp; done. }
  destruct (String.eqb type "assignments") eqn:Ha; [|done].
  unfold with_assignments. cbn [subjects notes practiceTests practicals assignments lastBackup]. f_equal.
  rewrite filter_not_app_single, filter_not_idemp; done.
Qed.

(** C6. When two records of one category have the same stored file name
    and subject (and, for notes, are inserted under the same unit), then
    after inserting the first and then the second the category list holds
    exactly one record of that identity, and it is the second record; the
    backup is what inserting the second record alone gives. *)
Theorem upsert_same_file_twice (type unit : string) (first second : Rec.t) (b : Backup) :
  type ∈ categories →
  Rec.storedFileName first = Rec.storedFileName second →
  Rec.subject first = Rec.subject second →
  let b' := upsert type unit second (upsert type unit first b) in
  filter (same_identity type (Rec.storedFileName second) (Rec.subject second) unit)
    (category_list type b')
  = [as_stored type unit second]
  ∧ b' = upsert type unit second b.
Proof.
  intros Ht Hf Hs b'. subst b'. split.
  - by apply upsert_one.
  - by apply upsert_replaces.
Qed.

Lemma upsert_same_file_twice_witness :
  filter (same_identity "notes" "a_1700000000123.pdf" "Math" "Unit 1")
    (notes (upsert "notes" "Unit 1" (sample_record "second")
              (upsert "notes" "Unit 1" (sample_record "first") empty_backup)))
  = [with_unit "Unit 1" (sample_record "second")].
Proof.
  refine (proj1 (upsert_same_file_twice "notes" "Unit 1" (sample_record "first")
                   (sample_record "second") empty_backup _ eq_refl eq_refl)).
  apply list_elem_of_here.
Defined.

(* ================================================================== *)
(** ** Populating the index from the backup *)

Lemma has_true k (m : list (string * Meta.t)) : JsMap.has k m = true ↔ k ∈ m.*1.
Proof. unfold JsMap.has. apply bool_decide_eq_true. Qed.

Lemma add_missing_known key m r :
  key r ∈ m.*1 → add_missing key m r = m.
Proof. intros H%has_true. unfold add_missing. cbn zeta. by rewrite H. Qed.

Lemma add_missing_new key m r :
  key r ∉ m.*1 → add_missing key m r = m ++ [(key r, entry_of r)].
Proof.
  intros H. unfold add_missing. cbn zeta.
  assert (Hhas : JsMap.has (key r) m = false) by by apply bool_decide_eq_false.
  rewrite Hhas. by apply set_new.
Qed.

(** A pass over a record list appends entries for keys that were absent
    and touches nothing else. *)
Lemma backfill_appends key rs m :
  ∃ added, backfill key rs m = m ++ added
           ∧ (∀ k, k ∈ added.*1 → k ∉ m.*1)
           ∧ (NoDup m.*1 → NoDup (m ++ added).*1)
           ∧ (∀ r, r ∈ rs → key r ∈ (m ++ added).*1).
Proof.
  revert m. induction rs as [|r rs IH]; intros m.
  - exists []. rewrite app_nil_r. split; [done|]. split; [by intros k Hk%elem_of_nil|].
    split; [done|]. by intros r Hr%elem_of_nil.
  - unfold backfill. cbn [fold_left]. fold (backfill key rs (add_missing key m r)).
    destruct (decide (key r ∈ m.*1)) as [Hin|Hnot].
    + rewrite add_missing_known by done.
      destruct (IH m) as (added & Heq & Hfresh & Hnd & Hcov).
      exists added. split; [done|]. split; [done|]. split; [done|].
      intros r' [->|Hr']%elem_of_cons; [|by apply Hcov].
      rewrite fmap_app. apply elem_of_app. by left.
    + rewrite add_missing_new by done.
      destruct (IH (m ++ [(key r, entry_of r)])) as (added & Heq & Hfresh & Hnd & Hcov).
      exists ((key r, entry_of r) :: added).
      rewrite Heq, <- app_assoc. cbn [app].
      split; [done|]. split; [|split].
      * intros k [->|Hk]%elem_of_cons; [done|].
        intros Hm. apply (Hfresh k Hk). rewrite fmap_app. apply elem_of_app. by left.
      * intros Hm. replace (m ++ (key r, entry_of r) :: added)
          with ((m ++ [(key r, entry_of r)]) ++ added) by by rewrite <- app_assoc.
        apply Hnd. rewrite fmap_app. apply NoDup_app. split; [done|]. split.
        -- intros k Hk [->|[]%elem_of_nil]%elem_of_cons. done.
        -- apply NoDup_singleton.
      * intros r' Hr'.
        replace (m ++ (key r, entry_of r) :: added)
          with ((m ++ [(key r, entry_of r)]) ++ added) by by rewrite <- app_assoc.
        apply elem_of_cons in Hr' as [->|Hr']; [|by apply Hcov].
        rewrite !fmap_app. apply elem_of_app. left. apply elem_of_app. right. by left.
Qed.

Lemma backfill_fixed key rs m :
  (∀ r, r ∈ rs → key r ∈ m.*1) → backfill key rs m = m.
Proof.
  induction rs as [|r rs IH]; intros H; [done|].
  unfold backfill. cbn [fold_left]. rewrite add_missing_known by (apply H; by left).
  apply IH. intros r' Hr'. apply H. by right.
Qed.

Lemma populate_appends b m :
  ∃ added, populate b m = m ++ added
           ∧ (∀ k, k ∈ added.*1 → k ∉ m.*1)
           ∧ (NoDup m.*1 → NoDup (populate b m).*1)
           ∧ (∀ k, k ∈ record_keys b → k ∈ (populate b m).*1).
Proof.
  unfold populate.
  destruct (backfill_appends notes_key (notes b) m) as (a1 & -> & F1 & N1 & C1).
  destruct (backfill_appends practiceTests_key (practiceTests b) (m ++ a1))
    as (a2 & -> & F2 & N2 & C2).
  destruct (backfill_appends practicals_key (practicals b) ((m ++ a1) ++ a2))
    as (a3 & -> & F3 & N3 & C3).
  destruct (backfill_appends assignments_key (assignments b) (((m ++ a1) ++ a2) ++ a3))
    as (a4 & -> & F4 & N4 & C4).
  exists (a1 ++ a2 ++ a3 ++ a4). split; [by rewrite <- !app_assoc|].
  split; [|split].
  - intros k Hk Hm. rewrite !fmap_app, !elem_of_app in Hk.
    destruct Hk as [Hk|[Hk|[Hk|Hk]]].
    + by apply (F1 k).
    + apply (F2 k Hk). rewrite fmap_app, elem_of_app. by left.
    + apply (F3 k Hk). rewrite !fmap_app, !elem_of_app. by left; left.
    + apply (F4 k Hk). rewrite !fmap_app, !elem_of_app. by left; left; left.
  - intros Hm. by apply N4, N3, N2, N1.
  - intros k Hk. unfold record_keys in Hk. rewrite !elem_of_app in Hk.
    rewrite !fmap_app, !elem_of_app.
    destruct Hk as [Hk|[Hk|[Hk|Hk]]]; apply list_elem_of_fmap in Hk as (r & -> & Hr).
    + specialize (C1 r Hr). rewrite fmap_app, elem_of_app in C1. tauto.
    + specialize (C2 r Hr). rewrite !fmap_app, !elem_of_app in C2. tauto.
    + specialize (C3 r Hr). rewrite !fmap_app, !elem_of_app in C3. tauto.
    + specialize (C4 r Hr). rewrite !fmap_app, !elem_of_app in C4. tauto.
Qed.

Lemma populate_fixed b m :
  (∀ k, k ∈ record_keys b → k ∈ m.*1) → populate b m = m.
Proof.
  intros H. unfold populate, record_keys in *.
  setoid_rewrite elem_of_app in H. setoid_rewrite elem_of_app in H.
  setoid_rewrite elem_of_app in H.
  rewrite (backfill_fixed notes_key).
  2:{ intros r Hr. apply H. left. by apply list_elem_of_fmap_2. }
  rewrite (backfill_fixed practiceTests_key).
  2:{ intros r Hr. apply H. right; left. by apply list_elem_of_fmap_2. }
  rewrite (backfill_fixed practicals_key).
  2:{ intros r Hr. apply H. right; right; left. by apply list_elem_of_fmap_2. }
  apply backfill_fixed. intros r Hr. apply H. right; right; right.
  by apply list_elem_of_fmap_2.
Qed.

Lemma reconcile_fileMetadata e s :
  fileMetadata (reconcile e s) = populate (fullBackupData s) (fileMetadata s).
Proof. unfold reconcile. cbv zeta. by destruct (_ || _). Qed.

(** C10. The reconciliation at start leaves every entry of the index as
    it was: the index afterwards is the one before followed by new
    entries, all of them for keys that were absent. This holds for the
    index as loaded from the metadata document. *)
Theorem populate_keeps_existing (e : Env) (s : Server) (k : string) (v : Meta.t) :
  JsMap.get k (fileMetadata s) = Some v →
  JsMap.get k (fileMetadata (reconcile e s)) = Some v
  ∧ (∃ added, fileMetadata (reconcile e s) = fileMetadata s ++ added
              ∧ ∀ k', k' ∈ added.*1 → JsMap.get k' (fileMetadata s) = None)
  ∧ (∀ d, s = loaded d → JsMap.get k (fileMetadata (startup e d)) = Some v).
Proof.
  intros Hk. rewrite reconcile_fileMetadata.
  destruct (populate_appends (fullBackupData s) (fileMetadata s))
    as (added & Heq & Hfresh & _).
  assert (Hget : JsMap.get k (populate (fullBackupData s) (fileMetadata s)) = Some v)
    by (rewrite Heq; by apply get_app_l).
  split; [done|]. split.
  - exists added. split; [done|]. intros k' Hk'. by apply get_None, Hfresh.
  - intros d ->. unfold startup. by rewrite reconcile_fileMetadata.
Qed.

(* ================================================================== *)
(** ** Rebuilding the subject list *)

Lemma filter_all {A} (P : A → Prop) `{∀ x, Decision (P x)} (l : list A) :
  Forall P l → filter P l = l.
Proof.
  induction 1 as [|x l Hx _ IH]; [done|]. by rewrite filter_cons, decide_True, IH.
Qed.

Lemma elem_of_distinct x l : x ∈ distinct l ↔ x ∈ l.
Proof.
  induction l as [|y l IH]; [done|]. cbn [distinct].
  rewrite !elem_of_cons, list_elem_of_filter, IH.
  destruct (decide (x = y)); tauto.
Qed.

Lemma NoDup_distinct l : NoDup (distinct l).
Proof.
  induction l as [|y l IH]; [constructor|]. cbn [distinct]. constructor.
  - rewrite list_elem_of_filter. tauto.
  - by apply NoDup_filter.
Qed.

(** Adding the elements of a list to an ordered set, one by one, appends
    the new ones in the order of their first occurrence. *)
Lemma fold_set_add l acc :
  fold_left (fun s x => set_add x s) l acc
  = acc ++ filter (fun x => x ∉ acc) (distinct l).
Proof.
  revert acc. induction l as [|y l IH]; intros acc.
  - cbn. by rewrite app_nil_r.
  - cbn [fold_left distinct]. rewrite IH. unfold set_add.
    rewrite filter_cons. case_bool_decide as Hy.
    + rewrite decide_False by (intros Hc; by apply Hc). f_equal.
      rewrite list_filter_filter. apply list_filter_iff.
      intros x. cbn beta. split; [|by intros [? _]].
      intros Hx. split; [done|]. by intros ->.
    + rewrite decide_True by done. rewrite <- app_assoc. cbn [app]. do 2 f_equal.
      rewrite list_filter_filter. apply list_filter_iff.
      intros x. cbn beta. rewrite elem_of_app, list_elem_of_singleton. tauto.
Qed.

Lemma fold_set_add_nil l :
  fold_left (fun s x => set_add x s) l [] = distinct l.
Proof.
  rewrite fold_set_add. cbn [app]. apply filter_all.
  apply Forall_forall. intros x _. apply not_elem_of_nil.
Qed.

Lemma add_subjects_fold records acc :
  add_subjects records acc
  = fold_left (fun s x => set_add x s)
      (filter (fun x => x ≠ "") (Rec.subject <$> records)) acc.
Proof.
  unfold add_subjects. revert acc.
  induction records as [|r records IH]; intros acc; [done|].
  cbn [fold_left fmap list_fmap]. rewrite filter_cons. unfold Js.truthy.
  destruct (String.eqb_spec (Rec.subject r) "") as [Heq|Hne].
  - cbn [negb]. rewrite decide_False by tauto. apply IH.
  - cbn [negb]. rewrite decide_True by done. cbn [fold_left]. apply IH.
Qed.

(** The rebuilt names, whatever the records hold: the distinct non-empty
    subjects of the four lists, notes first. *)
Lemma allSubjects_distinct b :
  allSubjects b
  = distinct (filter (fun x => x ≠ "")
                (Rec.subject <$> notes b ++ practiceTests b ++ practicals b ++ assignments b)).
Proof.
  unfold allSubjects. rewrite !add_subjects_fold, <- !fold_left_app.
  rewrite fold_set_add_nil. by rewrite !fmap_app, !filter_app.
Qed.

(** The rebuilt units of a subject, whatever the records hold: the
    distinct non-empty units of its notes. *)
Lemma unit_set_distinct l subject :
  unit_set l subject
  = distinct (filter (fun u => u ≠ "")
                (omap Rec.unit (filter (fun n => Rec.subject n = subject) l))).
Proof.
  unfold unit_set. rewrite <- (fold_set_add_nil _).
  induction l as [|n l IH] using rev_ind; [done|].
  rewrite !filter_app, omap_app, filter_app, !fold_left_app, <- IH. clear IH.
  rewrite !filter_cons, !filter_nil. unfold Js.truthy_opt, Js.truthy.
  destruct (decide (Rec.subject n = subject)) as [Hs|Hs].
  - destruct (Rec.unit n) as [u|] eqn:Hu.
    + destruct (String.eqb_spec u "") as [->|Hne].
      * rewrite decide_False by (cbn; intros [_ ?]; done).
        cbn. rewrite Hu. cbn. done.
      * rewrite decide_True by done. cbn. rewrite Hu. cbn.
        rewrite decide_True by done. done.
    + rewrite decide_False by (intros [_ ?]; done). cbn. by rewrite Hu.
  - rewrite decide_False by tauto. done.
Qed.

(** C7. From a backup without subjects, whose records have a subject and
    whose notes have a unit, the reconstruction makes one subject entry for
    each distinct subject name of the four lists, in the order of first
    occurrence, and gives it the distinct units of its notes, in the order
    of first occurrence. *)
Theorem reconstruction_of_subjects (e : Env) (b : Backup) :
  subjects b = [] → well_formed b →
  let rebuilt := subjects (reconstruct e b) in
  Subject.name <$> rebuilt
    = distinct (Rec.subject <$> notes b ++ practiceTests b ++ practicals b ++ assignments b)
  ∧ NoDup (Subject.name <$> rebuilt)
  ∧ ∀ s, s ∈ rebuilt →
      Subject.units s
        = distinct (omap Rec.unit (filter (fun n => Rec.subject n = Subject.name s) (notes b)))
      ∧ NoDup (Subject.units s).
Proof.
  intros Hempty [Hsub Hunit] rebuilt.
  assert (Hre : rebuilt = reconstructed e b).
  { subst rebuilt. unfold reconstruct. by rewrite Hempty. }
  rewrite Hre. unfold reconstructed.
  assert (Hnames : Subject.name <$> imap (fun i subject =>
             {| Subject.id := fresh_id e i; Subject.name := subject;
                Subject.units := unit_set (notes b) subject |}) (allSubjects b)
           = distinct (Rec.subject <$> notes b ++ practiceTests b ++ practicals b
                                       ++ assignments b)).
  { rewrite fmap_imap. unfold compose. cbn [Subject.name].
    change (imap _ (allSubjects b)) with (imap (const id) (allSubjects b)).
    rewrite imap_const, list_fmap_id.
    rewrite allSubjects_distinct. f_equal. apply filter_all.
    by apply Forall_fmap. }
  split; [done|]. split; [rewrite Hnames; apply NoDup_distinct|].
  intros s Hs. apply elem_of_lookup_imap in Hs as (i & x & -> & _).
  cbn [Subject.units Subject.name]. rewrite unit_set_distinct.
  split; [|apply NoDup_distinct]. f_equal. apply filter_all.
  apply Forall_forall. intros u Hu. apply list_elem_of_omap in Hu as (n & Hn & Hnu).
  apply list_elem_of_filter in Hn as [_ Hn].
  rewrite Forall_forall in Hunit. destruct (Hunit n Hn) as (u' & Hu' & Hne).
  congruence.
Qed.

(* ================================================================== *)
(** ** Starting twice *)

Section JsMapOrder.
Context {V : Type}.
Implicit Types (m : list (string * V)) (k : string) (v : V).

Lemma set_keys k v m :
  (JsMap.set k v m).*1 = if bool_decide (k ∈ m.*1) then m.*1 else m.*1 ++ [k].
Proof.
  induction m as [|[k' v'] m IH]; [done|]. cbn [JsMap.set].
  destruct (decide (k' = k)) as [->|Hne].
  - rewrite bool_decide_eq_true_2; [done | by left].
  - cbn [fmap list_fmap fst]. fold (fmap (M:=list) (@fst string V)). rewrite IH.
    case_bool_decide as Hin.
    + rewrite bool_decide_eq_true_2; [done | by right].
    + rewrite bool_decide_eq_false_2; [done|].
      cbn. rewrite not_elem_of_cons. split; [congruence | done].
Qed.

Lemma set_NoDup k v m : NoDup m.*1 → NoDup (JsMap.set k v m).*1.
Proof.
  intros H. rewrite set_keys. case_bool_decide as Hin; [done|].
  apply NoDup_app. split; [done|]. split; [|apply NoDup_singleton].
  by intros x Hx ->%list_elem_of_singleton.
Qed.

Lemma of_entries_NoDup (entries : list (string * V)) :
  NoDup (JsMap.of_entries entries).*1.
Proof.
  unfold JsMap.of_entries.
  assert (∀ acc : list (string * V), NoDup acc.*1 →
            NoDup (fold_left (fun m kv => JsMap.set kv.1 kv.2 m) entries acc).*1) as H.
  { induction entries as [|[k v] entries IH]; intros acc Hacc; [done|].
    cbn [fold_left]. apply IH. by apply set_NoDup. }
  apply H. constructor.
Qed.

(** [Object.fromEntries] followed by [new Map(Object.entries(...))]
    gives the map back. *)
Lemma of_entries_id m : NoDup m.*1 → JsMap.of_entries m = m.
Proof.
  unfold JsMap.of_entries.
  assert (∀ acc : list (string * V), NoDup (acc ++ m).*1 →
            fold_left (fun m kv => JsMap.set kv.1 kv.2 m) m acc = acc ++ m) as H.
  { induction m as [|[k v] m IH]; intros acc Hacc.
    - by rewrite app_nil_r.
    - cbn [fold_left fst snd]. rewrite set_new.
      + rewrite IH; rewrite <- app_assoc; done.
      + apply bool_decide_eq_false. rewrite fmap_app in Hacc.
        apply NoDup_app in Hacc as (_ & Hdisj & _). intros Hin.
        apply (Hdisj k Hin). by left. }
  intros Hm. by apply (H []).
Qed.

End JsMapOrder.

Lemma load_NoDup d : NoDup (load d).1.*1.
Proof.
  unfold load.
  destruct (metadata_file d) as [| |doc], (backup_file d) as [| |bdoc]; cbn [fst];
    (apply of_entries_NoDup || constructor).
Qed.

Lemma reconstructed_nil e b : allSubjects b = [] → reconstructed e b = [].
Proof. unfold reconstructed. by intros ->. Qed.

Lemma reconstructed_nil_inv e b : reconstructed e b = [] → allSubjects b = [].
Proof.
  unfold reconstructed. intros H. apply (f_equal length) in H.
  rewrite length_imap in H. by destruct (allSubjects b).
Qed.

(** When the first run leaves no subject, there was none and the records
    name none, so any run leaves the backup as the first did. *)
Lemma reconstruct_nothing e e' b :
  subjects (reconstruct e b) = [] →
  subjects b = [] ∧ allSubjects b = [] ∧ reconstruct e' b = reconstruct e b.
Proof.
  unfold reconstruct. destruct (subjects b) as [|x l] eqn:Hb; cbn [length Nat.eqb].
  - cbn [app subjects with_subjects]. intros H%reconstructed_nil_inv.
    by rewrite !reconstructed_nil.
  - by rewrite Hb.
Qed.

(** The backup after the first run, reloaded with any stamp, is left as
    it is by the reconstruction of the second run. *)
Lemma reconstruct_again e e' stamp b :
  reconstruct e' (stamped stamp (reconstruct e b)) = stamped stamp (reconstruct e b).
Proof.
  destruct (subjects (reconstruct e b)) as [|x l] eqn:Hsub.
  - destruct (reconstruct_nothing e e' b Hsub) as (Hb & Hall & _).
    unfold reconstruct at 1. cbn [subjects stamped]. rewrite Hsub. cbn [length Nat.eqb app].
    rewrite reconstructed_nil.
    + unfold with_subjects, stamped. cbn [subjects notes practiceTests practicals
        assignments lastBackup]. by rewrite Hsub.
    + unfold reconstruct. rewrite Hb. cbn [length Nat.eqb]. exact Hall.
  - unfold reconstruct at 1. cbn [subjects stamped]. by rewrite Hsub.
Qed.

Lemma reconstruct_records e b :
  record_keys (reconstruct e b) = record_keys b
  ∧ ∀ m, populate (reconstruct e b) m = populate b m.
Proof. unfold reconstruct. by destruct (Nat.eqb _ _). Qed.

(** The second run finds nothing to add to the index. *)
Lemma populate_again e stamp b m :
  populate (stamped stamp (reconstruct e b)) (populate b m) = populate b m.
Proof.
  change (populate (stamped stamp (reconstruct e b))) with (populate (reconstruct e b)).
  rewrite (proj2 (reconstruct_records e b)).
  apply populate_fixed. intros k Hk.
  by destruct (populate_appends b m) as (_ & _ & _ & _ & Hcov); apply Hcov.
Qed.

Lemma startup_unfold e d :
  startup e d
  = let s := {| disk := d; fileMetadata := populate (load d).2 (load d).1;
                fullBackupData := reconstruct e (load d).2 |} in
    if Nat.ltb (JsMap.size (load d).1) (JsMap.size (fileMetadata s))
       || Nat.ltb 0 (length (subjects (fullBackupData s)))
    then saveMetadata e s else s.
Proof. reflexivity. Qed.

Lemma load_saved e s :
  load (disk (saveMetadata e s))
  = (JsMap.of_entries (fileMetadata s), stamped (Some (iso_now e)) (fullBackupData s)).
Proof. reflexivity. Qed.

Lemma stamped_same b : stamped (lastBackup b) b = b.
Proof. by destruct b. Qed.

Lemma populate_same_run e b m :
  populate (reconstruct e b) (populate b m) = populate b m.
Proof. exact (populate_again e None b m). Qed.

Lemma reconstruct_same_run e e' b :
  reconstruct e' (reconstruct e b) = reconstruct e b.
Proof.
  pose proof (reconstruct_again e e' (lastBackup (reconstruct e b)) b) as H.
  by rewrite stamped_same in H.
Qed.

(** The block run a second time on the state it left. *)
Lemma reconcile_twice e1 e2 s :
  let s1 := reconcile e1 s in
  let s2 := reconcile e2 s1 in
  fileMetadata s2 = fileMetadata s1
  ∧ fullBackupData s2 = fullBackupData s1
  ∧ files (disk s2) = files (disk s1)
  ∧ metadata_file (disk s2) = metadata_file (disk s1)
  ∧ unstamped (backup_file (disk s2)) = unstamped (backup_file (disk s1))
  ∧ (iso_now e2 = iso_now e1 → disk s2 = disk s1).
Proof.
  cbv zeta.
  set (m1 := populate (fullBackupData s) (fileMetadata s)).
  set (b1 := reconstruct e1 (fullBackupData s)).
  assert (Hagain : ∀ s', fileMetadata s' = m1 → fullBackupData s' = b1 →
            reconcile e2 s'
            = if Nat.ltb 0 (length (subjects b1)) then saveMetadata e2 s' else s').
  { intros [d m b]. cbn [fileMetadata fullBackupData]. intros -> ->.
    unfold reconcile. cbv zeta. cbn [fileMetadata fullBackupData disk].
    subst m1 b1. rewrite populate_same_run, reconstruct_same_run.
    by rewrite Nat.ltb_irrefl. }
  change (reconcile e1 s)
    with (let s' := {| disk := disk s; fileMetadata := m1; fullBackupData := b1 |} in
          if Nat.ltb (JsMap.size (fileMetadata s)) (JsMap.size m1)
             || Nat.ltb 0 (length (subjects b1))
          then saveMetadata e1 s' else s').
  cbv zeta.
  destruct (Nat.ltb (JsMap.size (fileMetadata s)) (JsMap.size m1)
            || Nat.ltb 0 (length (subjects b1))) eqn:Hcond.
  - rewrite (Hagain (saveMetadata e1 {| disk := disk s; fileMetadata := m1;
                                         fullBackupData := b1 |}) eq_refl eq_refl).
    destruct (Nat.ltb 0 (length (subjects b1)));
      unfold saveMetadata;
      cbn [disk fileMetadata fullBackupData files metadata_file backup_file unstamped];
      repeat (split; [done|]); [by intros -> | done].
  - rewrite (Hagain {| disk := disk s; fileMetadata := m1; fullBackupData := b1 |}
               eq_refl eq_refl).
    apply orb_false_iff in Hcond as [_ ->]. done.
Qed.

(** C1, as the code has it. A second start right after the first leaves
    the index, the subjects and the four record lists as the first start
    left them, and leaves the metadata document byte for byte as it was.
    The backup document is the same except for [lastBackup], which is the
    time of the write: when the clock reads the same, the whole disk is
    unchanged. The same holds when the block runs again in the process
    that ran it. *)
Theorem startup_twice (e1 e2 : Env) (d : Disk) :
  let s1 := startup e1 d in
  let s2 := startup e2 (disk s1) in
  let again := reconcile e2 s1 in
  fileMetadata s2 = fileMetadata s1
  ∧ unstamp (fullBackupData s2) = unstamp (fullBackupData s1)
  ∧ files (disk s2) = files (disk s1)
  ∧ metadata_file (disk s2) = metadata_file (disk s1)
  ∧ metadata_bytes (disk s2) = metadata_bytes (disk s1)
  ∧ unstamped (backup_file (disk s2)) = unstamped (backup_file (disk s1))
  ∧ (iso_now e2 = iso_now e1 →
       disk s2 = disk s1 ∧ backup_bytes (disk s2) = backup_bytes (disk s1))
  ∧ (fileMetadata again = fileMetadata s1
     ∧ fullBackupData again = fullBackupData s1
     ∧ metadata_file (disk again) = metadata_file (disk s1)
     ∧ unstamped (backup_file (disk again)) = unstamped (backup_file (disk s1))).
Proof.
  intros s1 s2 again.
  assert (Hagain := reconcile_twice e1 e2 (loaded d)).
  cbv zeta in Hagain. fold (startup e1 d) in Hagain. fold s1 in Hagain. fold again in Hagain.
  destruct Hagain as (Ha1 & Ha2 & _ & Ha4 & Ha5 & _).
  assert (Hmain :
    fileMetadata s2 = fileMetadata s1
    ∧ unstamp (fullBackupData s2) = unstamp (fullBackupData s1)
    ∧ files (disk s2) = files (disk s1)
    ∧ metadata_file (disk s2) = metadata_file (disk s1)
    ∧ unstamped (backup_file (disk s2)) = unstamped (backup_file (disk s1))
    ∧ (iso_now e2 = iso_now e1 → disk s2 = disk s1)).
  { subst s1 s2. pose proof (load_NoDup d) as Hnd.
    rewrite (startup_unfold e1 d). cbv zeta.
    destruct (load d) as [m0 b0] eqn:Hload. cbn [fst snd fileMetadata fullBackupData] in *.
    set (m1 := populate b0 m0). set (b1 := reconstruct e1 b0).
    destruct (Nat.ltb (JsMap.size m0) (JsMap.size m1)
              || Nat.ltb 0 (length (subjects b1))) eqn:Hcond.
    - (* the first run writes both documents *)
      rewrite startup_unfold, load_saved. cbv zeta.
      cbn [fst snd fileMetadata fullBackupData].
      rewrite of_entries_id.
      2:{ subst m1. by destruct (populate_appends b0 m0) as (_ & _ & _ & Hn & _); apply Hn. }
      subst m1 b1. rewrite populate_again, reconstruct_again.
      rewrite Nat.ltb_irrefl. cbn [orb subjects stamped].
      destruct (Nat.ltb 0 (length (subjects (reconstruct e1 b0))));
        unfold saveMetadata;
        cbn [disk fileMetadata fullBackupData files metadata_file backup_file unstamped];
        (split; [done|]); (split; [done|]); (split; [done|]); (split; [done|]);
        (split; [done|]).
      + intros ->. done.
      + done.
    - (* the first run writes nothing: the second run repeats it *)
      cbn [disk]. rewrite startup_unfold, Hload. cbv zeta.
      cbn [fst snd fileMetadata fullBackupData]. fold m1.
      apply orb_false_iff in Hcond as [Hsize Hsub].
      apply Nat.ltb_ge in Hsub.
      assert (Hnil : subjects b1 = []) by (destruct (subjects b1); [done | cbn in Hsub; lia]).
      destruct (reconstruct_nothing e1 e2 b0 Hnil) as (_ & _ & ->). fold b1.
      rewrite Hsize, Hnil. cbn [length Nat.ltb Nat.leb orb].
      done. }
  destruct Hmain as (Hm & Hb & Hf & Hmeta & Hbackup & Hsame).
  split; [done|]. split; [done|]. split; [done|]. split; [done|].
  split; [unfold metadata_bytes; by rewrite Hmeta|]. split; [done|].
  split; [|done].
  intros Ht. split; [by apply Hsame|]. by rewrite (Hsame Ht).
Qed.

(* ================================================================== *)
(** ** Units of a subject *)

Lemma units_kept_refl l : units_kept l l.
Proof. intros i s Hs. exists s. by repeat split. Qed.

Lemma units_kept_app l x : units_kept l (l ++ [x]).
Proof.
  intros i s Hs. exists s. split; [|by repeat split].
  rewrite lookup_app_l; [done | by eapply lookup_lt_Some].
Qed.

Lemma push_unit_keeps unit s :
  Subject.name (push_unit unit s) = Subject.name s
  ∧ Subject.id (push_unit unit s) = Subject.id s
  ∧ Subject.units s `prefix_of` Subject.units (push_unit unit s).
Proof.
  unfold push_unit. case_bool_decide; [done|]. cbn. repeat split.
  by apply prefix_app_r.
Qed.

Lemma units_kept_push unit i l : units_kept l (alter (push_unit unit) i l).
Proof.
  intros j s Hs. rewrite list_lookup_alter. destruct (decide (i = j)) as [->|Hne].
  - rewrite Hs. cbn. eexists. split; [done|]. apply push_unit_keeps.
  - exists s. by repeat split.
Qed.

Lemma alter_at {A} (f : A → A) i (l : list A) x :
  l !! i = Some x → alter f i l = <[i := f x]> l.
Proof.
  intros Hx. apply list_eq. intros j.
  rewrite list_lookup_alter, list_lookup_insert.
  destruct (decide (i = j)) as [->|Hne].
  - rewrite Hx, decide_True; [done|]. split; [done | by eapply lookup_lt_Some].
  - by rewrite decide_False by tauto.
Qed.

Lemma units_kept_register e subject type unit l :
  units_kept l (register_subject e subject type unit l).
Proof.
  unfold register_subject. destruct (findIndex subject l).
  - destruct (_ && _); [apply units_kept_push | apply units_kept_refl].
  - apply units_kept_app.
Qed.

Lemma upsert_subjects type unit r b : subjects (upsert type unit r b) = subjects b.
Proof.
  unfold upsert. destruct (String.eqb type "notes"); [done|].
  destruct (String.eqb type "practice-tests"); [done|].
  destruct (String.eqb type "practicals"); [done|].
  by destruct (String.eqb type "assignments").
Qed.

Section Units.

Variable dirname_segs : list string.
Variable formatFileSize : N → string.
Variable extname : string → string.

Local Abbreviation upload' := (upload dirname_segs formatFileSize extname).
Local Abbreviation handle' := (handle dirname_segs formatFileSize extname).

(** An upload that succeeds went through all the checks and registers
    its subject and unit; any other upload leaves the subjects alone. *)
Lemma upload_subjects e file body s :
  let before := subjects (fullBackupData s) in
  let after := subjects (fullBackupData (upload' e file body s).1) in
  ((∀ message, (upload' e file body s).2 ≠ Success message) ∧ after = before)
  ∨ ((String.eqb (Js.or_empty (b_type body)) "notes" = true → blank (b_unit body) = false)
     ∧ after = register_subject e (Js.trim (Js.or_empty (b_subject body)))
                 (Js.or_empty (b_type body)) (b_unit body) before).
Proof.
  cbn zeta. unfold upload.
  destruct file as [f|]; [|by left].
  destruct (blank (b_title body)); [by left|].
  destruct (blank (b_subject body)); [by left|].
  destruct (blank (b_type body)); [by left|].
  destruct (String.eqb (Js.or_empty (b_type body)) "notes" && blank (b_unit body)) eqn:Hn;
    [by left|].
  destruct (relocate _ _ _ _ _ _) as [fs [p|]]; [right | by left].
  split.
  - intros Heq. rewrite Heq in Hn. exact Hn.
  - cbn [fst saveMetadata fullBackupData subjects with_subjects].
    by rewrite upsert_subjects.
Qed.

Lemma forget_subjects e removed subject type unit filename s :
  subjects (fullBackupData (forget e removed subject type unit filename s))
  = subjects (fullBackupData s).
Proof.
  unfold forget. cbn [saveMetadata fullBackupData].
  destruct (String.eqb type "notes"); [done|].
  destruct (String.eqb type "practice-tests"); [done|].
  destruct (String.eqb type "practicals"); [done|].
  by destruct (String.eqb type "assignments").
Qed.

(** C2, as the code has it. Under every request other than the deletion
    of a subject and the creation of a subject whose name is taken, each
    subject entry stays at its place and keeps the units it had, in their
    order. A successful upload of a note for a known subject appends the
    unit when it is new and changes no subject when it is known. The
    creation request for a name that is taken puts a new entry with the
    units of the request in the place of the old one. *)
Theorem units_only_grow (e : Env) (s : Server) :
  (∀ r, keeps_units r s →
        units_kept (subjects (fullBackupData s))
          (subjects (fullBackupData (handle' e r s).1)))
  ∧ (∀ file body i entry message,
      (handle' e (Upload file body) s).2 = Success message →
      b_type body = Some "notes" →
      list_find (fun x => Subject.name x = Js.trim (Js.or_empty (b_subject body)))
        (subjects (fullBackupData s)) = Some (i, entry) →
      let unit := Js.trim (Js.or_empty (b_unit body)) in
      let after := subjects (fullBackupData (handle' e (Upload file body) s).1) in
      (unit ∉ Subject.units entry →
         after = <[i := {| Subject.id := Subject.id entry;
                           Subject.name := Subject.name entry;
                           Subject.units := Subject.units entry ++ [unit] |}]>
                   (subjects (fullBackupData s)))
      ∧ (unit ∈ Subject.units entry → after = subjects (fullBackupData s)))
  ∧ (∀ name units i,
      findIndex name (subjects (fullBackupData s)) = Some i →
      subjects (fullBackupData (handle' e (CreateSubject name units) s).1)
      = <[i := {| Subject.id := now e; Subject.name := name;
                  Subject.units := default [] units |}]> (subjects (fullBackupData s))).
Proof.
  split; [|split].
  - intros r Hkeeps. destruct r as [file body | name units | subjectName unitName
                  | subject type unit filename | subjectName]; cbn [handle].
    + destruct (upload_subjects e file body s) as [[_ ->] | [_ ->]].
      * apply units_kept_refl.
      * apply units_kept_register.
    + cbn in Hkeeps. unfold create_subject. cbn [fst saveMetadata fullBackupData
        with_fullBackupData with_subjects subjects].
      rewrite Hkeeps. apply units_kept_app.
    + unfold create_unit. cbn [fst].
      destruct (list_find _ _) as [[i found]|]; [|apply units_kept_refl].
      case_bool_decide; [apply units_kept_refl|].
      cbn [saveMetadata fullBackupData with_fullBackupData with_subjects subjects].
      apply units_kept_push.
    + unfold delete_file. destruct (Fs.existsSync _ _); cbn [fst].
      * rewrite forget_subjects. apply units_kept_refl.
      * destruct (first_existing _ _); cbn [fst]; [|apply units_kept_refl].
        rewrite forget_subjects. apply units_kept_refl.
    + destruct Hkeeps.
  - intros file body i entry message Hok Htype Hfind unit after.
    subst after. cbn [handle] in *.
    destruct (upload_subjects e file body s) as [[Hno _] | [Hunit ->]];
      [by destruct (Hno message)|].
    rewrite Htype in *. cbn [Js.or_empty from_option id] in *.
    specialize (Hunit eq_refl). unfold blank in Hunit.
    apply orb_false_iff in Hunit as [Hunit _]. apply negb_false_iff in Hunit.
    unfold register_subject, findIndex. rewrite Hfind, Hunit. cbn [fmap option_fmap option_map fst].
    change (String.eqb "notes" "notes" && true) with true. cbv iota.
    apply list_find_Some in Hfind as (Hi & _ & _).
    rewrite (alter_at _ _ _ _ Hi). fold unit. unfold push_unit. split.
    + intros Hnew. by rewrite bool_decide_eq_false_2.
    + intros Hknown. rewrite bool_decide_eq_true_2 by done. by apply list_insert_id.
  - intros name units i Hi. cbn [handle]. unfold create_subject.
    cbn [fst saveMetadata fullBackupData with_fullBackupData with_subjects subjects].
    by rewrite Hi.
Qed.

End Units.

(* ================================================================== *)

(** C1 fails as stated: the second start writes the backup document
    again, with the time of that write in [lastBackup], so its bytes
    differ from those of the first start as soon as the clock has moved. *)
Lemma second_start_restamps_backup :
  let s1 := startup sample_env one_subject_disk in
  let s2 := startup later_env (disk s1) in
  doc_lastBackup <$> (match backup_file (disk s1) with Parsed doc => Some doc | _ => None end)
    = Some (Some "2023-11-14T22:13:20.123Z")
  ∧ doc_lastBackup <$> (match backup_file (disk s2) with Parsed doc => Some doc | _ => None end)
    = Some (Some "2023-11-14T22:13:21.000Z")
  ∧ backup_bytes (disk s2) ≠ backup_bytes (disk s1).
Proof.
  cbn zeta. split; [by vm_compute|]. split; [by vm_compute|].
  apply (bool_decide_unpack _). by vm_compute.
Qed.

Lemma units_only_grow_witness :
  units_kept [math]
    (subjects (fullBackupData
       (handle sample_dirname (fun _ => "1 KB") (fun _ => ".pdf") sample_env
          (CreateUnit "Math" "U2") one_subject_server).1)).
Proof.
  exact (proj1 (units_only_grow sample_dirname (fun _ => "1 KB") (fun _ => ".pdf")
                  sample_env one_subject_server) (CreateUnit "Math" "U2") I).
Defined.

(** C2 fails as stated: the creation request for a subject that exists
    replaces its entry, and the units it had are gone. *)
Lemma subject_creation_replaces_units :
  let after :=
    subjects (fullBackupData
      (handle sample_dirname (fun _ => "1 KB") (fun _ => ".pdf") sample_env
         (CreateSubject "Math" (Some ["U2"])) one_subject_server).1) in
  Subject.units <$> subjects (fullBackupData one_subject_server) = [["U1"]]
  ∧ Subject.units <$> after = [["U2"]]
  ∧ Subject.name <$> after = ["Math"].
Proof. cbn zeta. repeat split; by vm_compute. Qed.

Lemma reconstruction_of_subjects_witness :
  Subject.name <$> subjects (reconstruct sample_env two_notes_backup) = ["Math"]
  ∧ Subject.units <$> subjects (reconstruct sample_env two_notes_backup) = [["U1"; "U2"]].
Proof.
  assert (Hwf : well_formed two_notes_backup).
  { split; repeat constructor; try done; eexists; (split; [reflexivity | done]). }
  destruct (reconstruction_of_subjects sample_env two_notes_backup eq_refl Hwf)
    as (Hnames & _ & Hunits).
  split; [exact Hnames|].
  destruct (subjects (reconstruct sample_env two_notes_backup)) as [|s [|s' l]];
    try discriminate Hnames.
  injection Hnames as Hname. cbn [fmap list_fmap]. do 2 f_equal.
  destruct (Hunits s (list_elem_of_here _ _)) as [-> _]. rewrite Hname. reflexivity.
Defined.

(** C8 fails as stated: when the same file name is also stored under a
    fallback path, the lookup after a successful delete finds that other
    file instead of answering 404. *)
Lemma lookup_after_delete_finds_variant :
  let deleted := delete_file sample_dirname sample_env "Math" "notes" (Some "Unit 1")
                   "a_1700000000123.pdf" two_units_server in
  deleted.2 = Success "File deleted successfully"
  ∧ get_file sample_dirname "Math" "notes" (Some "Unit 1") "a_1700000000123.pdf" deleted.1
    = SendFile "/srv/app/storage/Math/notes/unit 1/a_1700000000123.pdf".
Proof. cbn zeta. split; by vm_compute. Qed.

Lemma populate_keeps_existing_witness :
  Meta.title <$> JsMap.get "Math-notes-U1-a_1700000000123.pdf"
                   (fileMetadata (startup sample_env retitled_disk))
    = Some "kept".
Proof.
  rewrite (proj2 (proj2 (populate_keeps_existing sample_env (loaded retitled_disk)
                           "Math-notes-U1-a_1700000000123.pdf"
                           {| Meta.title := "kept"; Meta.description := "";
                              Meta.originalFileName := "a.pdf" |} eq_refl))
             retitled_disk eq_refl).
  reflexivity.
Defined.

(* ================================================================== *)
(** ** Stored file names and synthesised titles *)

Lemma includes_char_cons (c d : ascii) (s : string) :
  Js.includes (String c EmptyString) (String d s)
  = Ascii.eqb d c || Js.includes (String c EmptyString) s.
Proof.
  cbn [Js.includes String.prefix].
  destruct (ascii_dec c d) as [<-|Hne].
  - rewrite Ascii.eqb_refl. by destruct s.
  - destruct (Ascii.eqb_spec d c) as [->|_]; [by destruct Hne|]. reflexivity.
Qed.

Lemma includes_char_app (c : ascii) (a b : string) :
  Js.includes (String c EmptyString) (a +:+ b)
  = Js.includes (String c EmptyString) a || Js.includes (String c EmptyString) b.
Proof.
  induction a as [|d a IH]; [done|].
  by rewrite append_cons, !includes_char_cons, IH, orb_assoc.
Qed.

Lemma split_segments_no_slash s :
  Forall (fun seg => Js.includes "/" seg = false) (Path.split s).
Proof.
  induction s as [|c s IH]; [by repeat constructor|].
  cbn [Path.split]. destruct (Ascii.eqb c Path.slash) eqn:Hc; [by constructor|].
  unfold Path.slash in Hc. destruct (Path.split s) as [|seg rest].
  - repeat constructor. by rewrite includes_char_cons, Hc.
  - apply Forall_cons in IH as [Hseg Hrest]. constructor; [|done].
    by rewrite includes_char_cons, Hc, Hseg.
Qed.

Lemma last_component_no_slash p : Js.includes "/" (last_component p) = false.
Proof.
  unfold last_component.
  assert (H : Forall (fun seg => Js.includes "/" seg = false)
                (List.filter Js.truthy (Path.split p))).
  { apply Forall_forall. intros seg Hseg%list_elem_of_In%List.filter_In.
    destruct Hseg as [Hseg%list_elem_of_In _].
    by apply (proj1 (Forall_forall _ _) (split_segments_no_slash p)). }
  induction H as [|x l Hx Hl IH]; [done|].
  destruct l; [done|]. exact IH.
Qed.

Lemma cut_last_dot_Some s before after :
  cut_last_dot s = Some (before, after) →
  s = before +:+ "." +:+ after ∧ Js.includes "." after = false.
Proof.
  revert before. induction s as [|c s IH]; intros before; [done|].
  cbn [cut_last_dot]. destruct (cut_last_dot s) as [[b a]|] eqn:Hcut.
  - intros [= <- <-]. destruct (IH b eq_refl) as [-> Hno]. by rewrite append_cons.
  - destruct (Ascii.eqb_spec c ".") as [->|Hne]; [|done].
    intros [= <- <-]. split; [done|].
    clear IH. induction s as [|d s IH]; [done|].
    cbn [cut_last_dot] in Hcut. destruct (cut_last_dot s) as [[b a]|]; [done|].
    destruct (Ascii.eqb d ".") eqn:Hd; [done|].
    rewrite includes_char_cons, Hd. by apply IH.
Qed.

Lemma cut_last_dot_app a b :
  Js.includes "." b = false → cut_last_dot (a +:+ "." +:+ b) = Some (a, b).
Proof.
  intros Hb.
  assert (Hnone : cut_last_dot b = None).
  { destruct (cut_last_dot b) as [[x y]|] eqn:Hcut; [|done].
    apply cut_last_dot_Some in Hcut as [-> _].
    rewrite includes_char_app in Hb. apply orb_false_iff in Hb as [_ Hb].
    change ("." +:+ y) with (String "." y) in Hb.
    by rewrite includes_char_cons in Hb. }
  induction a as [|c a IH].
  - change ("" +:+ "." +:+ b) with (String "." b). cbn [cut_last_dot]. by rewrite Hnone.
  - rewrite append_cons. cbn [cut_last_dot]. by rewrite IH.
Qed.

(** What [path.extname] returns: nothing, or a "." followed by text that
    has neither a "." nor a separator. *)
Lemma path_extname_shape p :
  path_extname p = ""
  ∨ ∃ after, path_extname p = "." +:+ after
             ∧ Js.includes "." after = false ∧ Js.includes "/" after = false.
Proof.
  unfold path_extname. cbv zeta.
  destruct (cut_last_dot (last_component p)) as [[before after]|] eqn:Hcut; [|by left].
  destruct (_ || _); [by left|]. right. exists after. split; [done|].
  destruct (cut_last_dot_Some _ _ _ Hcut) as [Heq Hdot]. split; [done|].
  pose proof (last_component_no_slash p) as Hno. rewrite Heq in Hno.
  rewrite !includes_char_app in Hno. by apply orb_false_iff in Hno as [_ [_ ?]%orb_false_iff].
Qed.

Lemma sanitize_no (c : ascii) name :
  is_letter c = false → is_digit c = false → c ≠ "-"%char → c ≠ "_"%char →
  Js.includes (String c EmptyString) (sanitize name) = false.
Proof.
  intros Hl Hd Hm Hu. unfold sanitize. induction name as [|x name IH]; [done|].
  cbn [map_chars]. rewrite includes_char_cons, IH, orb_false_r.
  apply Ascii.eqb_neq. unfold sanitize_char.
  destruct (is_letter x || is_digit x || Ascii.eqb x "-" || Ascii.eqb x "_") eqn:Hx; [|done].
  intros ->. rewrite Hl, Hd in Hx. cbn [orb] in Hx.
  apply orb_true_iff in Hx as [Hx|Hx]; apply Ascii.eqb_eq in Hx; congruence.
Qed.

Section FileNames.

Variable basename : string → string → string.

Lemma stored_name_is_plain_aux (timestamp originalname : string) :
  Js.includes "/" timestamp = false →
  Js.includes "_" (multer_filename basename timestamp originalname) = true
  ∧ Js.includes "/" (multer_filename basename timestamp originalname) = false.
Proof.
  intros Hts. unfold multer_filename. cbv zeta.
  set (name := sanitize (basename originalname (path_extname originalname))).
  set (ext := path_extname originalname). split.
  - rewrite !includes_char_app. change (Js.includes "_" "_") with true.
    by rewrite orb_true_r.
  - rewrite !includes_char_app, Hts. subst name. rewrite sanitize_no by done.
    change (Js.includes "/" "_") with false. cbn [orb].
    subst ext. destruct (path_extname_shape originalname) as [->|(a & -> & _ & Ha)]; [done|].
    by rewrite includes_char_app, Ha.
Qed.

(** X1. Whatever the name the client sends, the name under which multer
    stores the file is one plain path segment: not empty, without a
    separator, and neither "." nor "..". *)
Theorem stored_name_is_plain (timestamp originalname : string) :
  Js.includes "/" timestamp = false →
  Path.plain (multer_filename basename timestamp originalname) = true.
Proof.
  intros Hts.
  destruct (stored_name_is_plain_aux timestamp originalname Hts) as [Hunder Hslash].
  unfold Path.plain. rewrite Hslash. cbn [negb andb].
  destruct (multer_filename basename timestamp originalname) as [|c [|d [|x r]]] eqn:Heq;
    try done.
  - rewrite includes_char_cons in Hunder. cbn in Hunder. rewrite orb_false_r in Hunder.
    apply Ascii.eqb_eq in Hunder as ->. done.
  - rewrite !includes_char_cons in Hunder. cbn in Hunder. rewrite orb_false_r in Hunder.
    apply orb_true_iff in Hunder as [->%Ascii.eqb_eq | ->%Ascii.eqb_eq].
    + done.
    + cbn. by destruct (Ascii.eqb c ".").
  - cbn. by destruct (Ascii.eqb c "."), (Ascii.eqb d ".").
Qed.

Lemma all_digits_not_with_underscore n r t :
  all_digits n (r +:+ "_" +:+ t) = false.
Proof.
  revert n. induction r as [|c r IH]; intros [|n]; try done.
  rewrite append_cons. cbn [all_digits]. by rewrite IH, andb_false_r.
Qed.

Lemma strip_timestamp_app name timestamp :
  all_digits 13 timestamp = true → strip_timestamp (name +:+ "_" +:+ timestamp) = name.
Proof.
  intros Hts. induction name as [|c name IH].
  - change ("" +:+ "_" +:+ timestamp) with (String "_" timestamp).
    cbn [strip_timestamp]. by rewrite Hts.
  - rewrite append_cons. cbn [strip_timestamp].
    by rewrite all_digits_not_with_underscore, andb_false_r, IH.
Qed.

Lemma all_digits_no_dot n t : all_digits n t = true → Js.includes "." t = false.
Proof.
  revert n. induction t as [|c t IH]; intros n; [done|].
  destruct n as [|n]; [done|]. cbn [all_digits]. intros [Hc Ht]%andb_true_iff.
  rewrite includes_char_cons, (IH n Ht), orb_false_r.
  apply Ascii.eqb_neq. intros ->. done.
Qed.

(** X2. For a file that the filter lets through, the title that the
    listing makes up from the stored name is the sanitised original name
    with its underscores as spaces and its words capitalised: the time
    stamp and the extension never show. *)
Theorem title_of_stored_name (timestamp originalname mimetype : string) :
  fileFilter originalname mimetype = true →
  all_digits 13 timestamp = true →
  baseTitle (multer_filename basename timestamp originalname)
  = capitalize_words
      (underscores_to_spaces
         (sanitize (basename originalname (path_extname originalname)))).
Proof.
  intros Hfilter Hts. unfold fileFilter in Hfilter. cbv zeta in Hfilter.
  apply andb_true_iff in Hfilter as [_ Hext].
  unfold baseTitle, multer_filename. cbv zeta. do 2 f_equal.
  set (name := sanitize (basename originalname (path_extname originalname))).
  destruct (path_extname_shape originalname) as [Hnone|(after & Heq & Hdot & Hslash)].
  - rewrite Hnone in Hext. done.
  - rewrite Heq in *.
    assert (Hafter : Js.truthy after = true).
    { destruct after; [done|]. done. }
    unfold strip_extension.
    replace (name +:+ "_" +:+ timestamp +:+ "." +:+ after)
      with ((name +:+ "_" +:+ timestamp) +:+ "." +:+ after)
      by by rewrite !append_assoc.
    rewrite cut_last_dot_app by done. rewrite Hafter, Hslash. cbn [negb andb].
    by apply strip_timestamp_app.
Qed.

Lemma cut_last_dot_without_dot s : Js.includes "." s = false → cut_last_dot s = None.
Proof.
  intros Hno. destruct (cut_last_dot s) as [[before after]|] eqn:Hcut; [|done].
  apply cut_last_dot_Some in Hcut as [-> _].
  rewrite includes_char_app in Hno. apply orb_false_iff in Hno as [_ Hno].
  change ("." +:+ after) with (String "." after) in Hno.
  by rewrite includes_char_cons in Hno.
Qed.

Lemma last_component_plain s :
  Js.includes "/" s = false → s ≠ "" → last_component s = s.
Proof.
  intros Hslash Hs. unfold last_component. rewrite split_no_slash by done.
  cbn. by destruct s.
Qed.

(** X3. The stored name has the extension of the original name, so the
    file type that the upload records and the one that the listing
    derives from the stored name are the same. *)
Theorem stored_name_keeps_extension (timestamp originalname : string) :
  all_digits 13 timestamp = true →
  path_extname (multer_filename basename timestamp originalname)
  = path_extname originalname
  ∧ fileType_of (multer_filename basename timestamp originalname)
    = if Js.includes "pdf" (Js.toLowerCase (path_extname originalname))
      then "pdf" else "image".
Proof.
  intros Hts.
  assert (Hext : path_extname (multer_filename basename timestamp originalname)
                 = path_extname originalname);
    [|split; [done | unfold fileType_of; by rewrite Hext]].
  assert (Htsslash : Js.includes "/" timestamp = false).
  { clear -Hts. revert Hts. generalize 13. induction timestamp as [|c t IH]; intros n; [done|].
    destruct n as [|n]; [done|]. cbn [all_digits]. intros [Hc Ht]%andb_true_iff.
    rewrite includes_char_cons, (IH n Ht), orb_false_r.
    apply Ascii.eqb_neq. intros ->. done. }
  pose proof (all_digits_no_dot _ _ Hts) as Htsdot.
  pose proof (stored_name_is_plain_aux timestamp originalname Htsslash) as [Hunder Hslash].
  unfold multer_filename in *. cbv zeta in *.
  set (name := sanitize (basename originalname (path_extname originalname))) in *.
  assert (Hname : Js.includes "." name = false) by (by apply sanitize_no).
  assert (Hbefore : Js.includes "_" (name +:+ "_" +:+ timestamp) = true).
  { rewrite !includes_char_app. change (Js.includes "_" "_") with true.
    cbn [orb]. by rewrite orb_true_r. }
  unfold path_extname at 1. cbv zeta.
  rewrite last_component_plain; [|done|by intros Heq; rewrite Heq in Hunder].
  destruct (path_extname_shape originalname) as [Hnone|(after & Heq & Hdot & _)].
  - rewrite Hnone. rewrite cut_last_dot_without_dot; [done|].
    by rewrite !includes_char_app, Hname, Htsdot.
  - rewrite Heq.
    replace (name +:+ "_" +:+ timestamp +:+ "." +:+ after)
      with ((name +:+ "_" +:+ timestamp) +:+ "." +:+ after)
      by by rewrite !append_assoc.
    rewrite cut_last_dot_app by done.
    destruct (String.eqb_spec (name +:+ "_" +:+ timestamp) "") as [Hempty|_].
    { by rewrite Hempty in Hbefore. }
    destruct (String.eqb_spec ((name +:+ "_" +:+ timestamp) +:+ "." +:+ after) "..")
      as [Hdots|_]; [|done].
    assert (Hin : Js.includes "_" ((name +:+ "_" +:+ timestamp) +:+ "." +:+ after) = true)
      by (by rewrite includes_char_app, Hbefore).
    by rewrite Hdots in Hin.
Qed.

End FileNames.

Lemma stored_name_is_plain_witness :
  Path.plain (multer_filename sample_basename "1700000000123" "../Intro To.Sets.pdf") = true.
Proof. apply (stored_name_is_plain sample_basename). reflexivity. Defined.

Lemma title_of_stored_name_witness :
  baseTitle (multer_filename sample_basename "1700000000123" "../Intro To.Sets.pdf")
  = "Intro To Sets".
Proof.
  apply (title_of_stored_name sample_basename "1700000000123" "../Intro To.Sets.pdf"
           "application/pdf"); reflexivity.
Defined.

Lemma stored_name_keeps_extension_witness :
  path_extname (multer_filename sample_basename "1700000000123" "photo.JPG") = ".JPG"
  ∧ fileType_of (multer_filename sample_basename "1700000000123" "photo.JPG") = "image".
Proof.
  apply (stored_name_keeps_extension sample_basename "1700000000123" "photo.JPG").
  reflexivity.
Defined.

(* ================================================================== *)
(** ** Uploads *)

Lemma append_inj_l (a x y : string) : a +:+ x = a +:+ y → x = y.
Proof.
  induction a as [|c a IH]; [done|]. rewrite !append_cons. intros [= H]. by apply IH.
Qed.

Lemma length_append (a b : string) :
  String.length (a +:+ b) = String.length a + String.length b.
Proof. induction a as [|c a IH]; [done|]. rewrite append_cons. cbn. by rewrite IH. Qed.

Lemma trim_end_idemp s : Js.trim_end (Js.trim_end s) = Js.trim_end s.
Proof.
  induction s as [|c s IH]; [done|]. cbn [Js.trim_end].
  destruct (Js.trim_end s) as [|d r] eqn:Hs.
  - destruct (Js.is_ws c) eqn:Hc; [done|]. cbn [Js.trim_end]. by rewrite Hc.
  - cbn [Js.trim_end] in IH |- *. by rewrite IH.
Qed.

Lemma trim_start_head s c r : Js.trim_start s = String c r → Js.is_ws c = false.
Proof.
  induction s as [|d s IH]; [done|]. cbn [Js.trim_start].
  destruct (Js.is_ws d) eqn:Hd; [done|]. by intros [= <- _].
Qed.

Lemma trim_end_head c r : Js.is_ws c = false → ∃ r', Js.trim_end (String c r) = String c r'.
Proof.
  intros Hc. cbn [Js.trim_end]. destruct (Js.trim_end r); [|by eexists].
  rewrite Hc. by eexists.
Qed.

(** [trim] of a trimmed string changes nothing. *)
Lemma trim_idemp s : Js.trim (Js.trim s) = Js.trim s.
Proof.
  unfold Js.trim.
  assert (Hstart : Js.trim_start (Js.trim_end (Js.trim_start s))
                   = Js.trim_end (Js.trim_start s)).
  { destruct (Js.trim_start s) as [|c r] eqn:Hs; [done|].
    apply trim_start_head in Hs. destruct (trim_end_head c r Hs) as [r' ->].
    cbn [Js.trim_start]. by rewrite Hs. }
  by rewrite Hstart, trim_end_idemp.
Qed.

Section JsMapLookup.
Context {V : Type}.
Implicit Types (m : list (string * V)) (k : string) (v : V).

Lemma get_set k v m : JsMap.get k (JsMap.set k v m) = Some v.
Proof.
  induction m as [|[k' v'] m IH]; cbn.
  - by rewrite decide_True.
  - destruct (decide (k' = k)) as [->|Hne]; cbn.
    + by rewrite decide_True.
    + by rewrite decide_False.
Qed.

Lemma get_set_ne k k' v m : k ≠ k' → JsMap.get k' (JsMap.set k v m) = JsMap.get k' m.
Proof.
  intros Hne. induction m as [|[k0 v0] m IH]; cbn.
  - by rewrite decide_False.
  - destruct (decide (k0 = k)) as [->|Hk]; cbn.
    + by rewrite !decide_False.
    + by rewrite IH.
Qed.

Lemma get_delete_ne k k' m : k ≠ k' → JsMap.get k' (JsMap.delete k m) = JsMap.get k' m.
Proof.
  intros Hne. unfold JsMap.delete. induction m as [|[k0 v0] m IH]; [done|].
  rewrite filter_cons. cbn [fst]. destruct (decide (k0 ≠ k)) as [Hk|Hk]; cbn.
  - by rewrite IH.
  - apply dec_stable in Hk as ->. by rewrite decide_False.
Qed.

Lemma delete_NoDup k m : NoDup m.*1 → NoDup (JsMap.delete k m).*1.
Proof.
  unfold JsMap.delete. induction m as [|[k0 v0] m IH]; [done|].
  rewrite fmap_cons, NoDup_cons. intros [Hnot Hm]. rewrite filter_cons.
  destruct (decide _); [|by apply IH].
  rewrite fmap_cons. apply NoDup_cons. split; [|by apply IH].
  intros Hin. apply Hnot. apply list_elem_of_fmap in Hin as (kv & -> & Hin).
  apply list_elem_of_filter in Hin as [_ Hin]. apply list_elem_of_fmap. by exists kv.
Qed.

End JsMapLookup.

Section Uploads.

Variable dirname_segs : list string.
Variable formatFileSize : N → string.
Variable extname : string → string.

Local Abbreviation upload' := (upload dirname_segs formatFileSize extname).

(** The three ways an upload ends. *)
Lemma upload_outcome e file body s :
  (∃ message, upload' e file body s = (s, Failure 400 message))
  ∨ (∃ f fs, file = Some f
       ∧ files (disk s) ⊆ fs
       ∧ upload' e file body s = (with_files fs s, Failure 500 "Failed to upload file"))
  ∨ (∃ f fs filePath,
       file = Some f
       ∧ Js.truthy (upload_title body) = true
       ∧ (String.eqb (Js.or_empty (b_type body)) "notes" = true → blank (b_unit body) = false)
       ∧ relocate dirname_segs f (Js.or_empty (b_subject body)) (Js.or_empty (b_type body))
           (b_unit body) (files (disk s)) = (fs, Some filePath)
       ∧ upload' e file body s
         = (saveMetadata e
              {| disk := {| files := fs; metadata_file := metadata_file (disk s);
                            backup_file := backup_file (disk s) |};
                 fileMetadata :=
                   JsMap.set (upload_key body f) (upload_entry body f) (fileMetadata s);
                 fullBackupData :=
                   let b1 := upsert (upload_type body) (upload_unit body)
                               (upload_record formatFileSize extname e body f filePath)
                               (fullBackupData s) in
                   with_subjects
                     (register_subject e (upload_subject body) (Js.or_empty (b_type body))
                        (b_unit body) (subjects b1)) b1 |},
            Success "File uploaded successfully")).
Proof.
  unfold upload. destruct file as [f|]; [|left; by eexists].
  destruct (blank (b_title body)) eqn:Htitle; [left; by eexists|].
  destruct (blank (b_subject body)); [left; by eexists|].
  destruct (blank (b_type body)); [left; by eexists|].
  destruct (String.eqb (Js.or_empty (b_type body)) "notes" && blank (b_unit body)) eqn:Hn;
    [left; by eexists|].
  right.
  destruct (relocate _ _ _ _ _ _) as [fs [p|]] eqn:Hmove.
  - right. exists f, fs, p. split_and!; try done.
    + unfold blank in Htitle. apply orb_false_iff in Htitle as [_ Htitle].
      by apply negb_false_iff in Htitle.
    + intros Heq. by rewrite Heq in Hn.
  - left. exists f, fs. split_and!; try done.
    unfold relocate in Hmove. destruct (Js.includes "temp" (path f)); [|done].
    destruct (correctPath _ _ _ _) as [dir|]; [|done].
    destruct (Fs.moveSync _ _ _); [done|]. injection Hmove as <-.
    unfold Fs.ensureDirSync. apply union_subseteq_l.
Qed.

(** X4. An upload that is answered with an error records nothing: the
    index, the backup and both documents are as before, and no file has
    been removed. With status 400 the whole state is as before. *)
Theorem failed_upload_records_nothing e file body s status message :
  (upload dirname_segs formatFileSize extname e file body s).2 = Failure status message →
  let s' := (upload dirname_segs formatFileSize extname e file body s).1 in
  fileMetadata s' = fileMetadata s
  ∧ fullBackupData s' = fullBackupData s
  ∧ metadata_file (disk s') = metadata_file (disk s)
  ∧ backup_file (disk s') = backup_file (disk s)
  ∧ files (disk s) ⊆ files (disk s')
  ∧ (status = 400 ∨ status = 500)
  ∧ (status = 400 → s' = s).
Proof.
  intros Hfail s'. subst s'.
  destruct (upload_outcome e file body s)
    as [[m Heq] | [(f & fs & _ & Hsub & Heq) | (f & fs & p & _ & _ & _ & _ & Heq)]];
    rewrite Heq in Hfail |- *; cbn [fst snd] in *.
  - injection Hfail as <- _. split_and!; by auto.
  - injection Hfail as <- _. split_and!; try done; by auto.
  - done.
Qed.

(** X5. After a successful upload into one of the four categories (with
    a unit only for notes) the listing shows the file under the title and
    the description that came with the upload. *)
Theorem uploaded_title_is_listed e file body s message size modified :
  (upload' e file body s).2 = Success message →
  upload_type body ∈ categories →
  (upload_type body ≠ "notes" → upload_unit body = "") →
  ∃ f, file = Some f
    ∧ let item := listing_item formatFileSize (fileMetadata (upload' e file body s).1)
                    (upload_subject body) (upload_type body) (upload_unit body)
                    (filename f) size modified in
      i_title item = upload_title body
      ∧ i_description item = upload_description body.
Proof.
  intros Hok Htype Hunit.
  destruct (upload_outcome e file body s)
    as [[m Heq] | [(f & fs & _ & _ & Heq) | (f & fs & p & -> & Htitle & _ & _ & Heq)]];
    rewrite Heq in Hok |- *; [done..|].
  exists f. split; [done|]. cbn [fst saveMetadata fileMetadata].
  assert (Hnonblank : Js.truthy (upload_title body)
                      && negb (String.eqb (Js.trim (upload_title body)) "") = true).
  { rewrite Htitle. unfold upload_title. rewrite trim_idemp.
    exact Htitle. }
  unfold upload_key. set (m := fileMetadata s).
  remember (upload_type body) as type eqn:Heqtype. clear Heqtype.
  cases_mem Htype.
  - unfold listing_item, notes_item. cbn [String.eqb Ascii.eqb Bool.eqb].
    cbv zeta. cbn [i_title i_description].
    change (upload_subject body +:+ "-notes-" +:+ upload_unit body +:+ "-" +:+ filename f)
      with (upload_subject body +:+ "-" +:+ "notes" +:+ "-" +:+ upload_unit body
            +:+ "-" +:+ filename f).
    rewrite get_set. unfold title_or. cbn [upload_entry Meta.title description_or_empty
      Meta.description]. by rewrite Htitle.
  - rewrite Hunit by done.
    unfold listing_item, practiceTests_item. cbn [String.eqb Ascii.eqb Bool.eqb].
    cbv zeta. cbn [i_title i_description].
    change (upload_subject body +:+ "-practice-tests--" +:+ filename f)
      with (upload_subject body +:+ "-" +:+ "practice-tests" +:+ "-" +:+ ""
            +:+ "-" +:+ filename f).
    rewrite get_set. unfold nonblank_title_or. cbn [upload_entry Meta.title
      description_or_empty Meta.description]. by rewrite Hnonblank.
  - rewrite Hunit by done.
    unfold listing_item, practicals_item. cbn [String.eqb Ascii.eqb Bool.eqb].
    cbv zeta. cbn [i_title i_description].
    change (upload_subject body +:+ "-practicals--" +:+ filename f)
      with (upload_subject body +:+ "-" +:+ "practicals" +:+ "-" +:+ ""
            +:+ "-" +:+ filename f).
    rewrite get_set. unfold nonblank_title_or. cbn [upload_entry Meta.title
      description_or_empty Meta.description]. by rewrite Hnonblank.
  - rewrite Hunit by done.
    unfold listing_item, assignments_item. cbn [String.eqb Ascii.eqb Bool.eqb].
    cbv zeta. cbn [i_title i_description].
    change (upload_subject body +:+ "-assignments--" +:+ filename f)
      with (upload_subject body +:+ "-" +:+ "assignments" +:+ "-" +:+ ""
            +:+ "-" +:+ filename f).
    rewrite get_set. unfold title_or. cbn [upload_entry Meta.title description_or_empty
      Meta.description]. by rewrite Htitle.
Qed.

Lemma key_with_unit_differs (subject type unit filename : string) :
  unit ≠ "" →
  subject +:+ "-" +:+ type +:+ "-" +:+ unit +:+ "-" +:+ filename
  ≠ subject +:+ "-" +:+ type +:+ "-" +:+ "" +:+ "-" +:+ filename.
Proof.
  intros Hunit Heq. do 4 apply append_inj_l in Heq.
  apply (f_equal String.length) in Heq. rewrite !length_append in Heq.
  destruct unit; [done|]. cbn in Heq. lia.
Qed.

(** X6. An upload of a practice test, a practical or an assignment that
    comes with a unit files its title under a key that the listing of
    that category never reads: the listing shows the uploaded file as if
    the upload had brought no title. *)
Theorem unit_hides_title_of_other_categories e file body s message size modified :
  (upload' e file body s).2 = Success message →
  upload_type body ∈ ["practice-tests"; "practicals"; "assignments"] →
  upload_unit body ≠ "" →
  ∃ f, file = Some f
    ∧ ∀ unit,
        listing_item formatFileSize (fileMetadata (upload' e file body s).1)
          (upload_subject body) (upload_type body) unit (filename f) size modified
        = listing_item formatFileSize (fileMetadata s)
            (upload_subject body) (upload_type body) unit (filename f) size modified.
Proof.
  intros Hok Htype Hunit.
  destruct (upload_outcome e file body s)
    as [[m Heq] | [(f & fs & _ & _ & Heq) | (f & fs & p & -> & Htitle & _ & _ & Heq)]];
    rewrite Heq in Hok |- *; [done..|].
  exists f. split; [done|]. intros unit. cbn [fst saveMetadata fileMetadata].
  pose proof (key_with_unit_differs (upload_subject body) (upload_type body)
                (upload_unit body) (filename f) Hunit) as Hne.
  fold (upload_key body f) in Hne.
  remember (upload_type body) as type eqn:Heqtype. clear Heqtype.
  cases_mem Htype.
  - unfold listing_item, practiceTests_item. cbn [String.eqb Ascii.eqb Bool.eqb]. cbv zeta.
    change (upload_subject body +:+ "-practice-tests--" +:+ filename f)
      with (upload_subject body +:+ "-" +:+ "practice-tests" +:+ "-" +:+ ""
            +:+ "-" +:+ filename f).
    by rewrite get_set_ne.
  - unfold listing_item, practicals_item. cbn [String.eqb Ascii.eqb Bool.eqb]. cbv zeta.
    change (upload_subject body +:+ "-practicals--" +:+ filename f)
      with (upload_subject body +:+ "-" +:+ "practicals" +:+ "-" +:+ ""
            +:+ "-" +:+ filename f).
    by rewrite get_set_ne.
  - unfold listing_item, assignments_item. cbn [String.eqb Ascii.eqb Bool.eqb]. cbv zeta.
    change (upload_subject body +:+ "-assignments--" +:+ filename f)
      with (upload_subject body +:+ "-" +:+ "assignments" +:+ "-" +:+ ""
            +:+ "-" +:+ filename f).
    by rewrite get_set_ne.
Qed.

Lemma push_unit_name unit x : Subject.name (push_unit unit x) = Subject.name x.
Proof. unfold push_unit. by destruct (bool_decide _). Qed.

Lemma alter_names (f : Subject.t → Subject.t) i (l : list Subject.t) :
  (∀ x, Subject.name (f x) = Subject.name x) →
  Subject.name <$> alter f i l = Subject.name <$> l.
Proof.
  intros Hf. revert i. induction l as [|x l IH]; intros [|i]; cbn; [done..| |].
  - by rewrite Hf.
  - by rewrite IH.
Qed.

(** The names of the subject entries after a registration. *)
Lemma register_names e subject type unit l :
  Subject.name <$> register_subject e subject type unit l
  = if bool_decide (subject ∈ Subject.name <$> l)
    then Subject.name <$> l else (Subject.name <$> l) ++ [subject].
Proof.
  unfold register_subject, findIndex.
  destruct (list_find _ l) as [[i x]|] eqn:Hfind; cbn [fmap option_fmap option_map fst].
  - apply list_find_Some in Hfind as (Hi & Hx & _).
    rewrite bool_decide_eq_true_2.
    + destruct (_ && _); [|done]. apply alter_names, push_unit_name.
    + apply list_elem_of_fmap. exists x. split; [done|]. by eapply list_elem_of_lookup_2.
  - apply list_find_None in Hfind. rewrite bool_decide_eq_false_2.
    + by rewrite fmap_app.
    + intros (x & -> & Hx)%list_elem_of_fmap.
      by apply (proj1 (Forall_forall _ _) Hfind x Hx).
Qed.

(** X7. An upload whose type is none of the four categories is answered
    with success all the same: it gets its index entry and its subject is
    registered, but no list of the backup gets a record of it. *)
Theorem upload_of_unknown_type e file body s message :
  (upload' e file body s).2 = Success message →
  upload_type body ∉ categories →
  let s' := (upload' e file body s).1 in
  notes (fullBackupData s') = notes (fullBackupData s)
  ∧ practiceTests (fullBackupData s') = practiceTests (fullBackupData s)
  ∧ practicals (fullBackupData s') = practicals (fullBackupData s)
  ∧ assignments (fullBackupData s') = assignments (fullBackupData s)
  ∧ upload_subject body ∈ Subject.name <$> subjects (fullBackupData s')
  ∧ ∃ f, file = Some f
      ∧ JsMap.get (upload_key body f) (fileMetadata s') = Some (upload_entry body f).
Proof.
  intros Hok Htype s'. subst s'.
  destruct (upload_outcome e file body s)
    as [[m Heq] | [(f & fs & _ & _ & Heq) | (f & fs & p & -> & Htitle & _ & _ & Heq)]];
    rewrite Heq in Hok |- *; [done..|].
  cbn [fst saveMetadata fileMetadata fullBackupData].
  unfold categories in Htype. rewrite !not_elem_of_cons in Htype.
  destruct Htype as (Hn & Ht & Hp & Ha & _).
  apply String.eqb_neq in Hn, Ht, Hp, Ha.
  cbv zeta. unfold upsert. rewrite Hn, Ht, Hp, Ha.
  cbn [with_subjects subjects notes practiceTests practicals assignments].
  split_and!; try done.
  - rewrite register_names. destruct (bool_decide _) eqn:Hin.
    + by apply bool_decide_eq_true in Hin.
    + apply elem_of_app. right. by apply list_elem_of_singleton.
  - exists f. split; [done|]. apply get_set.
Qed.

(** Where multer puts a file whose headers give the fields of the body
    is where the handler would move it from [temp]. *)
Lemma destination_correctPath subject type unit :
  blank (Some subject) = false → blank (Some type) = false →
  Js.trim type = type →
  (String.eqb type "notes" = true → blank unit = false) →
  destination dirname_segs (Some subject) (Some type) unit
  = match correctPath dirname_segs subject type unit with
    | Some dir => Directory dir
    | None => DestinationError ("Invalid type: " +:+ type)
    end.
Proof.
  intros Hsubject Htype Htrim Hunit.
  unfold blank in Hsubject, Htype.
  change (Js.or_empty (Some subject)) with subject in Hsubject.
  change (Js.or_empty (Some type)) with type in Htype.
  apply orb_false_iff in Hsubject as [_ Hsubject%negb_false_iff].
  apply orb_false_iff in Htype as [_ Htype%negb_false_iff].
  unfold destination, correctPath. cbv zeta.
  change (Js.or_empty (Some subject)) with subject.
  change (Js.or_empty (Some type)) with type.
  rewrite Hsubject, Htype, Htrim. cbn [negb orb].
  destruct (String.eqb type "notes") eqn:Hnotes.
  - specialize (Hunit eq_refl). unfold blank in Hunit.
    apply orb_false_iff in Hunit as [Hraw%negb_false_iff Htrimmed%negb_false_iff].
    by rewrite Hraw, Htrimmed.
  - cbn [andb].
    destruct (String.eqb type "practice-tests"); [done|].
    destruct (String.eqb type "practicals"); [done|].
    destruct (String.eqb type "assignments"); [done|].
    by rewrite append_empty_r.
Qed.

(** X8. The directory that multer chooses from the request headers and
    the directory that the handler computes from the body are the same
    whenever headers and body carry the same checked fields, and both
    refuse a type that is none of the four categories. *)
Theorem headers_and_body_agree subject type unit :
  blank (Some subject) = false → blank (Some type) = false →
  Js.trim type = type →
  (type = "notes" → blank unit = false) →
  (∀ dir, destination dirname_segs (Some subject) (Some type) unit = Directory dir
          ↔ correctPath dirname_segs subject type unit = Some dir)
  ∧ (correctPath dirname_segs subject type unit = None ↔ type ∉ categories).
Proof using Type.
  intros Hsubject Htype Htrim Hunit.
  rewrite destination_correctPath; try done;
    [|intros Hn%String.eqb_eq; by apply Hunit].
  split.
  - intros dir. destruct (correctPath _ _ _ _); split; by intros [= ->] || done.
  - unfold correctPath, categories. rewrite !not_elem_of_cons.
    destruct (String.eqb_spec type "notes") as [->|Hn].
    + specialize (Hunit eq_refl). unfold blank in Hunit.
      apply orb_false_iff in Hunit as [->%negb_false_iff _]. cbn [andb]. split; [done | by intros (? & ? & ? & ? & ?)].
    + cbn [andb].
      destruct (String.eqb_spec type "practice-tests") as [->|Ht];
        [split; [done | by intros (? & ? & ? & ? & ?)]|].
      destruct (String.eqb_spec type "practicals") as [->|Hp];
        [split; [done | by intros (? & ? & ? & ? & ?)]|].
      destruct (String.eqb_spec type "assignments") as [->|Ha];
        [split; [done | by intros (? & ? & ? & ? & ?)]|].
      split; [|done]. intros _. split_and!; try done. apply not_elem_of_nil.
Qed.

(** X9. A file that multer has put in its final directory is taken for a
    parked one as soon as its path contains "temp", be it in the name of
    the subject: the move onto itself fails, the upload is answered with
    status 500, and nothing is recorded although the file is in place. *)
Theorem upload_below_a_temp_name_fails e f body s dir :
  blank (b_title body) = false →
  blank (b_subject body) = false →
  blank (b_type body) = false →
  Js.trim (Js.or_empty (b_type body)) = Js.or_empty (b_type body) →
  (Js.or_empty (b_type body) = "notes" → blank (b_unit body) = false) →
  destination dirname_segs (b_subject body) (b_type body) (b_unit body) = Directory dir →
  path f = Path.join [dir; filename f] →
  path f ∈ files (disk s) →
  Js.includes "temp" (path f) = true →
  let s' := (upload' e (Some f) body s).1 in
  (upload' e (Some f) body s).2 = Failure 500 "Failed to upload file"
  ∧ path f ∈ files (disk s')
  ∧ fileMetadata s' = fileMetadata s
  ∧ fullBackupData s' = fullBackupData s
  ∧ metadata_file (disk s') = metadata_file (disk s)
  ∧ backup_file (disk s') = backup_file (disk s).
Proof.
  intros Htitle Hsubject Htype Htrim Hunit Hdest Hpath Hin Htemp s'. subst s'.
  destruct (b_subject body) as [subject|] eqn:Hs; [|done].
  destruct (b_type body) as [type|] eqn:Ht; [|done].
  change (Js.or_empty (Some type)) with type in Htrim, Hunit.
  rewrite destination_correctPath in Hdest; try done;
    [|intros Hn%String.eqb_eq; by apply Hunit].
  destruct (correctPath dirname_segs subject type (b_unit body)) as [d|] eqn:Hcorrect;
    [|done].
  injection Hdest as ->.
  unfold upload. rewrite Htitle, Hs, Ht, Hsubject, Htype.
  change (Js.or_empty (Some subject)) with subject.
  change (Js.or_empty (Some type)) with type.
  destruct (String.eqb type "notes" && blank (b_unit body)) eqn:Hn.
  { apply andb_true_iff in Hn as [Hn%String.eqb_eq Hb]. by rewrite Hunit in Hb. }
  unfold relocate. rewrite Htemp, Hcorrect. cbv zeta.
  assert (Hthere : Path.join [dir; filename f]
                   ∈ Fs.ensureDirSync dir (files (disk s))).
  { rewrite <- Hpath. unfold Fs.ensureDirSync. by apply elem_of_union_l. }
  unfold Fs.moveSync, Fs.existsSync. rewrite (bool_decide_eq_true_2 _ Hthere).
  cbn [fst snd with_files disk files fileMetadata fullBackupData metadata_file backup_file].
  split_and!; try done. by rewrite Hpath.
Qed.

End Uploads.

Lemma failed_upload_records_nothing_witness :
  let s' := (upload sample_dirname sample_size path_extname sample_env (Some placed_file)
               placed_body placed_server).1 in
  fileMetadata s' = [] ∧ fullBackupData s' = empty_backup
  ∧ metadata_file (disk s') = Missing ∧ backup_file (disk s') = Missing.
Proof.
  cbn zeta.
  destruct (failed_upload_records_nothing sample_dirname sample_size path_extname
              sample_env (Some placed_file) placed_body placed_server
              500 "Failed to upload file" eq_refl)
    as (Hm & Hb & Hmd & Hbd & _).
  by split_and!.
Defined.

Lemma uploaded_title_is_listed_witness :
  let s' := (upload sample_dirname sample_size path_extname sample_env (Some parked_file)
               (body_of "notes" (Some "U1")) parked_server).1 in
  let item := listing_item sample_size (fileMetadata s') "Math" "notes" "U1"
                "Intro_To_Sets_1700000000123.pdf" 1024 "11/14/2023" in
  i_title item = "Sets" ∧ i_description item = "first chapter".
Proof.
  cbn zeta.
  destruct (uploaded_title_is_listed sample_dirname sample_size path_extname sample_env
              (Some parked_file) (body_of "notes" (Some "U1")) parked_server
              "File uploaded successfully" 1024 "11/14/2023" eq_refl)
    as (f & [= <-] & Hitem).
  - by repeat constructor.
  - done.
  - exact Hitem.
Defined.

Lemma unit_hides_title_of_other_categories_witness :
  let s' := (upload sample_dirname sample_size path_extname sample_env (Some parked_file)
               (body_of "practicals" (Some "U1")) parked_server).1 in
  i_title (listing_item sample_size (fileMetadata s') "Math" "practicals" ""
             "Intro_To_Sets_1700000000123.pdf" 1024 "11/14/2023")
  = "Intro To Sets".
Proof.
  cbn zeta.
  destruct (unit_hides_title_of_other_categories sample_dirname sample_size path_extname
              sample_env (Some parked_file) (body_of "practicals" (Some "U1")) parked_server
              "File uploaded successfully" 1024 "11/14/2023" eq_refl)
    as (f & [= <-] & Hitem).
  - by repeat constructor.
  - done.
  - exact (f_equal i_title (Hitem "")).
Defined.

Lemma upload_of_unknown_type_witness :
  let s' := (upload sample_dirname sample_size path_extname sample_env (Some parked_file)
               (body_of "videos" None) parked_server).1 in
  notes (fullBackupData s') = [] ∧ practiceTests (fullBackupData s') = []
  ∧ practicals (fullBackupData s') = [] ∧ assignments (fullBackupData s') = []
  ∧ "Math" ∈ Subject.name <$> subjects (fullBackupData s').
Proof.
  cbn zeta.
  destruct (upload_of_unknown_type sample_dirname sample_size path_extname sample_env
              (Some parked_file) (body_of "videos" None) parked_server
              "File uploaded successfully" eq_refl videos_not_category)
    as (Hn & Ht & Hp & Ha & Hs & _).
  by split_and!.
Defined.

Lemma headers_and_body_agree_witness :
  destination sample_dirname (Some "Math") (Some "notes") (Some "U1")
    = Directory "/srv/app/storage/Math/notes/U1"
  ↔ correctPath sample_dirname "Math" "notes" (Some "U1")
    = Some "/srv/app/storage/Math/notes/U1".
Proof.
  apply (headers_and_body_agree sample_dirname "Math" "notes" (Some "U1")); reflexivity.
Defined.

Lemma upload_below_a_temp_name_fails_witness :
  (upload sample_dirname sample_size path_extname sample_env (Some placed_file)
     placed_body placed_server).2
  = Failure 500 "Failed to upload file".
Proof.
  apply (upload_below_a_temp_name_fails sample_dirname sample_size path_extname sample_env
           placed_file placed_body placed_server
           "/srv/app/storage/Contemporary Art/practicals");
    try reflexivity; done.
Defined.

(* ================================================================== *)
(** ** Verification of files against the lookup *)

Section Verification.

Variable dirname_segs : list string.

Lemma verified_is_served (s : Server) (id id' : option string)
    (subject type : string) (unit : option string) (filename filePath : string) :
  verify_file dirname_segs (files (disk s)) (verify_request id subject type unit filename)
  = Exists id' filePath →
  id' = id
  ∧ filePath = get_filePath dirname_segs subject type unit filename
  ∧ get_file dirname_segs subject type unit filename s = SendFile filePath.
Proof.
  unfold verify_file, verify_request, get_file, get_filePath, join_fields.
  cbn [v_id v_type v_unit v_subject v_storedFileName]. cbv zeta.
  assert (Hdecide : ∀ t, bool_decide (Some type = Some t) = String.eqb type t).
  { intros t. destruct (String.eqb_spec type t) as [->|Hne].
    - by apply bool_decide_eq_true_2.
    - apply bool_decide_eq_false_2. by intros [= ?]. }
  rewrite !Hdecide.
  destruct (String.eqb type "notes" && Js.truthy_opt unit) eqn:Hnotes.
  { apply andb_true_iff in Hnotes as [_ Hunit]. destruct unit as [u|]; [|done].
    cbn. destruct (Fs.existsSync _ _) eqn:Hex; [|done]. by intros [= <- <-]. }
  destruct (String.eqb type "practice-tests").
  { cbn. destruct (Fs.existsSync _ _) eqn:Hex; [|done]. by intros [= <- <-]. }
  destruct (String.eqb type "practicals").
  { cbn. destruct (Fs.existsSync _ _) eqn:Hex; [|done]. by intros [= <- <-]. }
  destruct (String.eqb type "assignments").
  { cbn. destruct (Fs.existsSync _ _) eqn:Hex; [|done]. by intros [= <- <-]. }
  done.
Qed.

(** X10. What [verify-files] reports as existing is found by the lookup
    of the same subject, type, unit and file name at its primary path:
    the lookup answers neither 404 nor from a fallback path, but hands
    the very path that was reported to [res.sendFile]. The report comes
    under the id of the request. Whether [res.sendFile] sends a file or
    its callback answers 500, as it does for a directory, is no part of
    the statement. *)
Theorem verified_path_is_looked_up (s : Server) (requested : list VerifyFile) (i : nat)
    (id id' : option string) (subject type : string) (unit : option string)
    (filename filePath : string) :
  requested !! i = Some (verify_request id subject type unit filename) →
  verify_files dirname_segs requested s !! i = Some (Exists id' filePath) →
  id' = id
  ∧ filePath = get_filePath dirname_segs subject type unit filename
  ∧ get_file dirname_segs subject type unit filename s = SendFile filePath.
Proof.
  intros Hi. unfold verify_files. rewrite list_lookup_fmap, Hi. cbn [fmap option_fmap option_map].
  intros [= Hverified]. by apply verified_is_served.
Qed.

End Verification.

Lemma verified_path_is_looked_up_witness :
  get_file sample_dirname "Math" "notes" (Some "Unit 1") "a_1700000000123.pdf"
    one_note_server
  = SendFile "/srv/app/storage/Math/notes/Unit 1/a_1700000000123.pdf".
Proof.
  apply (verified_path_is_looked_up sample_dirname one_note_server
           [verify_request (Some "7") "Math" "notes" (Some "Unit 1") "a_1700000000123.pdf"]
           0 (Some "7") (Some "7") "Math" "notes" (Some "Unit 1") "a_1700000000123.pdf"
           "/srv/app/storage/Math/notes/Unit 1/a_1700000000123.pdf").
  - reflexivity.
  - by vm_compute.
Defined.

(* ================================================================== *)
(** ** The directories of a subject *)

Lemma chain_last pre segs :
  segs ≠ [] → Path.absolute (pre ++ segs) ∈ Fs.chain pre segs.
Proof.
  revert pre. induction segs as [|seg segs IH]; intros pre Hne; [done|].
  cbn [Fs.chain]. destruct segs as [|seg' segs].
  - apply list_elem_of_here.
  - apply list_elem_of_further.
    replace (pre ++ seg :: seg' :: segs) with ((pre ++ [seg]) ++ seg' :: segs)
      by by rewrite <- app_assoc.
    by apply IH.
Qed.

Lemma ensureDirSync_there xs fs :
  xs ≠ [] → Forall (fun s => Path.plain s = true) xs →
  Path.absolute xs ∈ Fs.ensureDirSync (Path.absolute xs) fs.
Proof.
  intros Hne Hplain. unfold Fs.ensureDirSync. apply elem_of_union_r.
  apply elem_of_list_to_set.
  assert (Hsplit : Path.split (Path.absolute xs) = "" :: xs).
  { unfold Path.absolute. change ("/" +:+ String.concat "/" xs)
      with (String Path.slash (String.concat "/" xs)).
    cbn [Path.split]. rewrite Ascii.eqb_refl. f_equal. apply split_concat; [done|].
    eapply Forall_impl; [exact Hplain|]. apply plain_no_slash. }
  rewrite Hsplit. cbn [tail]. apply (chain_last [] xs Hne).
Qed.

Lemma ensureDirSync_mono p fs : fs ⊆ Fs.ensureDirSync p fs.
Proof. unfold Fs.ensureDirSync. apply union_subseteq_l. Qed.

Section SubjectDirectories.

Variable dirname_segs : list string.
Hypothesis dirname_plain : Forall (fun s => Path.plain s = true) dirname_segs.

Local Abbreviation STORAGE := (STORAGE_DIR dirname_segs).

Lemma ensure_below_storage segs fs :
  Forall (fun s => Path.plain s = true) segs →
  Path.join (STORAGE :: segs) ∈ Fs.ensureDirSync (Path.join (STORAGE :: segs)) fs.
Proof using dirname_plain.
  intros Hsegs. rewrite (join_storage_absolute dirname_segs dirname_plain) by done.
  apply ensureDirSync_there; [by destruct dirname_segs|].
  apply Forall_app. split; [done|]. by constructor.
Qed.

Lemma join_below_storage segs x :
  Forall (fun s => Path.plain s = true) segs → Path.plain x = true →
  Path.join [Path.join (STORAGE :: segs); x] = Path.join (STORAGE :: segs ++ [x]).
Proof using dirname_plain.
  intros Hsegs Hx. rewrite (join_join_storage dirname_segs dirname_plain) by done.
  rewrite (join_storage dirname_segs dirname_plain); [done | by destruct segs |].
  apply Forall_app. split; [done|]. by repeat constructor.
Qed.

Lemma ensure_units_mono notesPath units fs :
  fs ⊆ fold_left (fun fs unit => Fs.ensureDirSync (Path.join [notesPath; unit]) fs) units fs.
Proof.
  revert fs. induction units as [|u units IH]; intros fs; [done|].
  cbn [fold_left]. etrans; [apply (ensureDirSync_mono (Path.join [notesPath; u]))|]. apply IH.
Qed.

(** X21. The creation of a subject with a plain name and plain units
    leaves the directory of the subject, one directory for each of the
    four categories and one directory below [notes] for each unit of the
    request, and removes nothing. *)
Theorem create_subject_directories (e : Env) (name : string) (units : option (list string))
    (s : Server) :
  Path.plain name = true →
  Forall (fun u => Path.plain u = true) (default [] units) →
  let after := files (disk (create_subject dirname_segs e name units s).1) in
  files (disk s) ⊆ after
  ∧ Path.join [STORAGE; name] ∈ after
  ∧ (∀ type, type ∈ categories → Path.join [STORAGE; name; type] ∈ after)
  ∧ (∀ unit, unit ∈ default [] units → Path.join [STORAGE; name; "notes"; unit] ∈ after).
Proof using dirname_plain.
  intros Hname Hunits after. subst after.
  unfold create_subject. cbn [fst saveMetadata with_fullBackupData with_files disk files].
  unfold createSubjectStructure. cbv zeta.
  rewrite !(join_below_storage [name]) by (by repeat constructor). cbn [app].
  set (fs1 := Fs.ensureDirSync (Path.join [STORAGE; name; "notes"])
                (Fs.ensureDirSync (Path.join [STORAGE; name]) (files (disk s)))).
  set (fs2 := fold_left _ (default [] units) fs1).
  assert (H01 : files (disk s) ⊆ fs1).
  { subst fs1. etrans; [|apply ensureDirSync_mono]. apply ensureDirSync_mono. }
  assert (H12 : fs1 ⊆ fs2) by apply ensure_units_mono.
  assert (Hout : ∀ q, q ∈ fs2 →
            q ∈ Fs.ensureDirSync (Path.join [STORAGE; name; "assignments"])
                  (Fs.ensureDirSync (Path.join [STORAGE; name; "practicals"])
                     (Fs.ensureDirSync (Path.join [STORAGE; name; "practice-tests"]) fs2))).
  { intros q Hq. by do 3 apply ensureDirSync_mono. }
  split_and!.
  - intros q Hq. by apply Hout, H12, H01.
  - apply Hout, H12. subst fs1. apply ensureDirSync_mono.
    apply (ensure_below_storage [name]). by repeat constructor.
  - intros type Htype. unfold categories in Htype. cases_mem Htype.
    + apply Hout, H12. subst fs1.
      apply (ensure_below_storage [name; "notes"]). by repeat constructor.
    + do 2 apply ensureDirSync_mono.
      apply (ensure_below_storage [name; "practice-tests"]). by repeat constructor.
    + apply ensureDirSync_mono.
      apply (ensure_below_storage [name; "practicals"]). by repeat constructor.
    + apply (ensure_below_storage [name; "assignments"]). by repeat constructor.
  - intros unit Hunit. apply Hout. subst fs2. clear Hout H12.
    revert Hunits Hunit. generalize fs1 as fs. clear H01 fs1.
    induction (default [] units) as [|u l IH]; intros fs Hl Hin.
    + by apply elem_of_nil in Hin.
    + apply Forall_cons in Hl as [Hu Hl]. cbn [fold_left].
      apply elem_of_cons in Hin as [->|Hin]; [|by apply IH].
      apply ensure_units_mono.
      rewrite (join_below_storage [name; "notes"]) by (by repeat constructor). cbn [app].
      apply (ensure_below_storage [name; "notes"; u]). by repeat constructor.
Qed.

End SubjectDirectories.

Lemma create_subject_directories_witness :
  let after := files (disk (create_subject sample_dirname sample_env "Physics"
                              (Some ["U1"; "U2"]) one_subject_server).1) in
  "/srv/app/storage/Physics/practicals" ∈ after
  ∧ "/srv/app/storage/Physics/notes/U2" ∈ after.
Proof.
  cbn zeta.
  destruct (create_subject_directories sample_dirname sample_dirname_plain sample_env
              "Physics" (Some ["U1"; "U2"]) one_subject_server)
    as (_ & _ & Htypes & Hunits); [reflexivity | by repeat constructor |].
  split.
  - apply (Htypes "practicals"). by repeat constructor.
  - apply (Hunits "U2"). by repeat constructor.
Defined.

(* ================================================================== *)
(** ** Requests that keep to the storage tree *)

Lemma prefix_append s t : String.prefix s t = true → ∃ r, t = s +:+ r.
Proof.
  revert t. induction s as [|c s IH]; intros t; [by exists t|].
  destruct t as [|d t]; [done|]. cbn [String.prefix].
  destruct (ascii_dec c d) as [->|]; [|done].
  intros [r ->]%IH. by exists r.
Qed.

Lemma plain_iff s :
  Path.plain s = true
  ↔ s ≠ "" ∧ Js.includes "/" s = false ∧ s ≠ "." ∧ s ≠ "..".
Proof.
  unfold Path.plain, Js.truthy.
  rewrite !andb_true_iff, !negb_true_iff, !String.eqb_neq. tauto.
Qed.

Lemma plain_segments_no_slash xs :
  Forall (fun s => Path.plain s = true) xs → Forall (fun s => Js.includes "/" s = false) xs.
Proof. intros H. eapply Forall_impl; [exact H|]. apply plain_no_slash. Qed.

Lemma split_absolute xs :
  xs ≠ [] → Forall (fun s => Path.plain s = true) xs →
  Path.split (Path.absolute xs) = "" :: xs.
Proof.
  intros Hne Hplain. unfold Path.absolute.
  change ("/" +:+ String.concat "/" xs) with (String Path.slash (String.concat "/" xs)).
  cbn [Path.split]. rewrite Ascii.eqb_refl. f_equal.
  apply split_concat; [done|]. by apply plain_segments_no_slash.
Qed.

Lemma absolute_inj xs ys :
  xs ≠ [] → ys ≠ [] →
  Forall (fun s => Path.plain s = true) xs → Forall (fun s => Path.plain s = true) ys →
  Path.absolute xs = Path.absolute ys → xs = ys.
Proof.
  intros Hx Hy Hxs Hys Heq. apply (f_equal Path.split) in Heq.
  rewrite !split_absolute in Heq by done. by injection Heq.
Qed.

(** Among absolute paths of plain segments, [within] is the prefix order
    of the segment lists. *)
Lemma within_absolute xs ys :
  xs ≠ [] → ys ≠ [] →
  Forall (fun s => Path.plain s = true) xs → Forall (fun s => Path.plain s = true) ys →
  Fs.within (Path.absolute xs) (Path.absolute ys) → xs `prefix_of` ys.
Proof.
  intros Hx Hy Hxs Hys [Heq | Hpre].
  - by apply absolute_inj in Heq as ->.
  - apply prefix_append in Hpre as [r Hr]. apply (f_equal Path.split) in Hr.
    rewrite append_assoc in Hr. change ("/" +:+ r) with (String Path.slash r) in Hr.
    rewrite split_app_slash, !split_absolute in Hr by done.
    injection Hr as ->. by eexists.
Qed.

(** The directories that [ensureDirSync] adds stand at the prefixes of
    the path. *)
Lemma chain_elements pre segs q :
  q ∈ Fs.chain pre segs →
  ∃ l, l ≠ [] ∧ l `prefix_of` segs ∧ q = Path.absolute (pre ++ l).
Proof.
  revert pre. induction segs as [|seg segs IH]; intros pre Hq.
  - by apply elem_of_nil in Hq.
  - cbn [Fs.chain] in Hq. apply elem_of_cons in Hq as [-> | Hq].
    + exists [seg]. split_and!; [done | | done]. by exists segs.
    + apply IH in Hq as (l & _ & Hl & ->). exists (seg :: l).
      split_and!; [done | by apply prefix_cons | by rewrite <- app_assoc].
Qed.

Lemma replace_ws_from_no_slash in_run c s :
  c ≠ "/"%char → Js.includes "/" s = false →
  Js.includes "/" (Js.replace_ws_from in_run (String c EmptyString) s) = false.
Proof.
  intros Hc. revert in_run. induction s as [|x s IH]; intros in_run; [done|].
  rewrite includes_char_cons. intros [Hx Hs]%orb_false_iff.
  cbn [Js.replace_ws_from]. destruct (Js.is_ws x).
  - destruct in_run; [by apply IH|].
    change (String c "" +:+ ?t) with (String c t).
    rewrite includes_char_cons, IH by done. rewrite orb_false_r. by apply Ascii.eqb_neq.
  - by rewrite includes_char_cons, Hx, IH.
Qed.

Lemma replace_ws_changes c s :
  Js.replace_ws (String c EmptyString) s = s
  ∨ Js.includes (String c EmptyString) (Js.replace_ws (String c EmptyString) s) = true.
Proof.
  unfold Js.replace_ws. induction s as [|x s IH]; [by left|].
  cbn [Js.replace_ws_from]. destruct (Js.is_ws x).
  - right. change (String c "" +:+ ?t) with (String c t).
    by rewrite includes_char_cons, Ascii.eqb_refl.
  - destruct IH as [-> | IH]; [by left|]. right.
    by rewrite includes_char_cons, IH, orb_true_r.
Qed.

(** The variants that the fallback lists try for a plain segment are
    plain segments. *)
Lemma replace_ws_plain c s :
  c ≠ "/"%char → c ≠ "."%char →
  Path.plain s = true → Path.plain (Js.replace_ws (String c EmptyString) s) = true.
Proof.
  intros Hslash Hdot (Hne & Hs & Hone & Htwo)%plain_iff. apply plain_iff.
  assert (Hin : ∀ v, Js.includes (String c "") v = true → v ≠ "." ∧ v ≠ "..").
  { intros v Hv. split; intros ->; rewrite !includes_char_cons in Hv;
      rewrite (proj2 (Ascii.eqb_neq _ _)) in Hv by done; done. }
  split_and!.
  - destruct s as [|x s]; [done|]. unfold Js.replace_ws. cbn [Js.replace_ws_from].
    by destruct (Js.is_ws x).
  - by apply replace_ws_from_no_slash.
  - destruct (replace_ws_changes c s) as [-> | Hv]; [done|]. by apply Hin.
  - destruct (replace_ws_changes c s) as [-> | Hv]; [done|]. by apply Hin.
Qed.

Lemma lower_char_slash c : Js.lower_char c = "/"%char → c = "/"%char.
Proof. destruct c as [[] [] [] [] [] [] [] []]; by vm_compute. Qed.

Lemma lower_char_dot c : Js.lower_char c = "."%char → c = "."%char.
Proof. destruct c as [[] [] [] [] [] [] [] []]; by vm_compute. Qed.

Lemma toLowerCase_plain s :
  Path.plain s = true → Path.plain (Js.toLowerCase s) = true.
Proof.
  intros (Hne & Hs & Hone & Htwo)%plain_iff. apply plain_iff. split_and!.
  - by destruct s.
  - clear Hne Hone Htwo. induction s as [|x s IH]; [done|].
    rewrite includes_char_cons in Hs. apply orb_false_iff in Hs as [Hx Hs].
    cbn [Js.toLowerCase]. rewrite includes_char_cons, IH by done. rewrite orb_false_r.
    apply Ascii.eqb_neq. intros Hl%lower_char_slash. by rewrite Hl in Hx.
  - destruct s as [|x [|y s]]; [done| |done].
    cbn [Js.toLowerCase]. intros [= Hx%lower_char_dot]. by subst.
  - destruct s as [|x [|y [|z s]]]; [done|done| |done].
    cbn [Js.toLowerCase]. intros [= Hx%lower_char_dot Hy%lower_char_dot]. by subst.
Qed.

(** The first path that exists, found. *)
Lemma first_existing_first fs paths p :
  first_existing fs paths = Some p → first_hit fs paths p.
Proof.
  unfold first_existing, Fs.existsSync. induction paths as [|q paths IH]; [done|].
  cbn [List.find]. case_bool_decide as Hq.
  - intros [= <-]. exists 0. split_and!; [done | done | intros j r Hj; lia].
  - intros (i & Hi & Hp & Hbefore)%IH. exists (S i). split_and!; [done | done |].
    intros [|j] r Hj Hr; [by injection Hr as <- |]. apply (Hbefore j); [lia | done].
Qed.

Section StorageTree.

Variable dirname_segs : list string.
Variable formatFileSize : N → string.
Variable extname : string → string.
Hypothesis dirname_plain : Forall (fun s => Path.plain s = true) dirname_segs.

Local Abbreviation STORAGE := (STORAGE_DIR dirname_segs).
Local Abbreviation apart := (documents_apart dirname_segs).

Lemma METADATA_FILE_absolute :
  METADATA_FILE dirname_segs = Path.absolute (dirname_segs ++ ["file-metadata.json"]).
Proof using dirname_plain.
  unfold METADATA_FILE, dirname.
  apply join_absolute; [done | by repeat constructor | by destruct dirname_segs].
Qed.

Lemma FULL_BACKUP_FILE_absolute :
  FULL_BACKUP_FILE dirname_segs
  = Path.absolute (dirname_segs ++ ["storage"; "sncop-backup.json"]).
Proof using dirname_plain.
  unfold FULL_BACKUP_FILE.
  apply (join_storage_absolute dirname_segs dirname_plain). by repeat constructor.
Qed.

Lemma below_plain segs :
  Forall (fun s => Path.plain s = true) segs →
  Forall (fun s => Path.plain s = true) (dirname_segs ++ "storage" :: segs).
Proof using dirname_plain.
  intros Hsegs. apply Forall_app. split; [done|]. by constructor.
Qed.

Lemma below_nonempty segs : dirname_segs ++ "storage" :: segs ≠ [].
Proof. by destruct dirname_segs. Qed.

(** What lies below the storage directory does not hold it. *)
Lemma storage_not_within segs :
  segs ≠ [] → Forall (fun s => Path.plain s = true) segs →
  ¬ Fs.within (Path.join (STORAGE :: segs)) STORAGE.
Proof using dirname_plain.
  intros Hne Hsegs.
  rewrite (join_storage_absolute dirname_segs dirname_plain) by done.
  rewrite (STORAGE_DIR_absolute dirname_segs dirname_plain).
  intros Hpre%within_absolute;
    [|apply below_nonempty | by destruct dirname_segs | by apply below_plain
     |apply (below_plain [])]; [|constructor].
  apply prefix_length in Hpre. rewrite !length_app in Hpre.
  destruct segs; [done|]. cbn in Hpre. lia.
Qed.

Lemma below_not_metadata segs :
  Forall (fun s => Path.plain s = true) segs →
  Path.join (STORAGE :: segs) ≠ METADATA_FILE dirname_segs.
Proof using dirname_plain.
  intros Hsegs. rewrite (join_storage_absolute dirname_segs dirname_plain) by done.
  rewrite METADATA_FILE_absolute.
  intros Heq%absolute_inj;
    [|apply below_nonempty | by destruct dirname_segs | by apply below_plain|].
  - by apply app_inv_head in Heq.
  - apply Forall_app. split; [done|]. by repeat constructor.
Qed.

Lemma below_not_backup segs :
  Forall (fun s => Path.plain s = true) segs → segs ≠ ["sncop-backup.json"] →
  Path.join (STORAGE :: segs) ≠ FULL_BACKUP_FILE dirname_segs.
Proof using dirname_plain.
  intros Hsegs Hne. rewrite (join_storage_absolute dirname_segs dirname_plain) by done.
  rewrite FULL_BACKUP_FILE_absolute.
  intros Heq%absolute_inj;
    [|apply below_nonempty | by destruct dirname_segs | by apply below_plain|].
  - apply app_inv_head in Heq. by injection Heq.
  - apply Forall_app. split; [done|]. by repeat constructor.
Qed.

(** [ensureDirSync] of a directory below the storage directory, not at
    the path of the backup document, makes no directory of a document. *)
Lemma ensure_apart segs fs :
  Forall (fun s => Path.plain s = true) segs →
  (∀ rest, segs ≠ "sncop-backup.json" :: rest) →
  apart fs → apart (Fs.ensureDirSync (Path.join (STORAGE :: segs)) fs).
Proof using dirname_plain.
  intros Hsegs Hhead (Hstorage & Hmeta & Hbackup).
  rewrite (join_storage_absolute dirname_segs dirname_plain) by done.
  unfold Fs.ensureDirSync.
  rewrite split_absolute by (apply below_nonempty || by apply below_plain). cbn [tail].
  assert (Hadded : ∀ q, q ∈ Fs.chain [] (dirname_segs ++ "storage" :: segs) →
            ∃ l, l ≠ [] ∧ Forall (fun s => Path.plain s = true) l
                 ∧ l `prefix_of` dirname_segs ++ "storage" :: segs
                 ∧ q = Path.absolute l).
  { intros q (l & Hl & Hpre & ->)%chain_elements. exists l. split_and!; try done.
    destruct Hpre as [k Hk]. pose proof (below_plain segs Hsegs) as Hall.
    rewrite Hk in Hall. by apply Forall_app in Hall as [? _]. }
  split_and!.
  - by apply elem_of_union_l.
  - apply not_elem_of_union. split; [done|]. rewrite elem_of_list_to_set.
    intros (l & Hl & Hplain & Hpre & Heq)%Hadded. rewrite METADATA_FILE_absolute in Heq.
    apply absolute_inj in Heq; [|by destruct dirname_segs | done | | done].
    + subst l. apply prefix_app_inv, prefix_cons_inv_1 in Hpre. done.
    + apply Forall_app. split; [done|]. by repeat constructor.
  - apply not_elem_of_union. split; [done|]. rewrite elem_of_list_to_set.
    intros (l & Hl & Hplain & Hpre & Heq)%Hadded. rewrite FULL_BACKUP_FILE_absolute in Heq.
    apply absolute_inj in Heq; [|by destruct dirname_segs | done | | done].
    + subst l. apply prefix_app_inv, prefix_cons_inv_2 in Hpre.
      destruct segs as [|seg rest]; [by apply prefix_nil_not in Hpre|].
      apply prefix_cons_inv_1 in Hpre. by apply (Hhead rest); subst.
    + apply Forall_app. split; [done|]. by repeat constructor.
Qed.

Lemma remove_apart p fs :
  ¬ Fs.within p STORAGE → apart fs → apart (Fs.removeSync p fs).
Proof.
  intros Hp (Hstorage & Hmeta & Hbackup). unfold Fs.removeSync. split_and!.
  - by apply elem_of_filter.
  - by intros [_ ?]%elem_of_filter.
  - by intros [_ ?]%elem_of_filter.
Qed.

Lemma add_apart q fs :
  q ≠ METADATA_FILE dirname_segs → q ≠ FULL_BACKUP_FILE dirname_segs →
  apart fs → apart (fs ∪ {[q]}).
Proof.
  intros Hm Hb (Hstorage & Hmeta & Hbackup). split_and!.
  - by apply elem_of_union_l.
  - apply not_elem_of_union. split; [done|]. by apply not_elem_of_singleton.
  - apply not_elem_of_union. split; [done|]. by apply not_elem_of_singleton.
Qed.

Lemma join_below segs x :
  Forall (fun s => Path.plain s = true) segs → Path.plain x = true →
  Path.join [Path.join (STORAGE :: segs); x] = Path.join (STORAGE :: segs ++ [x]).
Proof using dirname_plain. apply (join_below_storage dirname_segs dirname_plain). Qed.

(** Every path that the delete of a file tries lies below the storage
    directory. *)
Lemma delete_paths_below subject type unit filename p :
  Path.plain subject = true → Path.plain type = true →
  (∀ u, unit = Some u → Path.plain u = true) → Path.plain filename = true →
  p ∈ delete_filePath dirname_segs subject type unit filename
      :: delete_alternativePaths dirname_segs subject type unit filename →
  ∃ segs, segs ≠ [] ∧ Forall (fun s => Path.plain s = true) segs
          ∧ p = Path.join (STORAGE :: segs).
Proof.
  intros Hs Ht Hu Hf Hp.
  assert (Hunder : Path.plain (Js.replace_ws "_" subject) = true)
    by (by apply replace_ws_plain).
  assert (Hdash : Path.plain (Js.replace_ws "-" subject) = true)
    by (by apply replace_ws_plain).
  assert (Hfound : ∀ segs, Forall (fun s => Path.plain s = true) segs → segs ≠ [] →
            ∃ segs', segs' ≠ [] ∧ Forall (fun s => Path.plain s = true) segs'
                     ∧ Path.join (STORAGE :: segs) = Path.join (STORAGE :: segs'))
    by (intros segs ? ?; by exists segs).
  unfold delete_filePath, delete_alternativePaths in Hp.
  destruct unit as [u|].
  - specialize (Hu u eq_refl). change (Js.or_empty (Some u)) with u in Hp.
    cbn [Js.truthy_opt] in Hp. rewrite (plain_truthy _ Hu), andb_true_r in Hp.
    assert (Path.plain (Js.replace_ws "_" u) = true) by (by apply replace_ws_plain).
    assert (Path.plain (Js.replace_ws "-" u) = true) by (by apply replace_ws_plain).
    assert (Path.plain (Js.toLowerCase u) = true) by (by apply toLowerCase_plain).
    destruct (String.eqb type "notes"), (String.eqb type "practice-tests"),
      (String.eqb type "practicals"), (String.eqb type "assignments");
      cbn [app] in Hp;
      repeat (apply elem_of_cons in Hp as [-> | Hp]);
      try (by apply elem_of_nil in Hp);
      (apply Hfound; [by repeat constructor | done]).
  - cbn [Js.truthy_opt] in Hp. rewrite andb_false_r in Hp.
    destruct (String.eqb type "practice-tests"),
      (String.eqb type "practicals"), (String.eqb type "assignments");
      cbn [app] in Hp;
      repeat (apply elem_of_cons in Hp as [-> | Hp]);
      try (by apply elem_of_nil in Hp);
      (apply Hfound; [by repeat constructor | done]).
Qed.

Lemma delete_file_apart e subject type unit filename s :
  Path.plain subject = true → Path.plain type = true →
  (∀ u, unit = Some u → Path.plain u = true) → Path.plain filename = true →
  apart (files (disk s)) →
  apart (files (disk (delete_file dirname_segs e subject type unit filename s).1)).
Proof using dirname_plain.
  intros Hs Ht Hu Hf Hapart.
  assert (Hremove : ∀ p,
            p ∈ delete_filePath dirname_segs subject type unit filename
                :: delete_alternativePaths dirname_segs subject type unit filename →
            apart (files (disk (forget e p subject type unit filename s)))).
  { intros p (segs & Hne & Hsegs & ->)%delete_paths_below; try done.
    unfold forget. cbn [saveMetadata disk files].
    apply remove_apart; [|done]. by apply storage_not_within. }
  unfold delete_file. cbv zeta. destruct (Fs.existsSync _ _); cbn [fst].
  - apply Hremove, list_elem_of_here.
  - destruct (first_existing _ _) as [p|] eqn:Hfirst; cbn [fst]; [|done].
    apply first_existing_some in Hfirst as [Hin _].
    by apply Hremove, list_elem_of_further.
Qed.

Lemma delete_subject_apart e subjectName s :
  Path.plain subjectName = true →
  apart (files (disk s)) →
  apart (files (disk (delete_subject dirname_segs e subjectName s).1)).
Proof using dirname_plain.
  intros Hname Hapart. unfold delete_subject. destruct (_ || _); [done|].
  cbn [fst saveMetadata disk files]. destruct (Fs.existsSync _ _); [|done].
  apply remove_apart; [|done]. apply storage_not_within; [done | by repeat constructor].
Qed.

Lemma create_unit_apart e subjectName unitName s :
  subject_name subjectName → Path.plain unitName = true →
  apart (files (disk s)) →
  apart (files (disk (create_unit dirname_segs e subjectName unitName s).1)).
Proof using dirname_plain.
  intros [Hname Hnot] Hunit Hapart.
  assert (Hensured : apart (Fs.ensureDirSync
            (Path.join [STORAGE; subjectName; "notes"; unitName]) (files (disk s)))).
  { apply (ensure_apart [subjectName; "notes"; unitName]); [by repeat constructor| |done].
    intros rest [= ? _]. done. }
  unfold create_unit. cbv zeta. cbn [fst].
  destruct (list_find _ _) as [[i found]|]; [|done].
  by destruct (bool_decide _).
Qed.

Lemma create_subject_apart e name units s :
  subject_name name → Forall (fun u => Path.plain u = true) (default [] units) →
  apart (files (disk s)) →
  apart (files (disk (create_subject dirname_segs e name units s).1)).
Proof using dirname_plain.
  intros [Hname Hnot] Hunits Hapart.
  assert (Hhead : ∀ (segs rest : list string), name :: segs ≠ "sncop-backup.json" :: rest).
  { intros segs rest [= ? _]. done. }
  unfold create_subject. cbn [fst saveMetadata with_fullBackupData with_files disk files].
  unfold createSubjectStructure. cbv zeta.
  rewrite !(join_below [name]) by (by repeat constructor). cbn [app].
  apply (ensure_apart [name; "assignments"]); [by repeat constructor | apply Hhead |].
  apply (ensure_apart [name; "practicals"]); [by repeat constructor | apply Hhead |].
  apply (ensure_apart [name; "practice-tests"]); [by repeat constructor | apply Hhead |].
  assert (Hstart : apart (Fs.ensureDirSync (Path.join [STORAGE; name; "notes"])
                            (Fs.ensureDirSync (Path.join [STORAGE; name]) (files (disk s))))).
  { apply (ensure_apart [name; "notes"]); [by repeat constructor | apply Hhead |].
    apply (ensure_apart [name]); [by repeat constructor | apply Hhead | done]. }
  revert Hstart. generalize (Fs.ensureDirSync (Path.join [STORAGE; name; "notes"])
                               (Fs.ensureDirSync (Path.join [STORAGE; name]) (files (disk s)))).
  induction (default [] units) as [|u l IH]; intros fs Hfs; [done|].
  apply Forall_cons in Hunits as [Hu Hl]. cbn [fold_left]. apply IH; [done|].
  rewrite (join_below [name; "notes"]) by (by repeat constructor). cbn [app].
  apply (ensure_apart [name; "notes"; u]); [by repeat constructor | apply Hhead | done].
Qed.

(** Where a parked file goes lies below the directory of its subject. *)
Lemma correctPath_below subject type unit dir :
  Path.plain (Js.trim subject) = true →
  (String.eqb type "notes" && Js.truthy_opt unit = true →
   Path.plain (Js.trim (Js.or_empty unit)) = true) →
  correctPath dirname_segs subject type unit = Some dir →
  ∃ rest, Forall (fun s => Path.plain s = true) rest
          ∧ dir = Path.join (STORAGE :: Js.trim subject :: rest).
Proof.
  intros Hs Hu. unfold correctPath.
  destruct (String.eqb type "notes" && Js.truthy_opt unit).
  { intros [= <-]. eexists. split; [|done]. repeat constructor. by apply Hu. }
  destruct (String.eqb type "practice-tests").
  { intros [= <-]. eexists. split; [|done]. by repeat constructor. }
  destruct (String.eqb type "practicals").
  { intros [= <-]. eexists. split; [|done]. by repeat constructor. }
  destruct (String.eqb type "assignments"); [|done].
  intros [= <-]. eexists. split; [|done]. by repeat constructor.
Qed.

Lemma relocate_apart file subject type unit fs :
  placed_by_multer dirname_segs file →
  subject_name (Js.trim subject) →
  (String.eqb type "notes" && Js.truthy_opt unit = true →
   Path.plain (Js.trim (Js.or_empty unit)) = true) →
  apart fs → apart (relocate dirname_segs file subject type unit fs).1.
Proof using dirname_plain.
  intros (Hname & parked & Hne & Hparked & _ & Hpath) [Hs Hnot] Hu Hapart.
  unfold relocate. destruct (Js.includes "temp" (path file)); [|done].
  destruct (correctPath _ _ _ _) as [dir|] eqn:Hdir; [|done].
  apply correctPath_below in Hdir as (rest & Hrest & ->); [|done..]. cbv zeta.
  assert (Hensured : apart (Fs.ensureDirSync (Path.join (STORAGE :: Js.trim subject :: rest))
                              fs)).
  { apply ensure_apart; [by constructor | | done]. intros rest' [= ? _]. done. }
  unfold Fs.moveSync. destruct (Fs.existsSync _ _); [done|].
  destruct (Fs.existsSync _ _); [|done]. cbn [fst].
  rewrite join_below by (done || by constructor).
  apply add_apart.
  - apply below_not_metadata. apply Forall_app. split; [by constructor | by repeat constructor].
  - apply below_not_backup.
    + apply Forall_app. split; [by constructor | by repeat constructor].
    + destruct rest; done.
  - apply remove_apart; [|done]. rewrite Hpath, join_below by done.
    apply storage_not_within; [by destruct parked|].
    apply Forall_app. split; [done | by repeat constructor].
Qed.

(** The files after an upload: as before, or as the relocation of an
    upload that has passed the checks leaves them. *)
Lemma upload_files e file body s :
  files (disk (upload dirname_segs formatFileSize extname e file body s).1) = files (disk s)
  ∨ ∃ f, file = Some f
         ∧ blank (b_subject body) = false
         ∧ (String.eqb (Js.or_empty (b_type body)) "notes" = true →
            blank (b_unit body) = false)
         ∧ files (disk (upload dirname_segs formatFileSize extname e file body s).1)
           = (relocate dirname_segs f (Js.or_empty (b_subject body))
                (Js.or_empty (b_type body)) (b_unit body) (files (disk s))).1.
Proof.
  unfold upload. destruct file as [f|]; [|by left].
  destruct (blank (b_title body)); [by left|].
  destruct (blank (b_subject body)) eqn:Hsubject; [by left|].
  destruct (blank (b_type body)); [by left|].
  destruct (String.eqb (Js.or_empty (b_type body)) "notes" && blank (b_unit body)) eqn:Hn;
    [by left|].
  right. exists f. split_and!; [done | done | |].
  - intros Heq. by rewrite Heq in Hn.
  - by destruct (relocate _ _ _ _ _ _) as [fs [p|]].
Qed.

(** Requests with plain names leave the storage directory in place and
    put nothing at the path of a document. *)
Lemma handle_apart e r s :
  plain_request dirname_segs r →
  apart (files (disk s)) →
  apart (files (disk (handle dirname_segs formatFileSize extname e r s).1)).
Proof using dirname_plain.
  intros Hr Hapart. destruct r as [file body|name units|subjectName unitName|
    subject type unit filename|subjectName]; cbn [handle plain_request] in *.
  - destruct Hr as (Hfile & Hsubject & Hunit).
    destruct (upload_files e file body s) as [-> | (f & -> & Hs & Hu & ->)]; [done|].
    apply relocate_apart; [by apply Hfile | by apply Hsubject | | done].
    intros [Hnotes Htruthy]%andb_true_iff. apply Hunit, Hu, Hnotes.
  - destruct Hr. by apply create_subject_apart.
  - destruct Hr. by apply create_unit_apart.
  - destruct Hr as (? & ? & ? & ?). by apply delete_file_apart.
  - by apply delete_subject_apart.
Qed.

Lemma run_apart trace s :
  Forall (fun er => plain_request dirname_segs er.2) trace →
  apart (files (disk s)) →
  apart (files (disk (run dirname_segs formatFileSize extname trace s))).
Proof using dirname_plain.
  revert s. induction trace as [|[e r] trace IH]; intros s Htrace Hs; [done|].
  apply Forall_cons in Htrace as [Hr Htrace]. cbn [run]. apply IH; [done|].
  by apply handle_apart.
Qed.

Lemma startup_files e d : files (disk (startup e d)) = files d.
Proof. rewrite startup_unfold. cbv zeta. by destruct (_ || _). Qed.

(** C8, as the code has it, for a subject, category, unit and file name
    that are plain path segments and a storage tree that stands apart
    from the documents. A successful delete removes the index entry keyed
    "{subject}-{category}-{unit}-{filename}" and every record of that
    identity from the category list, in memory and in both documents, and
    removes one path from the disk: the canonical one if it exists, else
    the first fallback of the delete that exists. The storage directory
    stays and no document is touched. A lookup of the same tuple no
    longer finds that path; it answers 404 "File not found" provided no
    other file exists at one of the paths the lookup tries. *)
Theorem delete_then_lookup (e : Env) (subject type filename : string)
    (unit : option string) (s s' : Server) (message : string) :
  Path.plain subject = true → Path.plain type = true → Path.plain filename = true →
  (∀ u, unit = Some u → Path.plain u = true) →
  documents_apart dirname_segs (files (disk s)) →
  delete_file dirname_segs e subject type unit filename s = (s', Success message) →
  let metadataKey :=
    subject +:+ "-" +:+ type +:+ "-" +:+ Js.or_empty unit +:+ "-" +:+ filename in
  let tried :=
    get_filePath dirname_segs subject type unit filename
    :: get_alternativePaths dirname_segs subject type unit filename in
  JsMap.get metadataKey (fileMetadata s') = None
  ∧ metadata_file (disk s') = Parsed (fileMetadata s')
  ∧ Forall (fun r => ¬ same_identity type filename subject (Js.or_empty unit) r)
      (category_list type (fullBackupData s'))
  ∧ backup_file (disk s') = Parsed (backup_doc (fullBackupData s') (iso_now e))
  ∧ documents_apart dirname_segs (files (disk s'))
  ∧ ∃ removed,
      first_hit (files (disk s))
        (delete_filePath dirname_segs subject type unit filename
         :: delete_alternativePaths dirname_segs subject type unit filename) removed
      ∧ removed ∈ files (disk s) ∧ removed ∈ tried
      ∧ ¬ Fs.within removed (STORAGE_DIR dirname_segs)
      ∧ files (disk s') = Fs.removeSync removed (files (disk s))
      ∧ get_file dirname_segs subject type unit filename s' ≠ SendFile removed
      ∧ ((∀ q, q ∈ tried → q ∈ files (disk s) → q = removed) →
           get_file dirname_segs subject type unit filename s'
           = Failure 404 "File not found").
Proof using dirname_plain.
  intros Hs Ht Hf Hu Hapart Hdel metadataKey tried.
  pose proof (delete_file_apart e subject type unit filename s Hs Ht Hu Hf Hapart) as Hkept.
  rewrite Hdel in Hkept. cbn [fst] in Hkept.
  assert (∃ removed, s' = forget e removed subject type unit filename s
                     ∧ first_hit (files (disk s))
                         (delete_filePath dirname_segs subject type unit filename
                          :: delete_alternativePaths dirname_segs subject type unit filename)
                         removed
                     ∧ removed ∈ files (disk s) ∧ removed ∈ tried)
    as (removed & -> & Hfirst & Hex & Htried).
  { unfold delete_file in Hdel. unfold Fs.existsSync in Hdel. case_bool_decide as Hcanon.
    - injection Hdel as <- _. eexists. split; [done|]. split_and!; [|done|by left].
      exists 0. split_and!; [done | done | intros j q Hj; lia].
    - destruct (first_existing _ _) as [p|] eqn:Hfound; [|done].
      injection Hdel as <- _. pose proof Hfound as [Hin Hp]%first_existing_some.
      exists p. split; [done|]. split_and!; [|done|].
      + apply first_existing_first in Hfound as (i & Hi & _ & Hbefore).
        exists (S i). split_and!; [done | done |].
        intros [|j] q Hj Hq; [by injection Hq as <- |]. apply (Hbefore j); [lia | done].
      + right. rewrite get_alternativePaths_order.
        rewrite delete_alternativePaths_order in Hin. unfold lookup_order.
        destruct (String.eqb type "notes" && Js.truthy_opt unit); [done|].
        case_bool_decide; [|done]. apply elem_of_app. by left. }
  destruct (forget_spec e removed subject type unit filename s)
    as (Hfs & Hkey & Hmeta & Hbackup & Hrecs).
  split; [done|]. split; [done|]. split; [done|]. split; [done|]. split; [done|].
  exists removed. split; [done|]. split; [done|]. split; [done|].
  split.
  { destruct Hfirst as (i & Hi & _).
    apply list_elem_of_lookup_2, delete_paths_below in Hi as (segs & Hne & Hsegs & ->);
      try done.
    by apply storage_not_within. }
  split; [done|].
  assert (Hserved : ∀ p, get_file dirname_segs subject type unit filename
                           (forget e removed subject type unit filename s) = SendFile p →
                         p ∈ tried ∧ p ∈ Fs.removeSync removed (files (disk s))).
  { intros p. unfold get_file, Fs.existsSync. rewrite Hfs. case_bool_decide as Hc.
    - intros [= <-]. split; [by left | done].
    - destruct (first_existing _ _) as [q|] eqn:Hfound; [|done].
      intros [= <-]. apply first_existing_some in Hfound as [Hin Hq].
      split; [by right | done]. }
  split.
  - intros [_ Hin]%Hserved. by apply removeSync_gone in Hin.
  - intros Honly.
    destruct (get_file dirname_segs subject type unit filename
                (forget e removed subject type unit filename s)) as [m|p|c m] eqn:Hget.
    + unfold get_file in Hget. destruct (Fs.existsSync _ _); [done|].
      by destruct (first_existing _ _).
    + destruct (Hserved p eq_refl) as [Hin Hp].
      rewrite (Honly p Hin (removeSync_subset _ _ _ Hp)) in Hp.
      by apply removeSync_gone in Hp.
    + unfold get_file in Hget. destruct (Fs.existsSync _ _); [done|].
      destruct (first_existing _ _); [done|]. done.
Qed.

End StorageTree.

Lemma kept_note_server_apart : documents_apart sample_dirname (files (disk kept_note_server)).
Proof. unfold documents_apart. split_and!; apply (bool_decide_unpack _); by vm_compute. Qed.

Lemma delete_then_lookup_witness :
  let s' := (delete_file sample_dirname sample_env "Math" "notes" (Some "Unit 1")
               "a_1700000000123.pdf" kept_note_server).1 in
  JsMap.get "Math-notes-Unit 1-a_1700000000123.pdf" (fileMetadata s') = None
  ∧ get_file sample_dirname "Math" "notes" (Some "Unit 1") "a_1700000000123.pdf" s'
    = Failure 404 "File not found".
Proof.
  cbn zeta.
  destruct (delete_then_lookup sample_dirname sample_dirname_plain sample_env
              "Math" "notes" "a_1700000000123.pdf" (Some "Unit 1") kept_note_server
              (delete_file sample_dirname sample_env "Math" "notes" (Some "Unit 1")
                 "a_1700000000123.pdf" kept_note_server).1
              "File deleted successfully" eq_refl eq_refl eq_refl)
    as (Hkey & _ & _ & _ & _ & removed & _ & Hin & Htried & _ & _ & _ & H404).
  - by intros u [= <-].
  - exact kept_note_server_apart.
  - reflexivity.
  - split; [exact Hkey|]. apply H404.
    assert (Honly : ∀ p,
              p ∈ get_filePath sample_dirname "Math" "notes" (Some "Unit 1")
                    "a_1700000000123.pdf"
                  :: get_alternativePaths sample_dirname "Math" "notes" (Some "Unit 1")
                       "a_1700000000123.pdf" →
              p ∈ files (disk kept_note_server) →
              p = "/srv/app/storage/Math/notes/Unit 1/a_1700000000123.pdf").
    { intros p Hp Hex. cbn [kept_note_server with_files disk files] in Hex.
      apply elem_of_list_to_set in Hex. apply elem_of_cons in Hex as [-> | Hex].
      - exfalso. revert Hp. apply (bool_decide_unpack _). by vm_compute.
      - by apply list_elem_of_singleton in Hex. }
    intros q Hq Hex. by rewrite (Honly _ Hq Hex), (Honly _ Htried Hin).
Defined.

(* ================================================================== *)
(** ** Deletion of a subject *)

Lemma reconstructed_names e b : Subject.name <$> reconstructed e b = allSubjects b.
Proof.
  unfold reconstructed. generalize (fresh_id e) as id. generalize (allSubjects b) as l.
  induction l as [|x l IH]; intros id; [done|].
  cbn [imap fmap list_fmap Subject.name]. f_equal. apply (IH (id ∘ S)).
Qed.

Lemma reconcile_fullBackupData e s :
  fullBackupData (reconcile e s) = reconstruct e (fullBackupData s).
Proof. unfold reconcile. cbv zeta. by destruct (_ || _). Qed.

Lemma reconstruct_lists e b :
  notes (reconstruct e b) = notes b
  ∧ practiceTests (reconstruct e b) = practiceTests b
  ∧ practicals (reconstruct e b) = practicals b
  ∧ assignments (reconstruct e b) = assignments b.
Proof. unfold reconstruct. by destruct (Nat.eqb _ _). Qed.

(** The names that can be among the subjects after the reconstruction. *)
Lemma reconstruct_names e b name :
  name ∈ Subject.name <$> subjects (reconstruct e b) →
  name ∈ Subject.name <$> subjects b
  ∨ name ∈ Rec.subject <$> notes b ++ practiceTests b ++ practicals b ++ assignments b.
Proof.
  unfold reconstruct. destruct (Nat.eqb _ _); [|by left].
  cbn [with_subjects subjects]. rewrite fmap_app, elem_of_app, reconstructed_names.
  intros [Hin|Hin]; [by left|right].
  rewrite allSubjects_distinct, elem_of_distinct in Hin.
  by apply list_elem_of_filter in Hin as [_ Hin].
Qed.

Section JsMapKeys.
Context {V : Type}.

Lemma of_entries_keys (k : string) (entries : list (string * V)) :
  k ∈ (JsMap.of_entries entries).*1 ↔ k ∈ entries.*1.
Proof.
  unfold JsMap.of_entries.
  assert (H : ∀ acc : list (string * V),
             k ∈ (fold_left (fun m kv => JsMap.set kv.1 kv.2 m) entries acc).*1
             ↔ k ∈ acc.*1 ∨ k ∈ entries.*1).
  { induction entries as [|[k' v'] entries IH]; intros acc; cbn [fold_left].
    - rewrite fmap_nil. split; [by left|]. intros [?|Hin]; [done|].
      by apply elem_of_nil in Hin.
    - rewrite IH, set_keys, fmap_cons, elem_of_cons. cbn [fst snd].
      destruct (bool_decide _) eqn:Hin.
      + apply bool_decide_eq_true in Hin. split; [tauto|].
        intros [?|[->|?]]; tauto.
      + rewrite elem_of_app, list_elem_of_singleton. tauto. }
  rewrite H, fmap_nil. split; [|tauto]. intros [Hin|?]; [|done]. by apply elem_of_nil in Hin.
Qed.

End JsMapKeys.

Section SubjectDeletion.

Variable dirname_segs : list string.
Hypothesis dirname_plain : Forall (fun s => Path.plain s = true) dirname_segs.

(** X11. The deletion of a subject whose name is a plain path segment,
    from a storage tree that stands apart from the documents, lasts:
    right away and after a restart no subject entry and no record carries
    the name, and the records of the other subjects are all there, in
    their order. The storage directory stays and no document is touched.
    The entries of the files of the subject stay in the index all the
    same. *)
Theorem deleted_subject_stays_deleted (e e' : Env) (subjectName message : string)
    (s : Server) :
  Path.plain subjectName = true →
  documents_apart dirname_segs (files (disk s)) →
  (delete_subject dirname_segs e subjectName s).2 = Success message →
  let s1 := (delete_subject dirname_segs e subjectName s).1 in
  let s2 := startup e' (disk s1) in
  let kept := filter (fun r => Rec.subject r ≠ subjectName) in
  (∀ s', s' = s1 ∨ s' = s2 →
     documents_apart dirname_segs (files (disk s'))
     ∧ (subjectName ∉ Subject.name <$> subjects (fullBackupData s'))
     ∧ notes (fullBackupData s') = kept (notes (fullBackupData s))
     ∧ practiceTests (fullBackupData s') = kept (practiceTests (fullBackupData s))
     ∧ practicals (fullBackupData s') = kept (practicals (fullBackupData s))
     ∧ assignments (fullBackupData s') = kept (assignments (fullBackupData s))
     ∧ ∀ k, k ∈ (fileMetadata s).*1 → k ∈ (fileMetadata s').*1).
Proof using dirname_plain.
  intros Hplain Hapart Hok s1 s2 kept. subst s1 s2.
  pose proof (delete_subject_apart dirname_segs dirname_plain e subjectName s
                Hplain Hapart) as Hkept.
  revert Hok Hkept. unfold delete_subject.
  destruct (_ || _); [done|]. intros _. cbn [fst].
  set (b' := {| subjects := _ |}).
  set (s0 := {| disk := _; fileMetadata := fileMetadata s; fullBackupData := b' |}).
  intros Hkept.
  assert (Hno : subjectName ∉ Subject.name <$> subjects b').
  { intros (x & Hx & Hin)%list_elem_of_fmap. cbn [b' subjects] in Hin.
    by apply list_elem_of_filter in Hin as [Hne _]. }
  assert (Hrec : subjectName ∉ Rec.subject <$> notes b' ++ practiceTests b'
                                   ++ practicals b' ++ assignments b').
  { intros (x & Hx & Hin)%list_elem_of_fmap.
    cbn [b' notes practiceTests practicals assignments] in Hin.
    rewrite !elem_of_app in Hin.
    destruct Hin as [Hin|[Hin|[Hin|Hin]]];
      by apply list_elem_of_filter in Hin as [Hne _]. }
  intros s' [->| ->].
  - split; [done|]. cbn [saveMetadata fullBackupData fileMetadata s0]. by split_and!.
  - split; [by rewrite startup_files|].
    unfold startup. rewrite reconcile_fullBackupData, reconcile_fileMetadata.
    unfold loaded. cbn [fullBackupData fileMetadata]. rewrite load_saved. cbn [fst snd].
    destruct (reconstruct_lists e' (stamped (Some (iso_now e)) (fullBackupData s0)))
      as (-> & -> & -> & ->).
    split_and!; try done.
    + intros [Hin|Hin]%reconstruct_names; [by apply Hno | by apply Hrec].
    + intros k Hk.
      destruct (populate_appends (stamped (Some (iso_now e)) (fullBackupData s0))
                  (JsMap.of_entries (fileMetadata s0))) as (added & -> & _).
      rewrite fmap_app, elem_of_app. left. by apply of_entries_keys.
Qed.

End SubjectDeletion.

Lemma deleted_subject_stays_deleted_witness :
  let s1 := (delete_subject sample_dirname sample_env "Math" kept_note_server).1 in
  let s2 := startup later_env (disk s1) in
  documents_apart sample_dirname (files (disk s2))
  ∧ ("Math" ∉ Subject.name <$> subjects (fullBackupData s2))
  ∧ notes (fullBackupData s2) = []
  ∧ "Math-notes-Unit 1-a_1700000000123.pdf" ∈ (fileMetadata s2).*1.
Proof.
  cbn zeta.
  destruct (deleted_subject_stays_deleted sample_dirname sample_dirname_plain
              sample_env later_env "Math"
              "Subject 'Math' deleted successfully" kept_note_server eq_refl
              kept_note_server_apart eq_refl
              (startup later_env
                 (disk (delete_subject sample_dirname sample_env "Math" kept_note_server).1))
              (or_intror eq_refl))
    as (Hapart & Hname & Hnotes & _ & _ & _ & Hkeys).
  split_and!; [exact Hapart | exact Hname | exact Hnotes |].
  apply Hkeys. apply (bool_decide_unpack _). by vm_compute.
Defined.

(* ================================================================== *)
(** ** Creation of a unit *)

Lemma ensureDirSync_idemp p fs :
  Fs.ensureDirSync p (Fs.ensureDirSync p fs) = Fs.ensureDirSync p fs.
Proof.
  unfold Fs.ensureDirSync. apply set_eq. intros x. rewrite !elem_of_union. tauto.
Qed.

Lemma list_find_alter_push unit name l i found :
  list_find (fun x => Subject.name x = name) l = Some (i, found) →
  list_find (fun x => Subject.name x = name) (alter (push_unit unit) i l)
  = Some (i, push_unit unit found).
Proof.
  intros (Hi & Hname & Hbefore)%list_find_Some. apply list_find_Some. split_and!.
  - by rewrite list_lookup_alter, decide_True, Hi by done.
  - by rewrite push_unit_name.
  - intros j y Hj Hlt. rewrite list_lookup_alter, decide_False in Hj by lia.
    by eapply Hbefore.
Qed.

Lemma push_unit_included unit x : unit ∈ Subject.units (push_unit unit x).
Proof.
  unfold push_unit. destruct (bool_decide _) eqn:Hin.
  - by apply bool_decide_eq_true in Hin.
  - cbn. apply elem_of_app. right. by apply list_elem_of_singleton.
Qed.

Section UnitCreation.

Variable dirname_segs : list string.

(** X12. The creation of a unit can be repeated: the second request for
    the same subject and unit is answered like the first and changes
    nothing at all, whatever the clock shows. *)
Theorem create_unit_twice (e e' : Env) (subjectName unitName : string) (s : Server) :
  let first := create_unit dirname_segs e subjectName unitName s in
  create_unit dirname_segs e' subjectName unitName first.1 = first.
Proof.
  cbv zeta. unfold create_unit at 2 3. cbv zeta.
  set (p := Path.join _).
  destruct (list_find _ (subjects (fullBackupData s))) as [[i found]|] eqn:Hfind.
  - destruct (bool_decide (unitName ∈ Subject.units found)) eqn:Hin.
    + cbn [fst]. unfold create_unit. cbv zeta.
      cbn [with_files fullBackupData disk files]. fold p. rewrite Hfind, Hin.
      unfold with_files. cbn [disk files metadata_file backup_file fileMetadata
        fullBackupData]. by rewrite ensureDirSync_idemp.
    + cbn [fst]. unfold create_unit. cbv zeta.
      cbn [saveMetadata with_fullBackupData with_subjects with_files fullBackupData disk
        files subjects]. fold p.
      rewrite (list_find_alter_push _ _ _ _ _ Hfind).
      rewrite (bool_decide_eq_true_2 _ (push_unit_included unitName found)).
      unfold with_files. cbn [disk files metadata_file backup_file fileMetadata
        fullBackupData]. by rewrite ensureDirSync_idemp.
  - cbn [fst]. unfold create_unit. cbv zeta.
    cbn [with_files fullBackupData disk files]. fold p. rewrite Hfind.
    unfold with_files. cbn [disk files metadata_file backup_file fileMetadata
      fullBackupData]. by rewrite ensureDirSync_idemp.
Qed.

End UnitCreation.

(* ================================================================== *)
(** ** Units without repetition *)

Lemma push_unit_NoDup unit x : NoDup (Subject.units x) → NoDup (Subject.units (push_unit unit x)).
Proof.
  unfold push_unit. destruct (bool_decide _) eqn:Hin; [done|].
  apply bool_decide_eq_false in Hin. cbn. intros Hx.
  apply NoDup_app. split_and!; [done| |apply NoDup_singleton].
  intros y Hy ->%list_elem_of_singleton. done.
Qed.

Lemma register_distinct e subject type unit l :
  distinct_units l → distinct_units (register_subject e subject type unit l).
Proof.
  intros Hl. unfold register_subject. destruct (findIndex subject l).
  - destruct (_ && _); [|done]. apply Forall_alter; [done|].
    intros x _. apply push_unit_NoDup.
  - apply Forall_app. split; [done|]. apply Forall_singleton.
    cbn. destruct (_ && _); [apply NoDup_singleton | apply NoDup_nil_2].
Qed.

Lemma reconstruct_distinct e b :
  distinct_units (subjects b) → distinct_units (subjects (reconstruct e b)).
Proof.
  intros Hb. unfold reconstruct. destruct (Nat.eqb _ _); [|done].
  cbn [with_subjects subjects]. apply Forall_app. split; [done|].
  apply Forall_forall. intros x Hx. unfold reconstructed in Hx.
  apply elem_of_lookup_imap in Hx as (i & subject & -> & _).
  cbn. rewrite unit_set_distinct. apply NoDup_distinct.
Qed.

Section DistinctUnits.

Variable dirname_segs : list string.
Variable formatFileSize : N → string.
Variable extname : string → string.

Lemma handle_distinct e r s :
  distinct_units (subjects (fullBackupData s)) →
  (∀ name units, r = CreateSubject name (Some units) → NoDup units) →
  distinct_units
    (subjects (fullBackupData (handle dirname_segs formatFileSize extname e r s).1)).
Proof.
  intros Hs Hunits. destruct r as [file body|name units|subjectName unitName|
    subject type unit filename|subjectName]; cbn [handle].
  - destruct (upload_outcome dirname_segs formatFileSize extname e file body s)
      as [[m Heq] | [(f & fs & _ & _ & Heq) | (f & fs & p & _ & _ & _ & _ & Heq)]];
      rewrite Heq; cbn [fst with_files fullBackupData]; [done..|].
    cbn [saveMetadata fullBackupData with_subjects subjects].
    apply register_distinct. by rewrite upsert_subjects.
  - unfold create_subject. cbn [fst saveMetadata with_fullBackupData fullBackupData
      with_subjects subjects].
    assert (Hnew : NoDup (default [] units)).
    { destruct units as [units|]; [by eapply Hunits | apply NoDup_nil_2]. }
    destruct (findIndex _ _).
    + by apply Forall_insert.
    + apply Forall_app. split; [done|]. by apply Forall_singleton.
  - unfold create_unit. cbv zeta. cbn [fst].
    destruct (list_find _ _) as [[i found]|]; [|done].
    destruct (bool_decide _); [done|].
    cbn [saveMetadata with_fullBackupData fullBackupData with_subjects subjects].
    apply Forall_alter; [done|]. intros x _. apply push_unit_NoDup.
  - unfold delete_file. cbv zeta.
    destruct (Fs.existsSync _ _); cbn [fst]; [by rewrite forget_subjects|].
    destruct (first_existing _ _); cbn [fst]; [by rewrite forget_subjects | done].
  - unfold delete_subject. destruct (_ || _); [done|].
    cbn [fst saveMetadata fullBackupData subjects].
    apply Forall_forall. intros x [_ Hx]%list_elem_of_filter.
    by apply (proj1 (Forall_forall _ _) Hs).
Qed.

(** X13. No subject entry ever lists a unit twice: when the backup
    document has this property and no request for the creation of a
    subject brings a list with a repetition, the subjects have it after
    the start and after any sequence of requests. *)
Theorem units_stay_distinct (e0 : Env) (d : Disk) (trace : list (Env * Request)) :
  distinct_units (subjects (load d).2) →
  (∀ e name units, (e, CreateSubject name (Some units)) ∈ trace → NoDup units) →
  distinct_units
    (subjects (fullBackupData
       (run dirname_segs formatFileSize extname trace (startup e0 d)))).
Proof.
  intros Hd Htrace.
  assert (Hstart : distinct_units (subjects (fullBackupData (startup e0 d)))).
  { unfold startup. rewrite reconcile_fullBackupData. by apply reconstruct_distinct. }
  revert Hstart. generalize (startup e0 d) as s.
  induction trace as [|[e r] trace IH]; intros s Hs; [done|].
  cbn [run]. apply IH.
  - intros e' name units Hin. eapply Htrace. by apply list_elem_of_further.
  - apply handle_distinct; [done|]. intros name units ->.
    eapply Htrace. apply list_elem_of_here.
Qed.

End DistinctUnits.

Lemma units_stay_distinct_witness :
  distinct_units
    (subjects (fullBackupData
       (run sample_dirname sample_size path_extname sample_trace
          (startup sample_env one_subject_disk)))).
Proof.
  apply units_stay_distinct.
  - unfold distinct_units. apply (bool_decide_unpack _). by vm_compute.
  - intros e name units Hin. unfold sample_trace in Hin.
    apply elem_of_cons in Hin as [[= _ _ ->]|Hin].
    + apply (bool_decide_unpack _). by vm_compute.
    + apply list_elem_of_singleton in Hin. discriminate Hin.
Defined.

(* ================================================================== *)
(** ** What a restart finds *)

Lemma durable_save e s : NoDup (fileMetadata s).*1 → durable (saveMetadata e s).
Proof.
  intros Hs. unfold durable. rewrite load_saved. cbn [fst snd saveMetadata fileMetadata
    fullBackupData]. split_and!; [done | by apply of_entries_id | done].
Qed.

Lemma durable_files fs s : durable s → durable (with_files fs s).
Proof. done. Qed.

Lemma with_subjects_same b : with_subjects (subjects b) b = b.
Proof. by destruct b. Qed.

Lemma durable_startup e d : durable (startup e d).
Proof.
  rewrite startup_unfold. cbv zeta.
  destruct (populate_appends (load d).2 (load d).1) as (added & Hadded & _ & Hnodup & _).
  specialize (Hnodup (load_NoDup d)).
  destruct (_ || _) eqn:Hsave.
  - by apply durable_save.
  - apply orb_false_iff in Hsave as [Hsize Hsubjects].
    cbn [fileMetadata fullBackupData] in Hsize, Hsubjects.
    apply Nat.ltb_ge in Hsize, Hsubjects.
    assert (Hsame : populate (load d).2 (load d).1 = (load d).1).
    { rewrite Hadded in Hsize |- *. unfold JsMap.size in Hsize.
      rewrite length_app in Hsize. destruct added; [by rewrite app_nil_r | cbn in Hsize; lia]. }
    assert (Hnone : subjects (reconstruct e (load d).2) = []).
    { destruct (subjects _); [done | cbn in Hsubjects; lia]. }
    destruct (reconstruct_nothing e e _ Hnone) as (Hempty & Hall & _).
    assert (Hb : reconstruct e (load d).2 = (load d).2).
    { unfold reconstruct. rewrite Hempty. cbn [length Nat.eqb].
      rewrite reconstructed_nil by done. cbn [app]. rewrite <- Hempty.
      apply with_subjects_same. }
    unfold durable. cbn [disk fileMetadata fullBackupData].
    rewrite Hsame, Hb. split_and!; [apply load_NoDup | done..].
Qed.

Section Durability.

Variable dirname_segs : list string.
Variable formatFileSize : N → string.
Variable extname : string → string.
Hypothesis dirname_plain : Forall (fun s => Path.plain s = true) dirname_segs.

Lemma durable_handle e r s :
  durable s → durable (handle dirname_segs formatFileSize extname e r s).1.
Proof.
  intros Hs. pose proof Hs as (Hnodup & _).
  destruct r as [file body|name units|subjectName unitName|
    subject type unit filename|subjectName]; cbn [handle].
  - destruct (upload_outcome dirname_segs formatFileSize extname e file body s)
      as [[m Heq] | [(f & fs & _ & _ & Heq) | (f & fs & p & _ & _ & _ & _ & Heq)]];
      rewrite Heq; cbn [fst]; [done | by apply durable_files |].
    apply durable_save. cbn [fileMetadata]. by apply set_NoDup.
  - unfold create_subject. cbn [fst]. by apply durable_save.
  - unfold create_unit. cbv zeta. cbn [fst].
    destruct (list_find _ _) as [[i found]|]; [|by apply durable_files].
    destruct (bool_decide _); [by apply durable_files|]. by apply durable_save.
  - unfold delete_file. cbv zeta.
    destruct (Fs.existsSync _ _); cbn [fst].
    { apply durable_save. cbn [fileMetadata]. by apply delete_NoDup. }
    destruct (first_existing _ _); cbn [fst]; [|done].
    apply durable_save. cbn [fileMetadata]. by apply delete_NoDup.
  - unfold delete_subject. destruct (_ || _); [done|]. cbn [fst]. by apply durable_save.
Qed.

(** X14. Nothing that the server holds in memory is lost by a restart,
    as long as the requests name plain path segments and the storage tree
    stands apart from the documents when the server starts. After the
    start and any sequence of such requests, the storage directory is in
    place and nothing stands at the path of a document; the documents on
    disk load to the index that is in memory, entry by entry and in its
    order, and to the backup that is in memory, up to its time stamp; and
    the reconciliation of the next start keeps every index entry at its
    place, all four lists of records, and the subjects unless there is
    none. *)
Theorem memory_survives_restart (e0 e' : Env) (d : Disk) (trace : list (Env * Request)) :
  documents_apart dirname_segs (files d) →
  Forall (fun er => plain_request dirname_segs er.2) trace →
  let s := run dirname_segs formatFileSize extname trace (startup e0 d) in
  let s2 := startup e' (disk s) in
  documents_apart dirname_segs (files (disk s))
  ∧ (load (disk s)).1 = fileMetadata s
  ∧ unstamp (load (disk s)).2 = unstamp (fullBackupData s)
  ∧ fileMetadata s `prefix_of` fileMetadata s2
  ∧ notes (fullBackupData s2) = notes (fullBackupData s)
  ∧ practiceTests (fullBackupData s2) = practiceTests (fullBackupData s)
  ∧ practicals (fullBackupData s2) = practicals (fullBackupData s)
  ∧ assignments (fullBackupData s2) = assignments (fullBackupData s)
  ∧ (subjects (fullBackupData s) ≠ [] →
     subjects (fullBackupData s2) = subjects (fullBackupData s)).
Proof using dirname_plain.
  intros Hapart Htrace. cbv zeta.
  assert (H : ∀ s, durable s → durable (run dirname_segs formatFileSize extname trace s)).
  { clear Htrace. induction trace as [|[e r] trace IH]; intros s Hs; [done|].
    cbn [run]. by apply IH, durable_handle. }
  specialize (H _ (durable_startup e0 d)).
  assert (Hkept : documents_apart dirname_segs
                    (files (disk (run dirname_segs formatFileSize extname trace
                                    (startup e0 d))))).
  { apply (run_apart dirname_segs formatFileSize extname dirname_plain); [done|].
    by rewrite startup_files. }
  set (s := run dirname_segs formatFileSize extname trace (startup e0 d)) in *.
  destruct H as (_ & Hindex & Hbackup).
  split; [done|]. split; [done|]. split; [done|].
  unfold startup at 1 2 3 4 5 6. rewrite reconcile_fileMetadata, reconcile_fullBackupData.
  unfold loaded. cbn [fileMetadata fullBackupData]. rewrite Hindex.
  destruct (reconstruct_lists e' (load (disk s)).2) as (-> & -> & -> & ->).
  split_and!.
  - destruct (populate_appends (load (disk s)).2 (fileMetadata s)) as (added & -> & _).
    by apply prefix_app_r.
  - exact (f_equal notes Hbackup).
  - exact (f_equal practiceTests Hbackup).
  - exact (f_equal practicals Hbackup).
  - exact (f_equal assignments Hbackup).
  - intros Hsome. pose proof (f_equal subjects Hbackup) as Hsubjects.
    cbn [unstamp stamped subjects] in Hsubjects.
    unfold reconstruct. rewrite Hsubjects.
    destruct (subjects (fullBackupData s)); [done|]. exact Hsubjects.
Qed.

End Durability.

Lemma plain_trace_plain :
  Forall (fun er => plain_request sample_dirname er.2) plain_trace.
Proof.
  unfold plain_trace. repeat (apply Forall_cons; split); [| | |by apply Forall_nil].
  - split; [by split | by repeat constructor].
  - cbn [snd plain_request]. split_and!.
    + intros f [= <-]. split; [done|]. exists ["temp"].
      split_and!; [done | by repeat constructor | by intros rest [= ?] | done].
    + intros _. by split.
    + by intros _.
  - done.
Qed.

Lemma memory_survives_restart_witness :
  let s := run sample_dirname sample_size path_extname plain_trace
             (startup sample_env kept_disk) in
  documents_apart sample_dirname (files (disk s))
  ∧ (load (disk s)).1 = fileMetadata s
  ∧ unstamp (load (disk s)).2 = unstamp (fullBackupData s).
Proof.
  cbn zeta.
  destruct (memory_survives_restart sample_dirname sample_size path_extname
              sample_dirname_plain sample_env later_env kept_disk plain_trace)
    as (Hapart & Hindex & Hbackup & _).
  - unfold documents_apart. split_and!; apply (bool_decide_unpack _); by vm_compute.
  - exact plain_trace_plain.
  - by split_and!.
Defined.

(** X15. After the start every record of the four lists of the backup
    has an entry in the index under its key. *)
Theorem records_are_indexed_at_start (e : Env) (d : Disk) :
  let s := startup e d in
  Forall (fun k => is_Some (JsMap.get k (fileMetadata s)))
    (record_keys (fullBackupData s)).
Proof.
  cbv zeta. unfold startup.
  rewrite reconcile_fullBackupData, reconcile_fileMetadata.
  destruct (reconstruct_records e (fullBackupData (loaded d))) as [-> _].
  destruct (populate_appends (fullBackupData (loaded d)) (fileMetadata (loaded d)))
    as (_ & _ & _ & _ & Hcover).
  apply Forall_forall. intros k Hk. apply not_eq_None_Some.
  rewrite get_None. intros Hnot. by apply Hnot, Hcover.
Qed.

Section Unreadable.

Variable dirname_segs : list string.


End Unreadable.


(* ================================================================== *)
(** ** What a deletion of a file leaves alone *)

Lemma category_list_forget e removed subject type unit filename s t :
  category_list t (fullBackupData (forget e removed subject type unit filename s))
  = if String.eqb t type
    then filter (fun r => ¬ same_identity type filename subject (Js.or_empty unit) r)
           (category_list t (fullBackupData s))
    else category_list t (fullBackupData s).
Proof.
  unfold forget. cbn [saveMetadata fullBackupData].
  destruct (String.eqb_spec t type) as [->|Hne].
  - unfold category_list.
    destruct (String.eqb type "notes") eqn:Hn.
    { cbn [with_notes notes]. apply list_filter_iff. intros r.
      unfold same_identity. by rewrite Hn. }
    destruct (String.eqb type "practice-tests").
    { cbn [with_practiceTests practiceTests]. apply list_filter_iff. intros r.
      unfold same_identity. by rewrite Hn. }
    destruct (String.eqb type "practicals").
    { cbn [with_practicals practicals]. apply list_filter_iff. intros r.
      unfold same_identity. by rewrite Hn. }
    destruct (String.eqb type "assignments"); [|done].
    cbn [with_assignments assignments]. apply list_filter_iff. intros r.
    unfold same_identity. by rewrite Hn.
  - unfold category_list.
    destruct (String.eqb_spec type "notes") as [->|?].
    { apply String.eqb_neq in Hne. by rewrite Hne. }
    destruct (String.eqb_spec type "practice-tests") as [->|?].
    { apply String.eqb_neq in Hne. rewrite Hne. by destruct (String.eqb t "notes"). }
    destruct (String.eqb_spec type "practicals") as [->|?].
    { apply String.eqb_neq in Hne. rewrite Hne.
      by destruct (String.eqb t "notes"), (String.eqb t "practice-tests"). }
    destruct (String.eqb_spec type "assignments") as [->|?]; [|done].
    apply String.eqb_neq in Hne. rewrite Hne.
    by destruct (String.eqb t "notes"), (String.eqb t "practice-tests"),
      (String.eqb t "practicals").
Qed.

Section FileDeletion.

Variable dirname_segs : list string.

(** X17. A deletion of a file that succeeds touches nothing but that
    file: the other index entries, the subjects, the records of the other
    categories and the records of its category that are not of its
    identity are as before, in their order, and no file appears. A
    deletion that finds no file changes nothing at all. *)
Theorem delete_file_frame (e : Env) (subject type : string) (unit : option string)
    (filename : string) (s : Server) :
  let s' := (delete_file dirname_segs e subject type unit filename s).1 in
  let key := subject +:+ "-" +:+ type +:+ "-" +:+ Js.or_empty unit +:+ "-" +:+ filename in
  match (delete_file dirname_segs e subject type unit filename s).2 with
  | Success _ =>
      (∀ k, k ≠ key → JsMap.get k (fileMetadata s') = JsMap.get k (fileMetadata s))
      ∧ subjects (fullBackupData s') = subjects (fullBackupData s)
      ∧ (∀ t, category_list t (fullBackupData s')
              = if String.eqb t type
                then filter (fun r => ¬ same_identity type filename subject
                                         (Js.or_empty unit) r)
                       (category_list t (fullBackupData s))
                else category_list t (fullBackupData s))
      ∧ files (disk s') ⊆ files (disk s)
  | _ => s' = s
  end.
Proof.
  cbv zeta. unfold delete_file. cbv zeta.
  assert (Hforget : ∀ removed,
    let s' := forget e removed subject type unit filename s in
    (∀ k, k ≠ subject +:+ "-" +:+ type +:+ "-" +:+ Js.or_empty unit +:+ "-" +:+ filename →
          JsMap.get k (fileMetadata s') = JsMap.get k (fileMetadata s))
    ∧ subjects (fullBackupData s') = subjects (fullBackupData s)
    ∧ (∀ t, category_list t (fullBackupData s')
            = if String.eqb t type
              then filter (fun r => ¬ same_identity type filename subject
                                       (Js.or_empty unit) r)
                     (category_list t (fullBackupData s))
              else category_list t (fullBackupData s))
    ∧ files (disk s') ⊆ files (disk s)).
  { intros removed. cbv zeta. split_and!.
    - intros k Hk. unfold forget. cbn [saveMetadata fileMetadata].
      by apply get_delete_ne.
    - apply forget_subjects.
    - intros t. apply category_list_forget.
    - unfold forget. cbn [saveMetadata disk files]. intros q. apply removeSync_subset. }
  destruct (Fs.existsSync _ _); cbn [fst snd]; [apply Hforget|].
  destruct (first_existing _ _); cbn [fst snd]; [apply Hforget | done].
Qed.

End FileDeletion.

(* ================================================================== *)
(** ** From the upload to the lookup *)

Lemma includes_app_r x a b : Js.includes x b = true → Js.includes x (a +:+ b) = true.
Proof.
  intros Hb. induction a as [|c a IH]; [done|].
  rewrite append_cons. cbn [Js.includes]. by rewrite IH, orb_true_r.
Qed.

Section Served.

Variable dirname_segs : list string.
Variable formatFileSize : N → string.
Variable extname : string → string.
Hypothesis dirname_plain : Forall (fun s => Path.plain s = true) dirname_segs.

Local Abbreviation STORAGE := (STORAGE_DIR dirname_segs).
Local Abbreviation upload' := (upload dirname_segs formatFileSize extname).

Lemma parked_path_has_temp filename :
  Path.plain filename = true →
  Js.includes "temp" (Path.join [Path.join [STORAGE; "temp"]; filename]) = true.
Proof using dirname_plain.
  intros Hf. rewrite (join_join_storage dirname_segs dirname_plain ["temp"] filename);
    [|by repeat constructor|done].
  by apply includes_app_r.
Qed.

(** The directory of valid fields: where the handler moves a parked
    file, where multer puts a file whose headers carry the fields, and
    what the lookup resolves. *)
Lemma canonical_directory subject type unit filename :
  Path.plain subject = true → Js.trim subject = subject →
  type ∈ categories →
  (type = "notes" → ∃ u, unit = Some u ∧ Path.plain u = true ∧ Js.trim u = u) →
  Path.plain filename = true →
  ∃ dir, correctPath dirname_segs subject type unit = Some dir
         ∧ destination dirname_segs (Some subject) (Some type) unit = Directory dir
         ∧ Path.join [dir; filename] = get_filePath dirname_segs subject type unit filename.
Proof using dirname_plain.
  intros Hs Hts Ht Hu Hf.
  apply elem_of_cons in Ht as [->|Ht].
  - destruct (Hu eq_refl) as (u & -> & Hpu & Htu).
    exists (Path.join [STORAGE; subject; "notes"; u]). split_and!.
    + unfold correctPath, Js.or_empty. cbn [from_option id String.eqb Ascii.eqb Bool.eqb
        andb Js.truthy_opt]. by rewrite Hts, Htu, (plain_truthy _ Hpu).
    + unfold destination, Js.or_empty. cbn [from_option id].
      rewrite Hts, Htu. change (Js.trim "notes") with "notes".
      rewrite (plain_truthy _ Hs), (plain_truthy _ Hpu). reflexivity.
    + rewrite get_filePath_notes by done.
      rewrite (join_join_storage dirname_segs dirname_plain [subject; "notes"; u] filename);
        [done | by repeat constructor | done].
  - exists (Path.join [STORAGE; subject; type]). split_and!.
    + unfold correctPath. rewrite Hts.
      cases_mem Ht; by cbn [String.eqb Ascii.eqb Bool.eqb andb].
    + unfold destination, Js.or_empty. cbn [from_option id].
      rewrite Hts, (plain_truthy _ Hs).
      cases_mem Ht; reflexivity.
    + rewrite get_filePath_other by done.
      assert (Hjj := join_join_storage dirname_segs dirname_plain [subject; type] filename).
      cases_mem Ht; (rewrite Hjj; [done | by repeat constructor | done]).
Qed.

Lemma uploaded_file_in_place (e : Env) (f : ReqFile) (body : UploadBody) (s : Server)
    (message subject type d : string) :
  (upload' e (Some f) body s).2 = Success message →
  b_subject body = Some subject → b_type body = Some type →
  Path.plain subject = true → Js.trim subject = subject →
  type ∈ categories →
  (type = "notes" → ∃ u, b_unit body = Some u ∧ Path.plain u = true ∧ Js.trim u = u) →
  Path.plain (filename f) = true →
  path f = Path.join [d; filename f] →
  path f ∈ files (disk s) →
  d = Path.join [STORAGE; "temp"]
  ∨ destination dirname_segs (Some subject) (Some type) (b_unit body) = Directory d →
  get_filePath dirname_segs subject type (b_unit body) (filename f)
  ∈ files (disk (upload' e (Some f) body s).1).
Proof using dirname_plain.
  intros Hok Hsubject Htype Hs Hts Ht Hu Hf Hpath Hin Hd.
  destruct (canonical_directory subject type (b_unit body) (filename f) Hs Hts Ht Hu Hf)
    as (dir & Hcorrect & Hdest & Hcanon).
  destruct (upload_outcome dirname_segs formatFileSize extname e (Some f) body s)
    as [[m Heq] | [(f' & fs & _ & _ & Heq) | (f' & fs & p & Hf' & _ & _ & Hmove & Heq)]];
    rewrite Heq in Hok |- *; [done..|].
  injection Hf' as <-. cbn [fst saveMetadata disk files].
  rewrite Hsubject, Htype in Hmove. unfold Js.or_empty in Hmove. cbn [from_option id] in Hmove.
  unfold relocate in Hmove. rewrite Hcorrect in Hmove.
  destruct (Js.includes "temp" (path f)) eqn:Htemp.
  - unfold Fs.moveSync in Hmove. rewrite Hcanon in Hmove.
    destruct (Fs.existsSync _ _); [done|].
    destruct (Fs.existsSync _ _); [|done].
    injection Hmove as <- _. apply elem_of_union_r. by apply elem_of_singleton.
  - injection Hmove as <- _. destruct Hd as [-> | Hd].
    + rewrite Hpath, parked_path_has_temp in Htemp; done.
    + rewrite Hdest in Hd. injection Hd as <-. by rewrite <- Hcanon, <- Hpath.
Qed.

(** X18. A file that has been uploaded with valid fields is served by the
    lookup under these fields, from its canonical path, whether multer
    had parked it in [temp] or the headers had led it to its place. *)
Theorem uploaded_file_is_served (e : Env) (f : ReqFile) (body : UploadBody) (s : Server)
    (message subject type d : string) :
  (upload' e (Some f) body s).2 = Success message →
  b_subject body = Some subject → b_type body = Some type →
  Path.plain subject = true → Js.trim subject = subject →
  type ∈ categories →
  (type = "notes" → ∃ u, b_unit body = Some u ∧ Path.plain u = true ∧ Js.trim u = u) →
  Path.plain (filename f) = true →
  path f = Path.join [d; filename f] →
  path f ∈ files (disk s) →
  d = Path.join [STORAGE; "temp"]
  ∨ destination dirname_segs (Some subject) (Some type) (b_unit body) = Directory d →
  get_file dirname_segs subject type (b_unit body) (filename f) (upload' e (Some f) body s).1
  = SendFile (get_filePath dirname_segs subject type (b_unit body) (filename f)).
Proof using dirname_plain.
  intros Hok Hsubject Htype Hs Hts Ht Hu Hf Hpath Hin Hd.
  pose proof (uploaded_file_in_place e f body s message subject type d
                Hok Hsubject Htype Hs Hts Ht Hu Hf Hpath Hin Hd) as Hthere.
  unfold get_file, Fs.existsSync. by rewrite (bool_decide_eq_true_2 _ Hthere).
Qed.

Lemma category_list_with_subjects t l b :
  category_list t (with_subjects l b) = category_list t b.
Proof.
  unfold category_list. destruct (String.eqb t "notes"); [done|].
  destruct (String.eqb t "practice-tests"); [done|].
  destruct (String.eqb t "practicals"); [done|].
  by destruct (String.eqb t "assignments").
Qed.

Lemma category_list_upsert type unit r b t :
  type ∈ categories →
  category_list t (upsert type unit r b)
  = if String.eqb t type
    then filter (fun x => ¬ same_identity type (Rec.storedFileName r) (Rec.subject r) unit x)
           (category_list t b) ++ [as_stored type unit r]
    else category_list t b.
Proof.
  intros Ht. unfold categories in Ht. unfold upsert, as_stored.
  cases_mem Ht; cbn [String.eqb Ascii.eqb Bool.eqb]; unfold category_list.
  - destruct (String.eqb_spec t "notes") as [->|?]; [reflexivity|].
    destruct (String.eqb t "practice-tests"); [done|].
    destruct (String.eqb t "practicals"); [done|].
    by destruct (String.eqb t "assignments").
  - destruct (String.eqb_spec t "practice-tests") as [->|?]; [reflexivity|].
    destruct (String.eqb t "notes"); [done|].
    destruct (String.eqb t "practicals"); [done|].
    by destruct (String.eqb t "assignments").
  - destruct (String.eqb_spec t "practicals") as [->|?]; [reflexivity|].
    destruct (String.eqb t "notes"); [done|].
    destruct (String.eqb t "practice-tests"); [done|].
    by destruct (String.eqb t "assignments").
  - destruct (String.eqb_spec t "assignments") as [->|?]; [reflexivity|].
    destruct (String.eqb t "notes"); [done|].
    destruct (String.eqb t "practice-tests"); [done|].
    by destruct (String.eqb t "practicals").
Qed.

Lemma categories_trimmed type : type ∈ categories → Js.trim type = type.
Proof. intros Ht. unfold categories in Ht. by cases_mem Ht. Qed.

(** X19. A file that has been uploaded with valid fields can be deleted
    under these fields, and nothing of it is left but its subject and
    unit: the file is gone from its canonical path, the index has no
    entry under its key and every other entry as before the upload, and
    the lists of records are as before the upload, save for the earlier
    records of the same file. *)
Theorem upload_then_delete (e e' : Env) (f : ReqFile) (body : UploadBody) (s : Server)
    (message subject type d : string) :
  (upload' e (Some f) body s).2 = Success message →
  b_subject body = Some subject → b_type body = Some type →
  Path.plain subject = true → Js.trim subject = subject →
  type ∈ categories →
  (type = "notes" → ∃ u, b_unit body = Some u ∧ Path.plain u = true ∧ Js.trim u = u) →
  Js.trim (Js.or_empty (b_unit body)) = Js.or_empty (b_unit body) →
  Path.plain (filename f) = true →
  path f = Path.join [d; filename f] →
  path f ∈ files (disk s) →
  d = Path.join [STORAGE; "temp"]
  ∨ destination dirname_segs (Some subject) (Some type) (b_unit body) = Directory d →
  let deleted := delete_file dirname_segs e' subject type (b_unit body) (filename f)
                   (upload' e (Some f) body s).1 in
  deleted.2 = Success "File deleted successfully"
  ∧ (get_filePath dirname_segs subject type (b_unit body) (filename f)
     ∉ files (disk deleted.1))
  ∧ JsMap.get (upload_key body f) (fileMetadata deleted.1) = None
  ∧ (∀ k, k ≠ upload_key body f →
          JsMap.get k (fileMetadata deleted.1) = JsMap.get k (fileMetadata s))
  ∧ (∀ t, category_list t (fullBackupData deleted.1)
          = if String.eqb t type
            then filter (fun r => ¬ same_identity type (filename f) subject
                                     (Js.or_empty (b_unit body)) r)
                   (category_list t (fullBackupData s))
            else category_list t (fullBackupData s)).
Proof using dirname_plain.
  intros Hok Hsubject Htype Hs Hts Ht Hu Htu Hf Hpath Hin Hd deleted. subst deleted.
  pose proof (uploaded_file_in_place e f body s message subject type d
                Hok Hsubject Htype Hs Hts Ht Hu Hf Hpath Hin Hd) as Hthere.
  assert (Hkey : upload_key body f
                 = subject +:+ "-" +:+ type +:+ "-" +:+ Js.or_empty (b_unit body)
                   +:+ "-" +:+ filename f).
  { unfold upload_key, upload_subject, upload_type, upload_unit.
    rewrite Hsubject, Htype, Htu. unfold Js.or_empty at 1 2. cbn [from_option id].
    by rewrite Hts, (categories_trimmed _ Ht). }
  unfold delete_file. cbv zeta.
  change (delete_filePath dirname_segs) with (get_filePath dirname_segs).
  unfold Fs.existsSync. rewrite (bool_decide_eq_true_2 _ Hthere). cbn [fst snd].
  split; [done|].
  destruct (upload_outcome dirname_segs formatFileSize extname e (Some f) body s)
    as [[m Heq] | [(f' & fs & _ & _ & Heq) | (f' & fs & p & Hf' & _ & _ & _ & Heq)]];
    rewrite Heq in Hok, Hthere |- *; [done..|].
  injection Hf' as <-. cbn [fst] in *.
  split_and!.
  - unfold forget. cbn [saveMetadata disk files]. apply removeSync_gone.
  - rewrite Hkey. unfold forget. cbn [saveMetadata fileMetadata]. apply get_delete.
  - intros k Hk. unfold forget. cbn [saveMetadata fileMetadata]. rewrite <- Hkey.
    rewrite get_delete_ne by done. by apply get_set_ne.
  - intros t. rewrite category_list_forget.
    cbn [saveMetadata fullBackupData]. cbv zeta.
    rewrite category_list_with_subjects.
    assert (Htype' : upload_type body = type).
    { unfold upload_type. rewrite Htype. unfold Js.or_empty. cbn [from_option id].
      by apply categories_trimmed. }
    assert (Hsubject' : upload_subject body = subject).
    { unfold upload_subject. rewrite Hsubject. unfold Js.or_empty. by cbn [from_option id]. }
    unfold upload_unit. rewrite Htype', Htu, category_list_upsert by done.
    cbn [upload_record Rec.storedFileName Rec.subject]. rewrite Hsubject'.
    destruct (String.eqb t type); [|done].
    rewrite filter_not_app_single, filter_not_idemp; [done|].
    unfold same_identity, as_stored. destruct (String.eqb type "notes"); by cbn.
Qed.

End Served.

Lemma uploaded_file_is_served_witness :
  get_file sample_dirname "Math" "notes" (Some "U1") "Intro_To_Sets_1700000000123.pdf"
    (upload sample_dirname sample_size path_extname sample_env (Some parked_file)
       (body_of "notes" (Some "U1")) parked_server).1
  = SendFile "/srv/app/storage/Math/notes/U1/Intro_To_Sets_1700000000123.pdf".
Proof.
  apply (uploaded_file_is_served sample_dirname sample_size path_extname
           sample_dirname_plain sample_env parked_file (body_of "notes" (Some "U1"))
           parked_server "File uploaded successfully" "Math" "notes"
           "/srv/app/storage/temp"); try reflexivity.
  - by repeat constructor.
  - intros _. exists "U1". by split_and!.
  - by left.
Defined.

Lemma upload_then_delete_witness :
  let deleted :=
    delete_file sample_dirname later_env "Math" "notes" (Some "U1")
      "Intro_To_Sets_1700000000123.pdf"
      (upload sample_dirname sample_size path_extname sample_env (Some parked_file)
         (body_of "notes" (Some "U1")) parked_server).1 in
  deleted.2 = Success "File deleted successfully"
  ∧ JsMap.get "Math-notes-U1-Intro_To_Sets_1700000000123.pdf" (fileMetadata deleted.1) = None
  ∧ notes (fullBackupData deleted.1) = [].
Proof.
  cbn zeta.
  destruct (upload_then_delete sample_dirname sample_size path_extname
              sample_dirname_plain sample_env later_env parked_file
              (body_of "notes" (Some "U1")) parked_server
              "File uploaded successfully" "Math" "notes" "/srv/app/storage/temp")
    as (Hok & _ & Hkey & _ & Hlists); try reflexivity.
  - by repeat constructor.
  - intros _. exists "U1". by split_and!.
  - by left.
  - split_and!; [exact Hok | exact Hkey | exact (Hlists "notes")].
Defined.

(* ================================================================== *)
(** ** Subject names without repetition *)

Lemma filter_names_NoDup (P : Subject.t → Prop) `{∀ x, Decision (P x)} (l : list Subject.t) :
  NoDup (Subject.name <$> l) → NoDup (Subject.name <$> filter P l).
Proof.
  induction l as [|x l IH]; [done|].
  rewrite fmap_cons, NoDup_cons. intros [Hnot Hl]. rewrite filter_cons.
  destruct (decide (P x)); [|by apply IH].
  rewrite fmap_cons. apply NoDup_cons. split; [|by apply IH].
  intros (y & Hy & Hin)%list_elem_of_fmap. apply list_elem_of_filter in Hin as [_ Hin].
  apply Hnot. apply list_elem_of_fmap. by exists y.
Qed.

Lemma register_names_NoDup e subject type unit l :
  NoDup (Subject.name <$> l) →
  NoDup (Subject.name <$> register_subject e subject type unit l).
Proof.
  intros Hl. rewrite register_names. destruct (bool_decide _) eqn:Hin; [done|].
  apply bool_decide_eq_false in Hin. apply NoDup_app. split_and!; [done| |apply NoDup_singleton].
  by intros x Hx ->%list_elem_of_singleton.
Qed.

Lemma reconstruct_names_NoDup e b :
  NoDup (Subject.name <$> subjects b) →
  NoDup (Subject.name <$> subjects (reconstruct e b)).
Proof.
  intros Hb. unfold reconstruct. destruct (subjects b) as [|x l] eqn:Hs.
  - cbn [length Nat.eqb with_subjects subjects app]. rewrite reconstructed_names.
    rewrite allSubjects_distinct. apply NoDup_distinct.
  - cbn [length Nat.eqb]. by rewrite Hs.
Qed.

Lemma insert_same_name (l : list Subject.t) i x y :
  l !! i = Some x → Subject.name y = Subject.name x →
  Subject.name <$> <[i := y]> l = Subject.name <$> l.
Proof.
  intros Hi Hname. rewrite list_fmap_insert, Hname. apply list_insert_id.
  by rewrite list_lookup_fmap, Hi.
Qed.

Section SubjectNames.

Variable dirname_segs : list string.
Variable formatFileSize : N → string.
Variable extname : string → string.

Lemma handle_names_NoDup e r s :
  NoDup (Subject.name <$> subjects (fullBackupData s)) →
  NoDup (Subject.name <$>
           subjects (fullBackupData (handle dirname_segs formatFileSize extname e r s).1)).
Proof.
  intros Hs. destruct r as [file body|name units|subjectName unitName|
    subject type unit filename|subjectName]; cbn [handle].
  - destruct (upload_outcome dirname_segs formatFileSize extname e file body s)
      as [[m Heq] | [(f & fs & _ & _ & Heq) | (f & fs & p & _ & _ & _ & _ & Heq)]];
      rewrite Heq; cbn [fst with_files fullBackupData]; [done..|].
    cbn [saveMetadata fullBackupData with_subjects subjects].
    apply register_names_NoDup. by rewrite upsert_subjects.
  - unfold create_subject. cbn [fst saveMetadata with_fullBackupData fullBackupData
      with_subjects subjects]. unfold findIndex.
    destruct (list_find _ _) as [[i x]|] eqn:Hfind; cbn [fmap option_fmap option_map fst].
    + apply list_find_Some in Hfind as (Hi & Hname & _).
      by rewrite (insert_same_name _ i x).
    + apply list_find_None in Hfind. rewrite fmap_app. apply NoDup_app.
      split_and!; [done| |apply NoDup_singleton].
      intros y (x & Hy & Hx)%list_elem_of_fmap Hin.
      cbn in Hin. apply list_elem_of_singleton in Hin.
      apply (proj1 (Forall_forall _ _) Hfind x Hx). congruence.
  - unfold create_unit. cbv zeta. cbn [fst].
    destruct (list_find _ _) as [[i found]|]; [|done].
    destruct (bool_decide _); [done|].
    cbn [saveMetadata with_fullBackupData fullBackupData with_subjects subjects].
    rewrite alter_names; [done|]. apply push_unit_name.
  - unfold delete_file. cbv zeta.
    destruct (Fs.existsSync _ _); cbn [fst]; [by rewrite forget_subjects|].
    destruct (first_existing _ _); cbn [fst]; [by rewrite forget_subjects | done].
  - unfold delete_subject. destruct (_ || _); [done|].
    cbn [fst saveMetadata fullBackupData subjects]. by apply filter_names_NoDup.
Qed.

(** X20. No two subject entries ever carry the same name: when the names
    in the backup document are pairwise different, they are so after the
    start and after any sequence of requests. *)
Theorem subject_names_stay_distinct (e0 : Env) (d : Disk) (trace : list (Env * Request)) :
  NoDup (Subject.name <$> subjects (load d).2) →
  NoDup (Subject.name <$>
           subjects (fullBackupData
             (run dirname_segs formatFileSize extname trace (startup e0 d)))).
Proof.
  intros Hd.
  assert (Hstart : NoDup (Subject.name <$> subjects (fullBackupData (startup e0 d)))).
  { unfold startup. rewrite reconcile_fullBackupData. by apply reconstruct_names_NoDup. }
  revert Hstart. generalize (startup e0 d) as s.
  induction trace as [|[e r] trace IH]; intros s Hs; [done|].
  cbn [run]. by apply IH, handle_names_NoDup.
Qed.

End SubjectNames.

Lemma subject_names_stay_distinct_witness :
  NoDup (Subject.name <$>
           subjects (fullBackupData
             (run sample_dirname sample_size path_extname renaming_trace
                (startup sample_env one_subject_disk)))).
Proof.
  apply subject_names_stay_distinct. apply (bool_decide_unpack _). by vm_compute.
Defined.
